(** * civis-python: job futures and the joblib backend

    A shallow embedding of [civis/futures.py] and [civis/parallel.py].

    Python objects are records, a method is a function in a state-and-error
    monad over the object it mutates and the log of calls made to the outside
    (the Civis API client, [time], the notification transport).  The outside
    is an oracle: what a call answers is a function of everything that has
    happened so far. *)

From Stdlib Require Import ZArith QArith Strings.String Strings.Ascii Lia.
From stdpp Require Import base list sorting pretty.

Set Warnings "-register-all".

#[local] Open Scope Z_scope.
#[local] Open Scope list_scope.

(** ** Exceptions and results *)

(** The exception classes the two modules raise, catch or let through. *)
Inductive Exc : Type :=
  | ValueError
  | KeyError (key : string)
  | TypeError
  | IndexError
  | RuntimeError
  | UnboundLocalError
  | CivisAPIError (status_code : Z)
  | CivisJobFailure (err_msg : string)
  | JobSubmissionError (cause : Exc)
  | HTTPError
  | ConnectionError
  | ConnectTimeout
  | CancelledError
  | TransportableException (cause : Exc)
  | TransportableExceptionOfNone
  | KeyboardInterrupt
  | OtherException (tag : Z).

(** How a call ends: it returns, it raises, or it does not come back. *)
Inductive Res (A : Type) : Type :=
  | Ret (a : A)
  | Raise (e : Exc)
  | Diverge.
Arguments Ret {A} a.
Arguments Raise {A} e.
Arguments Diverge {A}.

#[local] Instance Res_ret : MRet Res := fun A a => Ret a.

#[local] Instance Res_bind : MBind Res := fun A B f r =>
  match r with
  | Ret a => f a
  | Raise e => Raise e
  | Diverge => Diverge
  end.

(** What the outside answers to a call: a value or an exception. *)
Inductive Answer (A : Type) : Type :=
  | Returns (a : A)
  | Raises (e : Exc).
Arguments Returns {A} a.
Arguments Raises {A} e.

Definition answer {A} (a : Answer A) : Res A :=
  match a with
  | Returns a => Ret a
  | Raises e => Raise e
  end.

(** Did the call return? *)
Definition returned {A} (r : Res A) : bool :=
  match r with
  | Ret _ => true
  | _ => false
  end.

(** ** The state-and-error monad *)

Definition M (S A : Type) : Type := S -> Res A * S.

#[local] Instance M_ret {S} : MRet (M S) := fun A a s => (Ret a, s).

#[local] Instance M_bind {S} : MBind (M S) := fun A B f m s =>
  match m s with
  | (Ret a, s') => f a s'
  | (Raise e, s') => (Raise e, s')
  | (Diverge, s') => (Diverge, s')
  end.

Definition raise {S A} (e : Exc) : M S A := fun s => (Raise e, s).

Definition gets {S A} (f : S -> A) : M S A := fun s => (Ret (f s), s).

Definition modify {S} (f : S -> S) : M S unit := fun s => (Ret tt, f s).

(** [try: body except catches as e: handler e]; the state reached when the
    exception was raised is the one the handler starts from. *)
Definition try_except {S A} (body : M S A) (catches : Exc -> bool)
    (handler : Exc -> M S A) : M S A := fun s =>
  match body s with
  | (Raise e, s') => if catches e then handler e s' else (Raise e, s')
  | r => r
  end.

(** [try: body except ...: handler else: orelse]. *)
Definition try_except_else {S A B} (body : M S A) (catches : Exc -> bool)
    (handler : Exc -> M S B) (orelse : A -> M S B) : M S B := fun s =>
  match body s with
  | (Ret a, s') => orelse a s'
  | (Raise e, s') => if catches e then handler e s' else (Raise e, s')
  | (Diverge, s') => (Diverge, s')
  end.

(** A computation that only reads: no state, errors only. *)
Definition lift_res {S A} (r : Res A) : M S A := fun s => (r, s).

(** Run a method of a part of the state on the whole state. *)
Definition zoom {S T A} (proj : S -> T) (inj : T -> S -> S) (m : M T A) : M S A :=
  fun s => let '(r, t) := m (proj s) in (r, inj t s).

Definition diverge {S A} : M S A := fun s => (Diverge, s).

(** ** Python values *)

(** [l[i]] for a constant index. *)
Definition list_getitem {A} (l : list A) (i : nat) : Res A :=
  match l !! i with
  | Some x => Ret x
  | None => Raise IndexError
  end.

(** [l[i] = x] for a constant index; Python raises out of range. *)
Definition list_setitem {A} (l : list A) (i : nat) (x : A) : Res (list A) :=
  if decide (i < length l)%nat then Ret (<[i:=x]> l) else Raise IndexError.

(** What a remote function call produced, as the backend stores it. *)
Inductive PyVal : Type :=
  | PNone
  | PObj (payload : Z)
  | PExc (e : Exc).

Definition is_none (v : PyVal) : bool :=
  match v with PNone => true | _ => false end.

(** [raise v]: only an exception instance can be raised. *)
Definition raise_value {S A} (v : PyVal) : M S A :=
  match v with
  | PExc e => raise e
  | _ => raise TypeError
  end.

(** ** The remote service and the log of calls *)

(** The state of a run as the service reports it. *)
Inductive RunState : Type := Queued | Running | Succeeded | Failed | Cancelled.

#[local] Instance RunState_eq_dec : EqDecision RunState.
Proof. solve_decision. Defined.

(** An API response: of all its fields the code reads [id] and [state]. *)
Record Response : Type := { r_id : Z; r_state : RunState }.

(** An entry of [client.scripts.list_containers_runs_outputs]. *)
Record RunOutput : Type := { object_id : Z }.

(** The callbacks registered on a future with [add_done_callback]. *)
Inductive Callback : Type :=
  | FetchResult (joblib_callback : nat)
  | UserCallback (tag : nat).

(** Everything a method does to the outside, in the order it happens: the
    requests to the service, the threads and subscriptions, the clock, the
    waiters and callbacks that are called.  [EvSubmit] marks a call of
    [executor.submit] by [apply_async]. *)
Inductive Event : Type :=
  | EvPostRuns (job_id : Z)
  | EvPostCancel (job_id : Z)
  | EvGetRun (job_id run_id : Z)
  | EvCreateJob (script_name cmd : string)
  | EvChannelsList
  | EvSubscribe (channels : list string)
  | EvUnsubscribeAll
  | EvThreadStart
  | EvThreadCancel
  | EvTime
  | EvSleep (seconds : Q)
  | EvAddCancelled (waiter : nat)
  | EvNotifyAll
  | EvInvokeCallback (cb : Callback)
  | EvListOutputs (job_id run_id : Z)
  | EvCivisToFile (file_id : Z)
  | EvJoblibLoad
  | EvFileToCivis
  | EvWait
  | EvSubmit
  | EvContinuation (value : PyVal).

Abbreviation Trace := (list Event).

(** An object together with the log. *)
Definition St (O : Type) : Type := (Trace * O)%type.

Definition emit {O} (ev : Event) : M (St O) unit :=
  modify (fun s => (s.1 ++ [ev], s.2)).

(** A call to the outside: the oracle answers from the log, the call is logged. *)
Definition api {O A} (ev : Event) (f : Trace -> Answer A) : M (St O) A :=
  fun s => (answer (f s.1), (s.1 ++ [ev], s.2)).

Definition self {O A} (f : O -> A) : M (St O) A := gets (fun s => f s.2).

Definition self_set {O} (f : O -> O) : M (St O) unit :=
  modify (fun s => (s.1, f s.2)).

(** Run a method of an object held in a field. *)
Definition on_field {O P A} (proj : O -> P) (inj : P -> O -> O)
    (m : M (St P) A) : M (St O) A :=
  zoom (fun s => (s.1, proj s.2)) (fun t s => (t.1, inj t.2 s.2)) m.

Fixpoint for_ {S A} (l : list A) (body : A -> M S unit) : M S unit :=
  match l with
  | [] => mret tt
  | x :: l => body x;; for_ l body
  end.

Definition sleep {O} (seconds : Q) : M (St O) unit := emit (EvSleep seconds).

(** ** [civis/futures.py]: the trackers *)

(** The pubnub handle of a future: the channels it is subscribed to. *)
Record PubNub : Type := { subscribed_channels : list string }.

(** A [ContainerFuture].  [poller_args] is the list [[job_id, run_id]];
    [_polling_thread] tells whether the polling thread is alive; [_pubnub] is
    [None] when the attribute is absent; waiters and callbacks are known by a
    number; [remote_func_output] and [result_fetched] are the attributes that
    [_CivisBackendResult] attaches. *)
Record Tracker : Type := {
  poller_args : list Z;
  _max_n_retries : Z;
  _result : option Response;
  _exception : option Exc;
  _last_result : option Response;
  _last_polled : option Q;
  _polling_thread : bool;
  _pubnub : option PubNub;
  _waiters : list nat;
  _done_callbacks : list Callback;
  remote_func_output : PyVal;
  result_fetched : bool;
  poll_on_creation : bool;
}.

Definition set_poller_args (v : list Z) (t : Tracker) : Tracker :=
  {| poller_args := v; _max_n_retries := _max_n_retries t;
     _result := _result t; _exception := _exception t;
     _last_result := _last_result t; _last_polled := _last_polled t;
     _polling_thread := _polling_thread t; _pubnub := _pubnub t;
     _waiters := _waiters t; _done_callbacks := _done_callbacks t;
     remote_func_output := remote_func_output t;
     result_fetched := result_fetched t;
     poll_on_creation := poll_on_creation t |}.

Definition set_max_n_retries (v : Z) (t : Tracker) : Tracker :=
  {| poller_args := poller_args t; _max_n_retries := v;
     _result := _result t; _exception := _exception t;
     _last_result := _last_result t; _last_polled := _last_polled t;
     _polling_thread := _polling_thread t; _pubnub := _pubnub t;
     _waiters := _waiters t; _done_callbacks := _done_callbacks t;
     remote_func_output := remote_func_output t;
     result_fetched := result_fetched t;
     poll_on_creation := poll_on_creation t |}.

Definition set_result (v : option Response) (t : Tracker) : Tracker :=
  {| poller_args := poller_args t; _max_n_retries := _max_n_retries t;
     _result := v; _exception := _exception t;
     _last_result := _last_result t; _last_polled := _last_polled t;
     _polling_thread := _polling_thread t; _pubnub := _pubnub t;
     _waiters := _waiters t; _done_callbacks := _done_callbacks t;
     remote_func_output := remote_func_output t;
     result_fetched := result_fetched t;
     poll_on_creation := poll_on_creation t |}.

Definition set_exception (v : option Exc) (t : Tracker) : Tracker :=
  {| poller_args := poller_args t; _max_n_retries := _max_n_retries t;
     _result := _result t; _exception := v;
     _last_result := _last_result t; _last_polled := _last_polled t;
     _polling_thread := _polling_thread t; _pubnub := _pubnub t;
     _waiters := _waiters t; _done_callbacks := _done_callbacks t;
     remote_func_output := remote_func_output t;
     result_fetched := result_fetched t;
     poll_on_creation := poll_on_creation t |}.

Definition set_last_result (v : option Response) (t : Tracker) : Tracker :=
  {| poller_args := poller_args t; _max_n_retries := _max_n_retries t;
     _result := _result t; _exception := _exception t;
     _last_result := v; _last_polled := _last_polled t;
     _polling_thread := _polling_thread t; _pubnub := _pubnub t;
     _waiters := _waiters t; _done_callbacks := _done_callbacks t;
     remote_func_output := remote_func_output t;
     result_fetched := result_fetched t;
     poll_on_creation := poll_on_creation t |}.

Definition set_last_polled (v : option Q) (t : Tracker) : Tracker :=
  {| poller_args := poller_args t; _max_n_retries := _max_n_retries t;
     _result := _result t; _exception := _exception t;
     _last_result := _last_result t; _last_polled := v;
     _polling_thread := _polling_thread t; _pubnub := _pubnub t;
     _waiters := _waiters t; _done_callbacks := _done_callbacks t;
     remote_func_output := remote_func_output t;
     result_fetched := result_fetched t;
     poll_on_creation := poll_on_creation t |}.

Definition set_polling_thread (v : bool) (t : Tracker) : Tracker :=
  {| poller_args := poller_args t; _max_n_retries := _max_n_retries t;
     _result := _result t; _exception := _exception t;
     _last_result := _last_result t; _last_polled := _last_polled t;
     _polling_thread := v; _pubnub := _pubnub t;
     _waiters := _waiters t; _done_callbacks := _done_callbacks t;
     remote_func_output := remote_func_output t;
     result_fetched := result_fetched t;
     poll_on_creation := poll_on_creation t |}.

Definition set_pubnub (v : option PubNub) (t : Tracker) : Tracker :=
  {| poller_args := poller_args t; _max_n_retries := _max_n_retries t;
     _result := _result t; _exception := _exception t;
     _last_result := _last_result t; _last_polled := _last_polled t;
     _polling_thread := _polling_thread t; _pubnub := v;
     _waiters := _waiters t; _done_callbacks := _done_callbacks t;
     remote_func_output := remote_func_output t;
     result_fetched := result_fetched t;
     poll_on_creation := poll_on_creation t |}.

Definition set_done_callbacks (v : list Callback) (t : Tracker) : Tracker :=
  {| poller_args := poller_args t; _max_n_retries := _max_n_retries t;
     _result := _result t; _exception := _exception t;
     _last_result := _last_result t; _last_polled := _last_polled t;
     _polling_thread := _polling_thread t; _pubnub := _pubnub t;
     _waiters := _waiters t; _done_callbacks := v;
     remote_func_output := remote_func_output t;
     result_fetched := result_fetched t;
     poll_on_creation := poll_on_creation t |}.

Definition set_remote_func_output (v : PyVal) (t : Tracker) : Tracker :=
  {| poller_args := poller_args t; _max_n_retries := _max_n_retries t;
     _result := _result t; _exception := _exception t;
     _last_result := _last_result t; _last_polled := _last_polled t;
     _polling_thread := _polling_thread t; _pubnub := _pubnub t;
     _waiters := _waiters t; _done_callbacks := _done_callbacks t;
     remote_func_output := v;
     result_fetched := result_fetched t;
     poll_on_creation := poll_on_creation t |}.

Definition set_result_fetched (v : bool) (t : Tracker) : Tracker :=
  {| poller_args := poller_args t; _max_n_retries := _max_n_retries t;
     _result := _result t; _exception := _exception t;
     _last_result := _last_result t; _last_polled := _last_polled t;
     _polling_thread := _polling_thread t; _pubnub := _pubnub t;
     _waiters := _waiters t; _done_callbacks := _done_callbacks t;
     remote_func_output := remote_func_output t;
     result_fetched := v; poll_on_creation := poll_on_creation t |}.

(** The outside world.  Every answer may depend on the calls made so far. *)
Record Env : Type := {
  (* does the client expose [channels], with pubnub importable *)
  has_channels : bool;
  post_runs : Trace -> Z -> Answer Response;
  post_cancel : Trace -> Z -> Answer Response;
  (* [client.scripts.get_containers_runs], the poller of a [ContainerFuture] *)
  get_containers_runs : Trace -> Z -> Z -> Answer Response;
  channels_list : Trace -> Answer (list string);
  time_time : Trace -> Q;
  (* [_CivisExecutor._create_job], abstract in the executor *)
  create_job : Trace -> string -> option (list (string * Z)) -> string -> Answer Response;
  list_containers_runs_outputs : Trace -> Z -> Z -> Answer (list RunOutput);
  civis_to_file : Trace -> Z -> Answer Z;
  joblib_load : Z -> Answer PyVal;
  file_to_civis : Trace -> Answer Z;
  (* [wait] and [Future.exception] block on a future that is not done: what
     the polling and notification threads make of it meanwhile, if ever *)
  await : Trace -> Tracker -> option Tracker;
  (* [civis.__version__] and [joblib.__version__] *)
  civis_version : string;
  jl_version : string;
}.

(** *** The base class, [civis.base] and [civis.polling] *)

(** Modelled from the spec: the status predicates of the base class
    ([civis.base], not among the sources).  The tracker reports the state
    carried by its recorded outcome [_result] (status values map directly onto
    the tracker's states); with no outcome recorded it is not terminal. *)
Definition _civis_state (t : Tracker) : RunState :=
  match _result t with
  | Some r => r_state r
  | None => Running
  end.

(** Modelled from the spec: [succeeded()], [failed()] and [cancelled()] of
    the base class report the terminal state the tracker is in. *)
Definition succeeded (t : Tracker) : bool := bool_decide (_civis_state t = Succeeded).
Definition failed (t : Tracker) : bool := bool_decide (_civis_state t = Failed).
Definition cancelled (t : Tracker) : bool := bool_decide (_civis_state t = Cancelled).

(** Modelled from the spec: the status that [done()] of the base class
    reports, whether the tracker is in one of the three terminal states. *)
Definition done (t : Tracker) : bool := succeeded t || failed t || cancelled t.

(** Modelled from the spec: the trackers on which [done()] forces a poll
    (4.3), those that have never polled and were made with [poll_on_creation]
    false.  A tracker has never polled while it holds no outcome and no
    result of a poll. *)
Definition must_poll (t : Tracker) : bool :=
  match _result t, _last_result t with
  | None, None => negb (poll_on_creation t)
  | _, _ => false
  end.

(** The exceptions [_robust_result_download] retries. *)
Definition retry_exc (e : Exc) : bool :=
  match e with
  | HTTPError | ConnectionError | ConnectTimeout => true
  | _ => false
  end.

(** [except Exception] lets through what is only a [BaseException]. *)
Definition is_Exception (e : Exc) : bool :=
  match e with
  | KeyboardInterrupt => false
  | _ => true
  end.

Section Futures.

Variable env : Env.

Definition time {O} : M (St O) Q := api EvTime (fun tr => Returns (time_time env tr)).

(** [ContainerFuture.job_id] and [ContainerFuture.run_id] *)
Definition job_id : M (St Tracker) Z :=
  args ← self poller_args; lift_res (list_getitem args 0).

Definition run_id : M (St Tracker) Z :=
  args ← self poller_args; lift_res (list_getitem args 1).

(** **** The completion hook of [civis/parallel.py]

    The callbacks of a future run inside the methods of the future, so the
    hook that [_CivisBackendResult] registers, and what it calls, come
    first. *)

(** The [while True] loop of [_robust_result_download]; [fuel] bounds the
    number of iterations. *)
Fixpoint _robust_result_download_loop {O} (fuel : nat)
    (output_file_id n_retries : Z) (delay : Q) (n_failed : Z)
    : M (St O) PyVal :=
  match fuel with
  | O => diverge
  | S fuel =>
      try_except_else
        (api (EvCivisToFile output_file_id)
           (fun tr => civis_to_file env tr output_file_id))
        retry_exc
        (fun exc =>
           if n_failed <? n_retries then
             sleep delay;;
             _robust_result_download_loop fuel output_file_id n_retries delay
               (n_failed + 1)
           else raise exc)
        (fun buffer => api EvJoblibLoad (fun _ => joblib_load env buffer))
  end.

(** [_robust_result_download]: the loop is entered with [n_failed = 0] and
    iterates at most once more than [n_retries]. *)
Definition _robust_result_download {O} (output_file_id n_retries : Z)
    (delay : Q) : M (St O) PyVal :=
  _robust_result_download_loop (S (Z.to_nat n_retries)) output_file_id
    n_retries delay 0.

(** [concurrent.futures.wait([fut])]: returns at once when the future is
    done, and otherwise when the background threads have completed it. *)
Definition wait : M (St Tracker) unit :=
  d ← self done;
  if (d : bool) then mret tt
  else fun s =>
    match await env s.1 s.2 with
    | Some t => (Ret tt, (s.1 ++ [EvWait], t))
    | None => (Diverge, s)
    end.

(** [concurrent.futures.Future.exception()], without timeout. *)
Definition exception : M (St Tracker) (option Exc) :=
  wait;;
  c ← self cancelled;
  if (c : bool) then raise CancelledError else self _exception.

(** The closure [_fetch_result] that [_make_fetch_callback] returns, called
    with the future [fut]. *)
Definition _fetch_result (joblib_callback : nat) : M (St Tracker) unit :=
  job_id;; run_id;;
  try_except_else
    (job ← job_id;
     run ← run_id;
     run_outputs ← api (EvListOutputs job run)
                     (fun tr => list_containers_runs_outputs env tr job run);
     match run_outputs with
     | o :: _ =>
         res ← _robust_result_download (object_id o) 5 1;
         self_set (set_remote_func_output res)
     | [] => mret tt
     end)
    (fun _ => true)
    (fun exc => self_set (set_remote_func_output (PExc exc)))
    (fun _ =>
       self_set (set_result_fetched true);;
       c ← self cancelled;
       if negb c then
         e ← exception;
         match e with
         | None =>
             out ← self remote_func_output;
             emit (EvContinuation out)
         | Some _ => mret tt
         end
       else mret tt).

(** **** [concurrent.futures.Future]: the callbacks *)

(** [try: callback(self) except Exception: LOGGER.exception(...)], the call
    of one callback in [_invoke_callbacks] and in [add_done_callback].  The
    call is logged.  The hook of a [_CivisBackendResult] is [_fetch_result];
    a callback of the caller's is an outside call, of which the model keeps
    the log entry alone, as it does for the continuation of joblib. *)
Definition call_callback (callback : Callback) : M (St Tracker) unit :=
  try_except
    (emit (EvInvokeCallback callback);;
     match callback with
     | FetchResult joblib_callback => _fetch_result joblib_callback
     | UserCallback _ => mret tt
     end)
    is_Exception
    (fun _ => mret tt).

(** [concurrent.futures.Future._invoke_callbacks]: every registered callback
    is called with the future, in the order of registration. *)
Definition _invoke_callbacks : M (St Tracker) unit :=
  cbs ← self _done_callbacks;
  for_ cbs call_callback.

(** [concurrent.futures.Future.add_done_callback]: on a future that is done
    the callback is called at once, and otherwise it is registered. *)
Definition add_done_callback (fn : Callback) : M (St Tracker) unit :=
  d ← self done;
  if (d : bool) then call_callback fn
  else self_set (fun t => set_done_callbacks (_done_callbacks t ++ [fn]) t).

(** **** [civis/futures.py] *)

(** Modelled from the spec: [PollableResult.cleanup] ([civis.polling], not
    among the sources) releases the polling resources: a polling thread that
    is alive is stopped. *)
Definition PollableResult_cleanup : M (St Tracker) unit :=
  alive ← self _polling_thread;
  if (alive : bool) then
    emit EvThreadCancel;;
    self_set (set_polling_thread false)
  else mret tt.

(** [CivisFuture.cleanup] *)
Definition cleanup : M (St Tracker) unit :=
  PollableResult_cleanup;;
  pn ← self _pubnub;
  match pn with
  | Some _ =>
      emit EvUnsubscribeAll;;
      self_set (set_pubnub (Some {| subscribed_channels := [] |}))
  | None => mret tt
  end.

(** [CivisFuture.subscribed] *)
Definition subscribed (t : Tracker) : bool :=
  match _pubnub t with
  | Some pn => bool_decide (0 < length (subscribed_channels pn))%nat
  | None => false
  end.

(** [CivisFuture._pubnub_config]: the channel names of [client.channels.list()]. *)
Definition _pubnub_config : M (St Tracker) (list string) :=
  api EvChannelsList (channels_list env).

(** [CivisFuture._subscribe] *)
Definition _subscribe (channels : list string) : M (St Tracker) PubNub :=
  emit (EvSubscribe channels);;
  mret {| subscribed_channels := channels |}.

(** Modelled from the spec: [PollableResult._set_api_exception]
    ([civis.polling], not among the sources), the terminal failure path: the
    outcome is recorded as failed with its cause, the waiters are notified,
    the polling and notification resources are released and the completion
    callbacks run. *)
Definition PollableResult_set_api_exception (exc : Exc)
    (result : option Response) : M (St Tracker) unit :=
  args ← self poller_args;
  let result := default {| r_id := default 0 (args !! 1%nat); r_state := Failed |} result in
  self_set (set_result (Some result));;
  self_set (set_last_result (Some result));;
  self_set (set_exception (Some exc));;
  emit EvNotifyAll;;
  cleanup;;
  _invoke_callbacks.

(** [ContainerFuture._set_api_exception] *)
Definition _set_api_exception (exc : Exc) (result : option Response)
    : M (St Tracker) unit :=
  n ← self _max_n_retries;
  if 0 <? n then
    cleanup;;
    job ← job_id;
    r ← api (EvPostRuns job) (fun tr => post_runs env tr job);
    self_set (set_last_result (Some r));;
    orig_run_id ← run_id;
    args ← self poller_args;
    args ← lift_res (list_setitem args 1 (r_id r));
    self_set (set_poller_args args);;
    self_set (fun t => set_max_n_retries (_max_n_retries t - 1) t);;
    now ← time;
    self_set (set_last_polled (Some now));;
    self_set (set_polling_thread true);;
    emit EvThreadStart;;
    pn ← self _pubnub;
    match pn with
    | Some _ =>
        channels ← _pubnub_config;
        pn ← _subscribe channels;
        self_set (set_pubnub (Some pn))
    | None => mret tt
    end
  else PollableResult_set_api_exception exc result.

Section Polling.

(** The [poller] the future was made with, called with the poller arguments,
    and [_set_api_result] of the base class ([civis.polling]). *)
Variable poller : list Z -> M (St Tracker) Response.
Variable _set_api_result : Response -> M (St Tracker) unit.

(** [CivisFuture._poll_and_set_api_result], on a [ContainerFuture]. *)
Definition _poll_and_set_api_result : M (St Tracker) unit :=
  try_except
    (args ← self poller_args;
     result ← poller args;
     _set_api_result result)
    is_Exception
    (fun e => _set_api_exception e None).

End Polling.

(** The poller of a [ContainerFuture], [client.scripts.get_containers_runs],
    called with the poller arguments unpacked: it takes the job and the run. *)
Definition scripts_get_containers_runs (args : list Z) : M (St Tracker) Response :=
  match args with
  | [job; run] =>
      api (EvGetRun job run) (fun tr => get_containers_runs env tr job run)
  | _ => raise TypeError
  end.

(** Modelled from the spec: [PollableResult._set_api_result]
    ([civis.polling], not among the sources), the internal completion path
    (4.3) for the status that was fetched.  A tracker that is terminal makes
    no further transition.  Otherwise the status is kept as the last result;
    a failed run goes to the failure path [_set_api_exception] (4.4) with the
    failure of the job; for another terminal status the resources are
    released, the outcome is recorded, the waiters are notified and the
    completion callbacks run; with any other status the tracker stays as it
    is. *)
Definition PollableResult_set_api_result (result : Response)
    : M (St Tracker) unit :=
  d ← self done;
  if (d : bool) then mret tt
  else
    self_set (set_last_result (Some result));;
    match r_state result with
    | Failed =>
        _set_api_exception (CivisJobFailure (pretty (r_id result))) (Some result)
    | Succeeded | Cancelled =>
        cleanup;;
        self_set (set_result (Some result));;
        emit EvNotifyAll;;
        _invoke_callbacks
    | Queued | Running => mret tt
    end.

(** Modelled from the spec: [done()] of the base class (4.3) forces one
    immediate poll-and-check, the completion path that the source has as
    [_poll_and_set_api_result], on a tracker that has never polled and was
    made with [poll_on_creation] false, and reports whether the tracker is
    terminal. *)
Definition PollableResult_done : M (St Tracker) bool :=
  p ← self must_poll;
  (if (p : bool) then
     _poll_and_set_api_result scripts_get_containers_runs
       PollableResult_set_api_result
   else mret tt);;
  self done.

(** [ContainerFuture.cancel] *)
Definition cancel : M (St Tracker) bool :=
  c ← self cancelled;
  if (c : bool) then mret true
  else
    d ← PollableResult_done;
    if negb d then
      job ← job_id;
      r ← api (EvPostCancel job) (fun tr => post_cancel env tr job);
      self_set (set_result (Some r));;
      ws ← self _waiters;
      for_ ws (fun waiter => emit (EvAddCancelled waiter));;
      emit EvNotifyAll;;
      cleanup;;
      _invoke_callbacks;;
      self cancelled
    else mret false.

(** [ContainerFuture.__init__], with [CivisFuture.__init__] above it.  The
    polling thread is created and not started; with [poll_on_creation] false
    the creation counts as the last poll. *)
Definition ContainerFuture_init (job_id run_id max_n_retries : Z)
    (poll_on_creation : bool) : M (St unit) Tracker :=
  last ← (if poll_on_creation then mret None else now ← time; mret (Some now));
  let t := {| poller_args := [job_id; run_id]; _max_n_retries := 0;
              _result := None; _exception := None; _last_result := None;
              _last_polled := last;
              _polling_thread := false; _pubnub := None;
              _waiters := []; _done_callbacks := [];
              remote_func_output := PNone; result_fetched := false;
              poll_on_creation := poll_on_creation |} in
  t ← (if has_channels env then
         channels ← api EvChannelsList (channels_list env);
         emit (EvSubscribe channels);;
         mret (set_pubnub (Some {| subscribed_channels := channels |}) t)
       else mret t);
  mret (set_max_n_retries max_n_retries t).


End Futures.

(** *** [_create_docker_command] *)

Section DockerCommand.

(** The values passed as arguments, with [str], [==] and [<] on them. *)
Context {Val : Type} (str : Val -> string).
Context (val_eqb val_ltb : Val -> Val -> bool).

(** [<] on the items of a dict: tuples compare at the first component that
    differs. *)
Definition item_ltb (a b : string * Val) : bool :=
  if negb (String.eqb a.1 b.1) then String.ltb a.1 b.1
  else if negb (val_eqb a.2 b.2) then val_ltb a.2 b.2
  else false.

(** [sorted]: a stable sort that compares with [<] only. *)
Fixpoint insert_sorted (x : string * Val) (l : list (string * Val))
    : list (string * Val) :=
  match l with
  | [] => [x]
  | y :: l' => if item_ltb x y then x :: l else y :: insert_sorted x l'
  end.

Definition sorted (l : list (string * Val)) : list (string * Val) :=
  foldl (fun acc x => insert_sorted x acc) [] l.

(** ["--{} {}".format(k, v)] *)
Definition format_kwarg (kv : string * Val) : string :=
  ("--" ++ kv.1 ++ " " ++ str kv.2)%string.

(** [kwargs] is the dict of keyword arguments as its items in insertion
    order. *)
Definition _create_docker_command (args : list Val)
    (kwargs : list (string * Val)) : string :=
  String.concat " " (map str args ++ map format_kwarg (sorted kwargs)).

End DockerCommand.

(** *** [_CivisExecutor] *)

(** The concrete executor class: [_ContainerShellExecutor] or
    [CustomScriptExecutor] with its template. *)
Inductive ExecutorKind : Type :=
  | ContainerShell
  | CustomScript (from_template_id : Z).

(** [_futures] holds the [ContainerFuture] objects themselves: a future is
    referred to by its position in that list. *)
Record Executor : Type := {
  kind : ExecutorKind;
  max_n_retries : Z;
  script_name : string;
  inc_script_names : bool;
  _script_name_counter : Z;
  _shutdown_thread : bool;
  _futures : list Tracker;
}.

Definition set_script_name_counter (v : Z) (e : Executor) : Executor :=
  {| kind := kind e; max_n_retries := max_n_retries e;
     script_name := script_name e; inc_script_names := inc_script_names e;
     _script_name_counter := v; _shutdown_thread := _shutdown_thread e;
     _futures := _futures e |}.

Definition set_shutdown_thread (v : bool) (e : Executor) : Executor :=
  {| kind := kind e; max_n_retries := max_n_retries e;
     script_name := script_name e; inc_script_names := inc_script_names e;
     _script_name_counter := _script_name_counter e; _shutdown_thread := v;
     _futures := _futures e |}.

Definition set_futures (v : list Tracker) (e : Executor) : Executor :=
  {| kind := kind e; max_n_retries := max_n_retries e;
     script_name := script_name e; inc_script_names := inc_script_names e;
     _script_name_counter := _script_name_counter e;
     _shutdown_thread := _shutdown_thread e; _futures := v |}.

(** Run a method of the future at position [i] of the registry. *)
Definition on_future {A} (i : nat) (m : M (St Tracker) A) : M (St Executor) A :=
  fun s =>
    match _futures s.2 !! i with
    | Some t =>
        let '(r, (tr, t')) := m (s.1, t) in
        (r, (tr, set_futures (<[i:=t']> (_futures s.2)) s.2))
    | None => (Raise IndexError, s)
    end.

Section Executor.

Variable env : Env.

(** [_CivisExecutor._make_future] *)
Definition _make_future (job_id run_id : Z) : M (St Executor) nat :=
  n ← self max_n_retries;
  future ← on_field (fun _ => tt) (fun _ e => e)
             (ContainerFuture_init env job_id run_id n false);
  fs ← self _futures;
  self_set (set_futures (fs ++ [future]));;
  mret (length fs).

(** [_CivisExecutor.submit] for [fn] a command string or [None]; the job is
    made by [_create_job], which each executor class implements with one
    request to the service. *)
Definition submit (fn : option string) (arguments : option (list (string * Z)))
    : M (St Executor) nat :=
  down ← self _shutdown_thread;
  if (down : bool) then raise RuntimeError
  else
    let cmd :=
      match fn with
      | Some cmd => cmd
      | None => _create_docker_command (fun _ : Empty_set => ""%string)
                  (fun _ _ => true) (fun _ _ => false) [] []
      end in
    name ← self script_name;
    inc ← self inc_script_names;
    name ← (if (inc : bool) then
              c ← self _script_name_counter;
              self_set (set_script_name_counter (c + 1));;
              mret (name ++ " " ++ pretty c)%string
            else mret name);
    job ← api (EvCreateJob name cmd)
            (fun tr => create_job env tr name arguments cmd);
    run ← api (EvPostRuns (r_id job)) (fun tr => post_runs env tr (r_id job));
    _make_future (r_id job) (r_id run).

(** [_CivisExecutor.cancel_all] *)
Definition cancel_all : M (St Executor) unit :=
  fs ← self _futures;
  for_ (seq 0 (length fs)) (fun f => on_future f (cancel env);; mret tt).

End Executor.

(** ** [civis/parallel.py] *)

(** Give the user this many jobs if they request "all of them". *)
Definition _ALL_JOBS : Z := 50.

(** An sh command that does nothing. *)
Definition _DEFAULT_SETUP_CMD : string := ":".

(** A [_CivisBackendResult]; [_future] is the future it was made for. *)
Record _CivisBackendResult : Type := {
  _future : Tracker;
  _callback : nat;
  result : PyVal;
}.

Definition set_future (v : Tracker) (r : _CivisBackendResult) : _CivisBackendResult :=
  {| _future := v; _callback := _callback r; result := result r |}.

Definition set_backend_result (v : PyVal) (r : _CivisBackendResult)
    : _CivisBackendResult :=
  {| _future := _future r; _callback := _callback r; result := v |}.

Record Backend : Type := {
  executor : Executor;
  setup_cmd : string;
  max_submit_retries : Z;
  using_template : bool;
}.

Definition set_executor (v : Executor) (b : Backend) : Backend :=
  {| executor := v; setup_cmd := setup_cmd b;
     max_submit_retries := max_submit_retries b;
     using_template := using_template b |}.

(** [_CivisBackend.__init__]: [executor_kwargs] are the retry budget of the
    jobs, the script name and whether to number the scripts. *)
Definition _CivisBackend_init (setup_cmd : string) (from_template_id : option Z)
    (max_submit_retries max_n_retries : Z) (script_name : string)
    (inc_script_names : bool) : Res Backend :=
  if max_submit_retries <? 0 then Raise ValueError
  else
    let kind :=
      match from_template_id with
      | Some i => if i =? 0 then ContainerShell else CustomScript i
      | None => ContainerShell
      end in
    Ret {| executor :=
             {| kind := kind; max_n_retries := max_n_retries;
                script_name := script_name; inc_script_names := inc_script_names;
                _script_name_counter := 0; _shutdown_thread := false;
                _futures := [] |};
           setup_cmd := setup_cmd;
           max_submit_retries := max_submit_retries;
           using_template := bool_decide (from_template_id <> None) |}.

(** [_CivisBackend.effective_n_jobs] *)
Definition effective_n_jobs (n_jobs : Z) : Res Z :=
  let n_jobs := if n_jobs =? -1 then _ALL_JOBS else n_jobs in
  if n_jobs <=? 0 then Raise ValueError else Ret n_jobs.

Definition is_CivisAPIError (e : Exc) : bool :=
  match e with
  | CivisAPIError _ => true
  | _ => false
  end.

(** [range(n)] *)
Definition range (n : Z) : list Z := Z.of_nat <$> seq 0 (Z.to_nat n).

Section Parallel.

Variable env : Env.

(** [_CivisBackendResult.__init__], as it acts on the future it is given. *)
Definition _CivisBackendResult_init (callback : nat)
    : M (St Tracker) _CivisBackendResult :=
  self_set (set_remote_func_output PNone);;
  self_set (set_result_fetched false);;
  add_done_callback env (FetchResult callback);;
  future ← self id;
  mret {| _future := future; _callback := callback; result := PNone |}.

(** [_CivisBackendResult.get] *)
Definition get : M (St _CivisBackendResult) PyVal :=
  r ← self result;
  (if is_none r then
     on_field _future set_future (wait env);;
     out ← self (fun s => remote_func_output (_future s));
     self_set (set_backend_result out)
   else mret tt);;
  e ← on_field _future set_future (exception env);
  fetched ← self (fun s => result_fetched (_future s));
  if bool_decide (e <> None) || negb fetched then
    r ← self result;
    if negb (is_none r) then raise_value r
    else
      exc ← on_field _future set_future (exception env);
      match exc with
      | Some exc => raise (TransportableException exc)
      | None => raise TransportableExceptionOfNone
      end
  else self result.

(** The command that runs the uploaded function in the container. *)
Definition runner_command (setup_cmd : string) (func_file_id : Z) : string :=
  let runner_remote_path := "civis_joblib_worker"%string in
  (setup_cmd ++ " && " ++
   "if command -v " ++ runner_remote_path ++ " >/dev/null; " ++
   "then exec " ++ runner_remote_path ++ " " ++ pretty func_file_id ++ "; " ++
   "else pip install civis==" ++ civis_version env ++ " && " ++
   "pip install joblib==" ++ jl_version env ++ " && " ++
   "exec " ++ runner_remote_path ++ " " ++ pretty func_file_id ++ "; fi")%string.

(** One call of [self.executor.submit] from [apply_async]: with a template
    the file id goes in as a keyword argument, which only the [submit] of
    [CustomScriptExecutor] takes ([_CivisExecutor.submit] wants [fn]), and
    otherwise the command goes in as [fn]. *)
Definition executor_submit (cmd : string) (func_file_id : Z)
    : M (St Backend) nat :=
  emit EvSubmit;;
  template ← self using_template;
  k ← self (fun b => kind (executor b));
  if (template : bool) then
    match k with
    | CustomScript _ =>
        on_field executor set_executor
          (submit env None (Some [("JOBLIB_FUNC_FILE_ID"%string, func_file_id)]))
    | ContainerShell => raise TypeError
    end
  else on_field executor set_executor (submit env (Some cmd) None).

(** The submission loop of [apply_async]: [Some future] when an iteration
    reached [break], [None] when the range ran out. *)
Fixpoint submit_loop (cmd : string) (func_file_id : Z) (rng : list Z)
    : M (St Backend) (option nat) :=
  match rng with
  | [] => mret None
  | n_retries :: rng =>
      future ←
        try_except
          (future ← executor_submit cmd func_file_id; mret (Some future))
          is_CivisAPIError
          (fun e =>
             k ← self max_submit_retries;
             let retries_left := k - n_retries - 1 in
             if retries_left <? 1 then raise (JobSubmissionError e)
             else sleep (inject_Z (2 ^ n_retries));; mret None);
      match future with
      | Some future => mret (Some future)
      | None => submit_loop cmd func_file_id rng
      end
  end.

(** The end of [apply_async], once [future] is bound: the polling of a
    future with retries is started by asking whether it is done, and the
    future is wrapped. *)
Definition wrap_future (callback future : nat)
    : M (St Backend) _CivisBackendResult :=
  n ← self (fun b => max_n_retries (executor b));
  (if negb (n =? 0) then
     on_field executor set_executor
       (on_future future (PollableResult_done env));;
     mret tt
   else mret tt);;
  on_field executor set_executor
    (on_future future (_CivisBackendResult_init callback)).

(** [_CivisBackend.apply_async] *)
Definition apply_async (callback : nat) : M (St Backend) _CivisBackendResult :=
  func_file_id ← api EvFileToCivis (file_to_civis env);
  setup ← self setup_cmd;
  let cmd := runner_command setup func_file_id in
  k ← self max_submit_retries;
  future ← submit_loop cmd func_file_id (range (1 + k));
  match future with
  | None => raise UnboundLocalError
  | Some future => wrap_future callback future
  end.

End Parallel.

(** ** Notification messages: [CivisFuture._check_message] *)

(** A message as the transport delivers it, and the poller arguments of a
    [CivisFuture]: JSON-like Python values.  A dict is the list of its items. *)
Inductive PyJson : Type :=
  | JNone
  | JBool (b : bool)
  | JInt (z : Z)
  | JStr (s : string)
  | JList (l : list PyJson)
  | JDict (d : list (string * PyJson)).

(** [d[k]] on the items of a dict. *)
Fixpoint dict_lookup (k : string) (d : list (string * PyJson)) : option PyJson :=
  match d with
  | [] => None
  | (k', v) :: d => if String.eqb k k' then Some v else dict_lookup k d
  end.

(** [v[k]] for a string [k]: a dict raises [KeyError] on a missing key, any
    other value does not take a string subscript. *)
Definition getitem (v : PyJson) (k : string) : Res PyJson :=
  match v with
  | JDict d =>
      match dict_lookup k d with
      | Some x => Ret x
      | None => Raise (KeyError k)
      end
  | _ => Raise TypeError
  end.

(** [a == b]: numbers and booleans compare by value, lists item by item,
    dicts key by key. *)
Fixpoint py_eq (a b : PyJson) {struct a} : bool :=
  match a, b with
  | JNone, JNone => true
  | JBool x, JBool y => bool_decide (x = y)
  | JBool x, JInt y => (if x then 1 else 0) =? y
  | JInt x, JBool y => x =? (if y then 1 else 0)
  | JInt x, JInt y => x =? y
  | JStr x, JStr y => String.eqb x y
  | JList x, JList y =>
      (fix all2 (x y : list PyJson) {struct x} : bool :=
         match x, y with
         | [], [] => true
         | a :: x, b :: y => py_eq a b && all2 x y
         | _, _ => false
         end) x y
  | JDict x, JDict y =>
      (length x =? length y)%nat &&
      (fix sub (x : list (string * PyJson)) {struct x} : bool :=
         match x with
         | [] => true
         | (k, a) :: x =>
             match dict_lookup k y with
             | Some b => py_eq a b && sub x
             | None => false
             end
         end) x
  | _, _ => false
  end.

(** [x in l] for a list [l]. *)
Definition py_in (x : PyJson) (l : list PyJson) : bool :=
  existsb (py_eq x) l.

(** Catch [KeyError] only. *)
Definition is_KeyError (e : Exc) : bool :=
  match e with
  | KeyError _ => true
  | _ => false
  end.

Section CheckMessage.

(** [civis.base.DONE], the states of a finished run. *)
Variable DONE : list PyJson.

(** [CivisFuture._check_message], on the [poller_args] of the future. *)
Definition _check_message (poller_args : list PyJson) (message : PyJson)
    : Res bool :=
  let body : Res bool :=
    if (length poller_args =? 1)%nat then
      object_id ← (object ← getitem message "object"; getitem object "id");
      job_id ← list_getitem poller_args 0;
      if py_eq object_id job_id then
        state ← (run ← getitem message "run"; getitem run "state");
        mret (py_in state DONE)
      else mret false
    else
      object_id ← (object ← getitem message "object"; getitem object "id");
      job_id ← list_getitem poller_args 0;
      if py_eq object_id job_id then
        run_id' ← (run ← getitem message "run"; getitem run "id");
        run_id ← list_getitem poller_args 1;
        if py_eq run_id' run_id then
          state ← (run ← getitem message "run"; getitem run "state");
          mret (py_in state DONE)
        else mret false
      else mret false
  in
  match body with
  | Raise e => if is_KeyError e then Ret false else Raise e
  | r => r
  end.

(** [JobCompleteListener.message]: the completion callback runs when the
    match function accepts the message. *)
Definition listener_message {O} (match_function : PyJson -> Res bool)
    (callback_function : M (St O) unit) (message : PyJson) : M (St O) unit :=
  matched ← lift_res (match_function message);
  if (matched : bool) then callback_function else mret tt.

End CheckMessage.

(** ** Reading messages and the log *)

(** [m[k1][k2]] when both lookups succeed. *)
Definition path (m : PyJson) (k1 k2 : string) : option PyJson :=
  match m with
  | JDict d =>
      match dict_lookup k1 d with
      | Some (JDict d') => dict_lookup k2 d'
      | _ => None
      end
  | _ => None
  end.

(** A message of the shape the service publishes: a dict whose ["object"]
    and ["run"] entries, where present, are dicts. *)
Definition entry_is_dict (k : string) (d : list (string * PyJson)) : Prop :=
  forall v, dict_lookup k d = Some v -> exists d', v = JDict d'.

Definition message_shaped (m : PyJson) : Prop :=
  exists d, m = JDict d /\ entry_is_dict "object" d /\ entry_is_dict "run" d.

(** The states of a finished run, for the examples. *)
Definition example_DONE : list PyJson :=
  [JStr "succeeded"; JStr "failed"; JStr "cancelled"].

Definition example_message : PyJson :=
  JDict [("object"%string, JDict [("id"%string, JInt 8)]);
         ("run"%string, JDict [("id"%string, JInt 3);
                               ("state"%string, JStr "succeeded")])].

(** The calls of each kind that a log records, in order. *)
Definition new_runs (tr : Trace) : list Z :=
  omap (fun ev => match ev with EvPostRuns j => Some j | _ => None end) tr.

Definition cancel_requests (tr : Trace) : list Z :=
  omap (fun ev => match ev with EvPostCancel j => Some j | _ => None end) tr.

Definition sleeps (tr : Trace) : list Q :=
  omap (fun ev => match ev with EvSleep s => Some s | _ => None end) tr.

Definition submit_attempts (tr : Trace) : nat :=
  length (omap (fun ev => match ev with EvSubmit => Some tt | _ => None end) tr).

Definition download_attempts (tr : Trace) : nat :=
  length (omap (fun ev => match ev with EvCivisToFile f => Some f | _ => None end) tr).

Definition continuation_calls (tr : Trace) : list PyVal :=
  omap (fun ev => match ev with EvContinuation v => Some v | _ => None end) tr.

Definition status_requests (tr : Trace) : list (Z * Z) :=
  omap (fun ev => match ev with EvGetRun j r => Some (j, r) | _ => None end) tr.

(** The service is up: it starts every run it is asked for and lists the
    notification channels. *)
Definition service_up (env : Env) : Prop :=
  (forall tr job, exists r, post_runs env tr job = Returns r) /\
  (forall tr, exists channels, channels_list env tr = Returns channels).

(** Ascending order of the keys of dict items. *)
Definition key_lt {Val : Type} (a b : string * Val) : Prop :=
  String.ltb a.1 b.1 = true.

(** What [cleanup] logs for a tracker, and the tracker it leaves: the polling
    thread stopped, the notification handle unsubscribed from everything. *)
Definition cleanup_events (t : Tracker) : Trace :=
  (if _polling_thread t then [EvThreadCancel] else []) ++
  (match _pubnub t with Some _ => [EvUnsubscribeAll] | None => [] end).

Definition released (t : Tracker) : Tracker :=
  let t := if _polling_thread t then set_polling_thread false t else t in
  match _pubnub t with
  | Some _ => set_pubnub (Some {| subscribed_channels := [] |}) t
  | None => t
  end.

(** A tracker has a job id when its poller arguments are not empty. *)
Definition has_job (t : Tracker) : Prop :=
  exists job rest, poller_args t = job :: rest.

(** The job a tracker would ask the service to cancel: none once done. *)
Definition pending_job (t : Tracker) : option Z :=
  if done t then None else poller_args t !! 0%nat.

(** The response reports the run in a terminal state. *)
Definition finished (r : Response) : bool :=
  match r_state r with
  | Succeeded | Failed | Cancelled => true
  | Queued | Running => false
  end.


(** The service answers every cancel request with the run in a terminal
    state. *)
Definition service_stops_runs (env : Env) : Prop :=
  forall tr job,
    exists ack, post_cancel env tr job = Returns ack /\ finished ack = true.

(** The service reports every run it is asked about as in progress. *)
Definition runs_in_progress (env : Env) : Prop :=
  forall tr job run,
    exists st,
      get_containers_runs env tr job run = Returns st /\ finished st = false.

(** A tracker whose status [done()] can tell when the runs are in progress:
    one that it does not poll, or one with the job and the run for the poller
    on a service that reports the runs as in progress. *)
Definition pollable (env : Env) (t : Tracker) : Prop :=
  must_poll t = false \/
  (runs_in_progress env /\ exists job run, poller_args t = [job; run]).

(** ** Examples *)

(** A service that starts runs numbered from 100, reports a cancelled run
    as cancelled, lists one output per run and serves every file. *)
Definition example_env : Env :=
  {| has_channels := true;
     post_runs := fun tr job =>
       Returns {| r_id := 100 + Z.of_nat (length (new_runs tr)); r_state := Queued |};
     post_cancel := fun tr job => Returns {| r_id := job; r_state := Cancelled |};
     get_containers_runs := fun tr job run =>
       Returns {| r_id := run; r_state := Running |};
     channels_list := fun tr => Returns ["job-updates"%string];
     time_time := fun tr => inject_Z (Z.of_nat (length tr));
     create_job := fun tr name arguments cmd =>
       Returns {| r_id := 7; r_state := Queued |};
     list_containers_runs_outputs := fun tr job run => Returns [{| object_id := 11 |}];
     civis_to_file := fun tr file_id => Returns 42;
     joblib_load := fun buffer => Returns (PObj buffer);
     file_to_civis := fun tr => Returns 1;
     await := fun tr t => None;
     civis_version := "1.9.0";
     jl_version := "0.11" |}.


(** A tracker of run 6 of job 5, with the outcome given. *)
Definition example_tracker (outcome : option Response) : Tracker :=
  {| poller_args := [5; 6]; _max_n_retries := 0;
     _result := outcome; _exception := None; _last_result := outcome;
     _last_polled := None; _polling_thread := true;
     _pubnub := Some {| subscribed_channels := ["job-updates"%string] |};
     _waiters := [1%nat]; _done_callbacks := [UserCallback 0];
     remote_func_output := PNone; result_fetched := false;
     poll_on_creation := true |}.

Definition example_executor (futures : list Tracker) : Executor :=
  {| kind := ContainerShell; max_n_retries := 0; script_name := "script";
     inc_script_names := false; _script_name_counter := 0;
     _shutdown_thread := false; _futures := futures |}.

Definition succeeded_run : Response := {| r_id := 6; r_state := Succeeded |}.

(** Five trackers still running and two that succeeded. *)
Definition example_registry : list Tracker :=
  [example_tracker None; example_tracker None; example_tracker (Some succeeded_run);
   example_tracker None; example_tracker None; example_tracker (Some succeeded_run);
   example_tracker None].

(** Every attempt to download the file fails, or fails with an exception
    that [_robust_result_download] retries. *)
Definition download_fails (env : Env) (file_id : Z) : Prop :=
  forall tr, exists e, civis_to_file env tr file_id = Raises e.

Definition download_fails_transiently (env : Env) (file_id : Z) : Prop :=
  forall tr, exists e,
    civis_to_file env tr file_id = Raises e /\ retry_exc e = true.

(** The guard of the continuation in [_fetch_result]: not cancelled and no
    exception recorded. *)
Definition hook_continues (t : Tracker) : bool :=
  negb (cancelled t) && bool_decide (_exception t = None).

(** What a completion callback logs: that it is called, the requests for
    the output of the run and the sleeps between them, a wait for the future
    and the call of the continuation. *)
Definition hook_event (ev : Event) : bool :=
  match ev with
  | EvInvokeCallback _ | EvListOutputs _ _ | EvCivisToFile _ | EvJoblibLoad
  | EvSleep _ | EvWait | EvContinuation _ => true
  | _ => false
  end.

Definition hook_events (evs : Trace) : Prop := forallb hook_event evs = true.

(** A callback of the caller's, as opposed to the hook of a result. *)
Definition user_callback (cb : Callback) : bool :=
  match cb with
  | UserCallback _ => true
  | FetchResult _ => false
  end.

(** A tracker once completion hooks ran on it: the two attributes that
    [_fetch_result] sets. *)
Definition hooked (v : PyVal) (fetched : bool) (t : Tracker) : Tracker :=
  set_remote_func_output v (set_result_fetched fetched t).

(** The example service with file downloads failing on the connection. *)
Definition download_down_env : Env :=
  {| has_channels := has_channels example_env;
     post_runs := post_runs example_env;
     post_cancel := post_cancel example_env;
     get_containers_runs := get_containers_runs example_env;
     channels_list := channels_list example_env;
     time_time := time_time example_env;
     create_job := create_job example_env;
     list_containers_runs_outputs := list_containers_runs_outputs example_env;
     civis_to_file := fun tr file_id => Raises ConnectionError;
     joblib_load := joblib_load example_env;
     file_to_civis := file_to_civis example_env;
     await := await example_env;
     civis_version := civis_version example_env;
     jl_version := jl_version example_env |}.

(** A succeeded run with the completion hook about to be called. *)
Definition succeeded_tracker : Tracker := example_tracker (Some succeeded_run).

(** A tracker still running that a result wraps: the completion hook of the
    result is its callback. *)
Definition wrapped_tracker : Tracker :=
  set_done_callbacks [FetchResult 0] (example_tracker None).

(** The example service, answering a cancel request with the run failed. *)
Definition cancel_failed_env : Env :=
  {| has_channels := has_channels example_env;
     post_runs := post_runs example_env;
     post_cancel := fun tr job => Returns {| r_id := job; r_state := Failed |};
     get_containers_runs := get_containers_runs example_env;
     channels_list := channels_list example_env;
     time_time := time_time example_env;
     create_job := create_job example_env;
     list_containers_runs_outputs := list_containers_runs_outputs example_env;
     civis_to_file := civis_to_file example_env;
     joblib_load := joblib_load example_env;
     file_to_civis := file_to_civis example_env;
     await := await example_env;
     civis_version := civis_version example_env;
     jl_version := jl_version example_env |}.

(** The service with job creation failing twice with a server error before
    it works. *)
Definition flaky_submit_env : Env :=
  {| has_channels := has_channels example_env;
     post_runs := post_runs example_env;
     post_cancel := post_cancel example_env;
     get_containers_runs := get_containers_runs example_env;
     channels_list := channels_list example_env;
     time_time := time_time example_env;
     create_job := fun tr name arguments cmd =>
       if bool_decide (submit_attempts tr <= 2)%nat
       then Raises (CivisAPIError 503)
       else Returns {| r_id := 7; r_state := Queued |};
     list_containers_runs_outputs := list_containers_runs_outputs example_env;
     civis_to_file := civis_to_file example_env;
     joblib_load := joblib_load example_env;
     file_to_civis := file_to_civis example_env;
     await := await example_env;
     civis_version := civis_version example_env;
     jl_version := jl_version example_env |}.

(** A backend as [__init__] makes it, with [max_submit_retries = k]. *)
Definition example_backend (k : Z) : Backend :=
  {| executor := example_executor []; setup_cmd := _DEFAULT_SETUP_CMD;
     max_submit_retries := k; using_template := false |}.

(** Job creation always fails with an API error. *)
Definition submission_fails (env : Env) : Prop :=
  forall tr name arguments cmd,
    exists code, create_job env tr name arguments cmd = Raises (CivisAPIError code).

(** A backend that can submit: the executor is not shut down, and a template
    is used with a [CustomScriptExecutor]. *)
Definition can_submit (b : Backend) : Prop :=
  _shutdown_thread (executor b) = false /\
  (using_template b = true -> exists i, kind (executor b) = CustomScript i).

(** The backoff before the retries that follow attempts [i], [i+1], ... *)
Definition backoff (i n : nat) : list Q :=
  (fun j => inject_Z (2 ^ Z.of_nat j)) <$> seq i n.

(** The attempts of the submission loop, from attempt [i] on and from the
    state [s]: it makes [a] attempts, every attempt but the last raises a
    [CivisAPIError] and is followed by a sleep of [2^i] seconds, and [last]
    is how the last attempt ends. *)
Fixpoint attempts_made (env : Env) (cmd : string) (fid : Z) (i a : nat)
    (s : St Backend) (last : Res nat * St Backend) : Prop :=
  match a with
  | O => False
  | S a' =>
      match a' with
      | O => executor_submit env cmd fid s = last
      | S _ =>
          exists e s1,
            executor_submit env cmd fid s = (Raise e, s1) /\
            is_CivisAPIError e = true /\
            attempts_made env cmd fid (S i) a'
              (s1.1 ++ [EvSleep (inject_Z (2 ^ Z.of_nat i))], s1.2) last
      end
  end.

(** The service with job creation always failing with a server error. *)
Definition failing_submit_env : Env :=
  {| has_channels := has_channels example_env;
     post_runs := post_runs example_env;
     post_cancel := post_cancel example_env;
     get_containers_runs := get_containers_runs example_env;
     channels_list := channels_list example_env;
     time_time := time_time example_env;
     create_job := fun tr name arguments cmd => Raises (CivisAPIError 503);
     list_containers_runs_outputs := list_containers_runs_outputs example_env;
     civis_to_file := civis_to_file example_env;
     joblib_load := joblib_load example_env;
     file_to_civis := file_to_civis example_env;
     await := await example_env;
     civis_version := civis_version example_env;
     jl_version := jl_version example_env |}.

(** Arguments of a docker command: strings and integers. *)
Inductive Arg : Type :=
  | AStr (s : string)
  | AInt (z : Z).

Definition str_arg (a : Arg) : string :=
  match a with
  | AStr s => s
  | AInt z => pretty z
  end.

Definition arg_eqb (a b : Arg) : bool :=
  match a, b with
  | AStr x, AStr y => String.eqb x y
  | AInt x, AInt y => x =? y
  | _, _ => false
  end.

Definition arg_ltb (a b : Arg) : bool :=
  match a, b with
  | AStr x, AStr y => String.ltb x y
  | AInt x, AInt y => x <? y
  | _, _ => false
  end.

(** ** The rest of the two modules *)

(** *** Dictionaries *)

(** A dict as the list of its items in insertion order. *)
Abbreviation Dict := (list (string * PyJson)).

(** [d.get(k)] *)
Fixpoint dict_get {V} (k : string) (d : list (string * V)) : option V :=
  match d with
  | [] => None
  | (k', v) :: d => if String.eqb k k' then Some v else dict_get k d
  end.

(** [d[k] = v]: the value of a key that is there is replaced where it is, a
    new key goes last. *)
Fixpoint dict_setitem {V} (k : string) (v : V) (d : list (string * V))
    : list (string * V) :=
  match d with
  | [] => [(k, v)]
  | (k', v') :: d =>
      if String.eqb k k' then (k', v) :: d else (k', v') :: dict_setitem k v d
  end.

(** [d.update(other)] *)
Definition dict_update {V} (d other : list (string * V)) : list (string * V) :=
  foldl (fun d kv => dict_setitem kv.1 kv.2 d) d other.

(** *** [_create_job] of the two executor classes *)

(** The dictionary that both [_create_job] methods send as [arguments]: the
    arguments of the instance updated with those of the call, and [None]
    instead of an empty dictionary. *)
Definition combined_args {V} (self_arguments arguments : option (list (string * V)))
    : option (list (string * V)) :=
  let combined_args :=
    dict_update (default [] self_arguments) (default [] arguments) in
  match combined_args with
  | [] => None
  | _ => Some combined_args
  end.

(** The attributes of a [_ContainerShellExecutor] that [_create_job] reads. *)
Module ShellExecutor.
Record t : Type := {
  docker_image_name : string;
  docker_image_tag : string;
  repo_http_uri : option string;
  repo_ref : option string;
  git_credential_id : option Z;
  required_resources : list (string * Z);
  time_zone : option string;
  hidden : bool;
  params : option (list Dict);
  arguments : option (list (string * Z));
}.
End ShellExecutor.

(** The keyword arguments of a call of [client.scripts.post_containers]. *)
Module PostContainers.
Record t : Type := {
  name : string;
  required_resources : list (string * Z);
  repo_http_uri : option string;
  repo_ref : option string;
  docker_command : string;
  docker_image_name : string;
  docker_image_tag : string;
  time_zone : option string;
  hidden : bool;
  params : option (list Dict);
  arguments : option (list (string * Z));
  git_credential_id : option Z;
}.
End PostContainers.

(** [_ContainerShellExecutor._create_job] *)
Definition _ContainerShellExecutor_create_job
    (post_containers : Trace -> PostContainers.t -> Answer Response)
    (ex : ShellExecutor.t) (tr : Trace) (script_name : string)
    (arguments : option (list (string * Z))) (cmd : string) : Answer Response :=
  let combined_args := combined_args (ShellExecutor.arguments ex) arguments in
  post_containers tr
    {| PostContainers.name := script_name;
       PostContainers.required_resources := ShellExecutor.required_resources ex;
       PostContainers.repo_http_uri := ShellExecutor.repo_http_uri ex;
       PostContainers.repo_ref := ShellExecutor.repo_ref ex;
       PostContainers.docker_command := cmd;
       PostContainers.docker_image_name := ShellExecutor.docker_image_name ex;
       PostContainers.docker_image_tag := ShellExecutor.docker_image_tag ex;
       PostContainers.time_zone := ShellExecutor.time_zone ex;
       PostContainers.hidden := ShellExecutor.hidden ex;
       PostContainers.params := ShellExecutor.params ex;
       PostContainers.arguments := combined_args;
       PostContainers.git_credential_id := ShellExecutor.git_credential_id ex |}.

(** The attributes of a [CustomScriptExecutor] that [_create_job] reads. *)
Module CustomExecutor.
Record t : Type := {
  from_template_id : Z;
  hidden : bool;
  arguments : option (list (string * Z));
}.
End CustomExecutor.

(** The arguments of a call of [client.scripts.post_custom]. *)
Module PostCustom.
Record t : Type := {
  from_template_id : Z;
  name : string;
  arguments : option (list (string * Z));
  hidden : bool;
}.
End PostCustom.

(** [CustomScriptExecutor._create_job] *)
Definition CustomScriptExecutor_create_job
    (post_custom : Trace -> PostCustom.t -> Answer Response)
    (ex : CustomExecutor.t) (tr : Trace) (script_name : string)
    (arguments : option (list (string * Z))) (cmd : string) : Answer Response :=
  let combined_args := combined_args (CustomExecutor.arguments ex) arguments in
  post_custom tr
    {| PostCustom.from_template_id := CustomExecutor.from_template_id ex;
       PostCustom.name := script_name;
       PostCustom.arguments := combined_args;
       PostCustom.hidden := CustomExecutor.hidden ex |}.

(** *** [shutdown] and [abort_everything] *)

Section Shutdown.

Variable env : Env.

(** [futures.wait(self._futures)]: comes back when every future of the
    registry is done. *)
Definition futures_wait : M (St Executor) unit :=
  fs ← self _futures;
  for_ (seq 0 (length fs)) (fun f => on_future f (wait env)).

(** [_CivisExecutor.shutdown] *)
Definition shutdown (wait : bool) : M (St Executor) unit :=
  self_set (set_shutdown_thread true);;
  if wait then futures_wait else mret tt.

(** [_CivisBackend.abort_everything] *)
Definition abort_everything (ensure_ready : bool) : M (St Backend) unit :=
  on_field executor set_executor (cancel_all env);;
  if negb ensure_ready then on_field executor set_executor (shutdown false)
  else mret tt.

(** A caller that submits the commands one after the other and goes on when
    a submission raises. *)
Definition submit_each (cmds : list string) : M (St Executor) unit :=
  for_ cmds (fun cmd =>
    try_except (submit env (Some cmd) None;; mret tt)
      (fun _ => true) (fun _ => mret tt)).

End Shutdown.

(** *** The backend factories *)

Definition _DEFAULT_REPO_SETUP_CMD : string :=
  "cd /app; python setup.py install; cd /".

(** The closure [backend_factory] that a factory maker returns, as the
    variables it closes over. *)
Inductive BackendFactory : Type :=
  | ContainerFactory (docker_image_name docker_image_tag : string)
      (repo_http_uri repo_ref : option string)
      (required_resources : option Dict) (params : option (list Dict))
      (arguments : option Dict) (polling_interval : option Q)
      (setup_cmd : string) (max_submit_retries max_job_retries : Z)
      (hidden : bool)
  | TemplateFactory (from_template_id : option Z) (arguments : option Dict)
      (polling_interval : option Q) (max_submit_retries max_job_retries : Z)
      (hidden : bool).

(** [make_backend_factory] *)
Definition make_backend_factory (docker_image_name docker_image_tag : string)
    (repo_http_uri repo_ref : option string)
    (required_resources : option Dict) (params : option (list Dict))
    (arguments : option Dict) (polling_interval : option Q)
    (setup_cmd : option string) (max_submit_retries max_job_retries : Z)
    (hidden : bool) : BackendFactory :=
  let setup_cmd :=
    match setup_cmd with
    | None =>
        match repo_http_uri with
        | Some _ => _DEFAULT_REPO_SETUP_CMD
        | None => _DEFAULT_SETUP_CMD
        end
    | Some setup_cmd => setup_cmd
    end in
  ContainerFactory docker_image_name docker_image_tag repo_http_uri repo_ref
    required_resources params arguments polling_interval setup_cmd
    max_submit_retries max_job_retries hidden.

(** [make_backend_template_factory] *)
Definition make_backend_template_factory (from_template_id : option Z)
    (arguments : option Dict) (polling_interval : option Q)
    (max_submit_retries max_job_retries : Z) (hidden : bool) : BackendFactory :=
  TemplateFactory from_template_id arguments polling_interval
    max_submit_retries max_job_retries hidden.

(** Calling the closure: [_CivisBackend(...)].  The executor it makes is given
    no script name and takes the default of its class, which ends in the date
    of the day, [date_str]. *)
Definition backend_factory (f : BackendFactory) (date_str : string)
    : Res Backend :=
  match f with
  | ContainerFactory _ _ _ _ _ _ _ _ setup_cmd max_submit_retries
      max_job_retries _ =>
      _CivisBackend_init setup_cmd None max_submit_retries max_job_retries
        ("ContainerShellExecutorScript " ++ date_str)%string false
  | TemplateFactory from_template_id _ _ max_submit_retries max_job_retries _ =>
      let script_name :=
        match from_template_id with
        | Some i =>
            if i =? 0 then "ContainerShellExecutorScript "%string
            else "CustomScriptExecutorScript "%string
        | None => "ContainerShellExecutorScript "%string
        end in
      _CivisBackend_init _DEFAULT_SETUP_CMD from_template_id max_submit_retries
        max_job_retries (script_name ++ date_str)%string false
  end.

(** *** [infer_backend_factory] *)

(** What [client.scripts.get_containers] returns, as far as it is read. *)
Module Script.
Record t : Type := {
  from_template_id : option Z;
  arguments : Dict;
  required_resources : Dict;
  params : list Dict;
  docker_image_name : string;
  docker_image_tag : string;
  repo_http_uri : option string;
  repo_ref : option string;
}.
End Script.

Definition set_script_arguments (v : Dict) (s : Script.t) : Script.t :=
  {| Script.from_template_id := Script.from_template_id s;
     Script.arguments := v;
     Script.required_resources := Script.required_resources s;
     Script.params := Script.params s;
     Script.docker_image_name := Script.docker_image_name s;
     Script.docker_image_tag := Script.docker_image_tag s;
     Script.repo_http_uri := Script.repo_http_uri s;
     Script.repo_ref := Script.repo_ref s |}.

(** What [client.templates.get_scripts] returns, as far as it is read. *)
Record Template : Type := { script_id : Z }.

(** The requests [infer_backend_factory] makes. *)
Inductive ApiGet : Type :=
  | GetContainers (id : PyJson)
  | GetTemplateScript (id : Z).

(** The inner loop [for param in state.params] for one [input_param]: the
    parameters with the first one of the same name updated when the loop
    reached [break], [None] when it ran to its end. *)
Fixpoint update_param (input_param : Dict) (params : list Dict)
    : Res (option (list Dict)) :=
  match params with
  | [] => Ret None
  | param :: params =>
      name ← getitem (JDict param) "name";
      name' ← getitem (JDict input_param) "name";
      if py_eq name name' then
        Ret (Some (dict_update param input_param :: params))
      else
        params' ← update_param input_param params;
        Ret (option_map (cons param) params')
  end.

(** The loop [for input_param in params], on [state.params]. *)
Fixpoint merge_params (state_params params : list Dict) : Res (list Dict) :=
  match params with
  | [] => Ret state_params
  | input_param :: params =>
      updated ← update_param input_param state_params;
      match updated with
      | Some state_params => merge_params state_params params
      | None => merge_params (state_params ++ [input_param]) params
      end
  end.

Section InferBackend.

(** [os.environ], and the two endpoints of the client, answering from the
    requests made so far. *)
Variable environ : string -> option string.
Variable get_containers : list ApiGet -> PyJson -> Answer Script.t.
Variable get_scripts : list ApiGet -> Z -> Answer Template.

Definition request {A} (ev : ApiGet) (f : list ApiGet -> Answer A)
    : M (list ApiGet) A :=
  fun log => (answer (f log), log ++ [ev]).

(** [infer_backend_factory] *)
Definition infer_backend_factory (required_resources : option Dict)
    (params : option (list Dict)) (arguments : option Dict)
    (polling_interval : option Q) (setup_cmd : option string)
    (max_submit_retries max_job_retries : Z) (hidden : bool)
    : M (list ApiGet) BackendFactory :=
  match environ "CIVIS_JOB_ID" with
  | None | Some EmptyString => raise RuntimeError
  | Some job_id =>
      state ← request (GetContainers (JStr job_id))
                (fun log => get_containers log (JStr job_id));
      state ←
        match Script.from_template_id state with
        | Some from_template_id =>
            if from_template_id =? 0 then mret state
            else
              template ← request (GetTemplateScript from_template_id)
                           (fun log => get_scripts log from_template_id);
              try_except
                (let custom_args := Script.arguments state in
                 state ← request (GetContainers (JInt (script_id template)))
                           (fun log =>
                              get_containers log (JInt (script_id template)));
                 mret (set_script_arguments custom_args state))
                is_CivisAPIError
                (fun err =>
                   match err with
                   | CivisAPIError 404 => raise RuntimeError
                   | _ => raise err
                   end)
        | None => mret state
        end;
      let required_resources :=
        dict_update (Script.required_resources state)
          (default [] required_resources) in
      params ← lift_res (merge_params (Script.params state) (default [] params));
      let arguments :=
        dict_update (Script.arguments state) (default [] arguments) in
      mret (make_backend_factory
              (Script.docker_image_name state) (Script.docker_image_tag state)
              (Script.repo_http_uri state) (Script.repo_ref state)
              (Some required_resources) (Some params) (Some arguments)
              polling_interval setup_cmd max_submit_retries max_job_retries
              hidden)
  end.

End InferBackend.

(** ** More readings of the log and of the values *)

(** The jobs a log records as created: the script name and the command. *)
Definition created_jobs (tr : Trace) : list (string * string) :=
  omap (fun ev => match ev with EvCreateJob n c => Some (n, c) | _ => None end) tr.

(** The completion callbacks a log records as called. *)
Definition hook_calls (tr : Trace) : list Callback :=
  omap (fun ev => match ev with EvInvokeCallback cb => Some cb | _ => None end) tr.

(** The name a parameter definition carries. *)
Definition param_name (p : Dict) : option PyJson := dict_lookup "name" p.

(** A parameter definition with a string for its name, and that name. *)
Definition named (p : Dict) : Prop := exists n, param_name p = Some (JStr n).

Definition name_of (p : Dict) : option string :=
  match param_name p with
  | Some (JStr n) => Some n
  | _ => None
  end.

(** The parameter definition that is given under the name of [p], if any. *)
Definition given_for (p : Dict) (params : list Dict) : option Dict :=
  snd <$> list_find (fun input_param => name_of input_param = name_of p) params.

(** A template executor that holds a seed among its arguments. *)
Definition example_custom_executor : CustomExecutor.t :=
  {| CustomExecutor.from_template_id := 12;
     CustomExecutor.hidden := true;
     CustomExecutor.arguments :=
       Some [("SEED"%string, 1); ("JOBLIB_FUNC_FILE_ID"%string, 0)] |}.

(** The future that [_make_future] creates for a run: not polled yet, the
    creation counted as the last poll, subscribed when there are channels. *)
Definition new_future (job run n : Z) (now : Q) (pn : option PubNub) : Tracker :=
  {| poller_args := [job; run]; _max_n_retries := n;
     _result := None; _exception := None; _last_result := None;
     _last_polled := Some now; _polling_thread := false; _pubnub := pn;
     _waiters := []; _done_callbacks := [];
     remote_func_output := PNone; result_fetched := false;
     poll_on_creation := false |}.

(** The name [submit] gives the job it creates, and the executor once the
    name is taken. *)
Definition next_script_name (e : Executor) : string :=
  if inc_script_names e
  then (script_name e ++ " " ++ pretty (_script_name_counter e))%string
  else script_name e.

Definition name_taken (e : Executor) : Executor :=
  if inc_script_names e
  then set_script_name_counter (_script_name_counter e + 1) e
  else e.

(** An executor that numbers the scripts it creates. *)
Definition numbering_executor : Executor :=
  {| kind := ContainerShell; max_n_retries := 2; script_name := "script";
     inc_script_names := true; _script_name_counter := 0;
     _shutdown_thread := false; _futures := [] |}.

(** Two trackers that succeeded. *)
Definition finished_registry : list Tracker :=
  [example_tracker (Some succeeded_run); example_tracker (Some succeeded_run)].

(** A backend with [max_submit_retries = 3] whose executor is shut down. *)
Definition shut_down_backend : Backend :=
  set_executor (set_shutdown_thread true (example_executor [])) (example_backend 3).

(** What [_CivisBackendResult.__init__] makes of a future that is not done:
    the two attributes reset, and the completion hook registered after the
    callbacks that are there. *)
Definition wrapped (callback : nat) (t : Tracker) : Tracker :=
  set_done_callbacks (_done_callbacks t ++ [FetchResult callback])
    (set_result_fetched false (set_remote_func_output PNone t)).

(** What the creation of a future logs after the job and its run. *)
Definition creation_events (env : Env) (channels : list string) : Trace :=
  EvTime ::
  (if has_channels env then [EvChannelsList; EvSubscribe channels] else []).

Definition creation_pubnub (env : Env) (channels : list string) : option PubNub :=
  if has_channels env then Some {| subscribed_channels := channels |} else None.

(** After the log [tr], the next [j] downloads of the file fail with an
    exception that is retried, and the one after them gives [buffer]. *)
Definition download_recovers (env : Env) (file_id : Z) (tr : Trace) (j : nat)
    (buffer : Z) : Prop :=
  forall evs : Trace,
    ((download_attempts evs < j)%nat ->
     exists e, civis_to_file env (tr ++ evs) file_id = Raises e /\
               retry_exc e = true) /\
    (download_attempts evs = j ->
     civis_to_file env (tr ++ evs) file_id = Returns buffer).

(** The example service with the first two downloads timing out. *)
Definition flaky_download_env : Env :=
  {| has_channels := has_channels example_env;
     post_runs := post_runs example_env;
     post_cancel := post_cancel example_env;
     get_containers_runs := get_containers_runs example_env;
     channels_list := channels_list example_env;
     time_time := time_time example_env;
     create_job := create_job example_env;
     list_containers_runs_outputs := list_containers_runs_outputs example_env;
     civis_to_file := fun tr file_id =>
       if bool_decide (download_attempts tr < 2)%nat
       then Raises ConnectTimeout else Returns 42;
     joblib_load := joblib_load example_env;
     file_to_civis := file_to_civis example_env;
     await := await example_env;
     civis_version := civis_version example_env;
     jl_version := jl_version example_env |}.

(** A run that failed, with the failure recorded and nothing fetched. *)
Definition failed_tracker : Tracker :=
  set_exception (Some (CivisJobFailure "boom"))
    (example_tracker (Some {| r_id := 6; r_state := Failed |})).

(** A poller that cannot reach the service. *)
Definition unreachable_poller (args : list Z) : M (St Tracker) Response :=
  raise ConnectionError.

(** A way of recording the result of a poll that keeps nothing. *)
Definition record_nothing (result : Response) : M (St Tracker) unit := mret tt.

(** A tracker of run 6 of job 5 that may retry twice. *)
Definition retrying_tracker : Tracker :=
  set_max_n_retries 2 (example_tracker None).

(** The parameters of a job and those given for its children: one that
    the job has already, with another type, and a new one. *)
Definition job_params : list Dict :=
  [[("name"%string, JStr "SEED"); ("type"%string, JStr "string")];
   [("name"%string, JStr "DEPTH"); ("type"%string, JStr "integer")]].

Definition given_params : list Dict :=
  [[("name"%string, JStr "SEED"); ("type"%string, JStr "integer")];
   [("name"%string, JStr "RATE"); ("type"%string, JStr "float")]].

(** A container job, number 77, that runs the image [img] with a seed. *)
Definition example_environ (key : string) : option string :=
  if String.eqb key "CIVIS_JOB_ID" then Some "77"%string else None.

Definition example_script : Script.t :=
  {| Script.from_template_id := None;
     Script.arguments := [("SEED"%string, JInt 1)];
     Script.required_resources := [("cpu"%string, JInt 1024)];
     Script.params := job_params;
     Script.docker_image_name := "img";
     Script.docker_image_tag := "latest";
     Script.repo_http_uri := None;
     Script.repo_ref := None |}.

Definition example_get_containers (log : list ApiGet) (id : PyJson)
    : Answer Script.t :=
  Returns example_script.

Definition example_get_scripts (log : list ApiGet) (id : Z) : Answer Template :=
  Returns {| script_id := 3 |}.

(** Unfold one layer of the monad. *)
Ltac run :=
  unfold mbind, M_bind, mret, M_ret in *; cbn in *.

(** * Properties *)

(** ** [effective_n_jobs] *)

(** C8: [effective_n_jobs] returns the platform default 50 for the sentinel
    -1, returns a positive request unchanged, and raises [ValueError] for
    every other request, that is for 0 and for every value below -1. *)
Theorem effective_n_jobs_spec (n : Z) :
  (n = -1 -> effective_n_jobs n = Ret 50) /\
  (0 < n -> effective_n_jobs n = Ret n) /\
  (n = 0 \/ n < -1 -> effective_n_jobs n = Raise ValueError).
Proof.
  unfold effective_n_jobs, _ALL_JOBS.
  repeat split; intros H.
  - subst n. reflexivity.
  - destruct (Z.eqb_spec n (-1)); [lia|].
    destruct (Z.leb_spec n 0); [lia|reflexivity].
  - destruct (Z.eqb_spec n (-1)); [lia|].
    destruct (Z.leb_spec n 0); [reflexivity|lia].
Qed.

(** ** [_check_message] *)

Section CheckMessageFacts.

Variable DONE : list PyJson.

Lemma getitem_path (m : PyJson) (k1 k2 : string) :
  message_shaped m ->
  (object ← getitem m k1; getitem object k2) =
    match path m k1 k2 with
    | Some v => Ret v
    | None =>
        match m with
        | JDict d =>
            match dict_lookup k1 d with
            | Some (JDict _) => Raise (KeyError k2)
            | Some _ => Raise TypeError
            | None => Raise (KeyError k1)
            end
        | _ => Raise TypeError
        end
    end.
Proof.
  intros (d & -> & _ & _). unfold path. cbn.
  destruct (dict_lookup k1 d) as [[]|]; cbn; reflexivity.
Qed.

Lemma shaped_path_cases (m : PyJson) (k1 k2 : string) :
  message_shaped m -> k1 = "object"%string \/ k1 = "run"%string ->
  (exists v, path m k1 k2 = Some v /\
     (object ← getitem m k1; getitem object k2) = Ret v) \/
  (exists k, path m k1 k2 = None /\
     (object ← getitem m k1; getitem object k2) = Raise (KeyError k)).
Proof.
  intros Hm Hk. rewrite (getitem_path _ _ _ Hm).
  destruct Hm as (d & -> & Ho & Hr).
  unfold path. destruct (dict_lookup k1 d) as [v|] eqn:E.
  - assert (exists d', v = JDict d') as [d' ->]
      by (destruct Hk; subst k1; eauto).
    destruct (dict_lookup k2 d'); eauto.
  - eauto.
Qed.

(** What [_check_message] answers once both lookups are known to be
    key lookups in dicts. *)
Lemma check_message_shaped (job_id : PyJson) (rest : list PyJson) (m : PyJson) :
  message_shaped m ->
  _check_message DONE (job_id :: rest) m =
    Ret (match path m "object" "id" with
         | Some oid =>
             py_eq oid job_id &&
             match rest with
             | [] =>
                 match path m "run" "state" with
                 | Some st => py_in st DONE
                 | None => false
                 end
             | run_id :: _ =>
                 match path m "run" "id" with
                 | Some rid =>
                     py_eq rid run_id &&
                     match path m "run" "state" with
                     | Some st => py_in st DONE
                     | None => false
                     end
                 | None => false
                 end
             end
         | None => false
         end).
Proof.
  intros Hm. unfold _check_message.
  destruct (shaped_path_cases m "object" "id" Hm) as [(oid & -> & ->)|(k & -> & ->)];
    [by left| |by destruct rest].
  destruct (shaped_path_cases m "run" "state" Hm) as [(st & -> & ->)|(k & -> & ->)];
    [by right| |].
  all: destruct (shaped_path_cases m "run" "id" Hm) as [(rid & -> & ->)|(k' & -> & ->)];
    [by right| |].
  all: destruct rest as [|run_id rest]; cbn;
    destruct (py_eq oid job_id); cbn; try reflexivity.
  all: destruct (py_eq rid run_id); reflexivity.
Qed.

Lemma getitem_Ret (m : PyJson) (k1 k2 : string) (v : PyJson) :
  (object ← getitem m k1; getitem object k2) = Ret v -> path m k1 k2 = Some v.
Proof.
  unfold path. destruct m; cbn; try discriminate.
  destruct (dict_lookup k1 d) as [[]|]; cbn; try discriminate.
  destruct (dict_lookup k2 d0); cbn; congruence.
Qed.

(** Only an accepted message is a match, whatever the message is. *)
Lemma check_message_true (args : list PyJson) (m : PyJson) :
  _check_message DONE args m = Ret true ->
  exists job_id oid st,
    args !! 0%nat = Some job_id /\
    path m "object" "id" = Some oid /\ py_eq oid job_id = true /\
    path m "run" "state" = Some st /\ py_in st DONE = true /\
    (length args <> 1%nat ->
     exists run_id rid, args !! 1%nat = Some run_id /\
       path m "run" "id" = Some rid /\ py_eq rid run_id = true).
Proof.
  unfold _check_message.
  destruct (object ← getitem m "object"; getitem object "id") as [oid|e|] eqn:Eo;
    [apply getitem_Ret in Eo| |].
  2: { destruct (_ =? _)%nat; cbn; destruct (is_KeyError e); discriminate. }
  2: { destruct (_ =? _)%nat; cbn; discriminate. }
  unfold list_getitem.
  destruct (args !! 0%nat) as [job_id|] eqn:E0; cbn.
  2: { destruct (_ =? _)%nat; discriminate. }
  destruct (py_eq oid job_id) eqn:Eq; cbn.
  2: { destruct (_ =? _)%nat; discriminate. }
  destruct (object ← getitem m "run"; getitem object "state") as [st|e|] eqn:Es;
    [apply getitem_Ret in Es| |].
  - destruct (Nat.eqb_spec (length args) 1).
    + cbn. intros [= Hin]. exists job_id, oid, st. repeat split; try done.
    + destruct (object ← getitem m "run"; getitem object "id") as [rid|e|] eqn:Er;
        [apply getitem_Ret in Er| |]; cbn.
      * destruct (args !! 1%nat) as [run_id|] eqn:E1; cbn; [|discriminate].
        destruct (py_eq rid run_id) eqn:Eq'; cbn; [|discriminate].
        intros [= Hin]. exists job_id, oid, st. repeat split; try done.
        intros _. by exists run_id, rid.
      * destruct (is_KeyError e); discriminate.
      * discriminate.
  - destruct (Nat.eqb_spec (length args) 1); cbn.
    + destruct (is_KeyError e); discriminate.
    + destruct (object ← getitem m "run"; getitem object "id") as [rid|e'|]; cbn.
      * destruct (args !! 1%nat) as [run_id|]; cbn; [|discriminate].
        destruct (py_eq rid run_id); cbn; [|discriminate].
        destruct (is_KeyError e); discriminate.
      * destruct (is_KeyError e'); discriminate.
      * discriminate.
  - destruct (Nat.eqb_spec (length args) 1); cbn; [discriminate|].
    destruct (object ← getitem m "run"; getitem object "id") as [rid|e'|]; cbn.
    + destruct (args !! 1%nat) as [run_id|]; cbn; [|discriminate].
      destruct (py_eq rid run_id); cbn; discriminate.
    + destruct (is_KeyError e'); discriminate.
    + discriminate.
Qed.

End CheckMessageFacts.

(** C10, as far as it holds: for a message of the published shape and a
    future that has a job id, [_check_message] returns and does not raise,
    and it returns [False] when an expected key is missing.  For every
    message, it answers [True] only when the object id equals the job id,
    the run state is in [DONE] and, with a run id among the poller
    arguments, the run id of the message equals it; a message it does not
    accept never runs the completion callback of the listener. *)
Theorem check_message_sound (DONE : list PyJson) (job_id : PyJson)
    (rest : list PyJson) (m : PyJson) :
  let check := _check_message DONE (job_id :: rest) in
  (message_shaped m ->
     (exists b, check m = Ret b) /\
     (path m "object" "id" = None \/ path m "run" "state" = None \/
      (rest <> [] /\ path m "run" "id" = None) ->
      check m = Ret false)) /\
  (check m = Ret true ->
     (exists oid, path m "object" "id" = Some oid /\ py_eq oid job_id = true) /\
     (exists st, path m "run" "state" = Some st /\ py_in st DONE = true) /\
     (forall run_id, rest !! 0%nat = Some run_id ->
        exists rid, path m "run" "id" = Some rid /\ py_eq rid run_id = true)) /\
  (forall (O : Type) (callback : M (St O) unit) (s : St O),
     check m <> Ret true ->
     (listener_message check callback m s).2 = s).
Proof.
  cbn zeta. split; [|split].
  - intros Hm. rewrite (check_message_shaped DONE _ _ _ Hm). split; [eauto|].
    intros [->|[H|[Hr H]]]; [done| |].
    + destruct (path m "object" "id"); [|done].
      destruct rest; rewrite H, ?andb_false_r; [done|].
      by destruct (path m "run" "id"); rewrite ?andb_false_r.
    + destruct rest; [done|]. rewrite H.
      destruct (path m "object" "id"); by rewrite ?andb_false_r.
  - intros H. apply check_message_true in H
      as (j & oid & st & [= <-] & Ho & Hoe & Hs & Hse & Hrun).
    split; [eauto|]. split; [eauto|].
    intros run_id Hrest. destruct Hrun as (r & rid & Hr & ? & ?).
    + destruct rest; [done|]. cbn. lia.
    + change ((job_id :: rest) !! 1%nat) with (rest !! 0%nat) in Hr.
      rewrite Hrest in Hr. injection Hr as <-. eauto.
  - intros O callback s Hne. unfold listener_message, lift_res.
    unfold mbind, M_bind.
    destruct (_check_message DONE (job_id :: rest) m) as [[]| |]; done.
Qed.

(** C10 fails as stated: a message whose ["object"] entry is not a dict
    makes [_check_message] raise [TypeError], which it does not catch. *)
Lemma check_message_raises_TypeError :
  _check_message example_DONE [JInt 8]
    (JDict [("object"%string, JInt 5)]) = Raise TypeError.
Proof. reflexivity. Qed.

(** A message of the published shape for run 3 of job 8. *)
Lemma check_message_sound_example :
  message_shaped example_message /\
  exists b, _check_message example_DONE [JInt 8; JInt 3] example_message = Ret b.
Proof.
  assert (message_shaped example_message) as Hm.
  { eexists. split; [reflexivity|].
    split; intros v [= <-]; eauto. }
  split; [exact Hm|].
  exact (proj1 (proj1 (check_message_sound example_DONE (JInt 8) [JInt 3]
                         example_message) Hm)).
Defined.

(** ** [_create_docker_command] *)

(** [<] on strings is a strict total order. *)
Lemma string_compare_trans (a b c : string) :
  String.compare a b = Lt -> String.compare b c = Lt -> String.compare a c = Lt.
Proof.
  revert b c. induction a as [|x a IH]; intros [|y b] [|z c]; cbn; try done.
  unfold Ascii.compare.
  destruct (N.compare_spec (N_of_ascii x) (N_of_ascii y)) as [Hxy|Hxy|Hxy];
    destruct (N.compare_spec (N_of_ascii y) (N_of_ascii z)) as [Hyz|Hyz|Hyz];
    try done; intros H1 H2.
  - rewrite Hxy, Hyz, N.compare_refl. eauto.
  - replace (N_of_ascii x ?= N_of_ascii z)%N with Lt; [done|].
    symmetry. apply N.compare_lt_iff. lia.
  - replace (N_of_ascii x ?= N_of_ascii z)%N with Lt; [done|].
    symmetry. apply N.compare_lt_iff. lia.
  - replace (N_of_ascii x ?= N_of_ascii z)%N with Lt; [done|].
    symmetry. apply N.compare_lt_iff. lia.
Qed.

Lemma string_ltb_asym (a b : string) :
  String.ltb a b = true -> String.ltb b a = true -> False.
Proof.
  unfold String.ltb. rewrite (String.compare_antisym b a).
  by destruct (String.compare a b).
Qed.

Lemma string_ltb_total (a b : string) :
  a <> b -> String.ltb a b = false -> String.ltb b a = true.
Proof.
  unfold String.ltb. rewrite (String.compare_antisym b a).
  destruct (String.compare a b) eqn:E; try done.
  intros []. by apply String.compare_eq_iff.
Qed.

Lemma string_ltb_trans (a b c : string) :
  String.ltb a b = true -> String.ltb b c = true -> String.ltb a c = true.
Proof.
  unfold String.ltb.
  destruct (String.compare a b) eqn:E1; try done.
  destruct (String.compare b c) eqn:E2; try done.
  by rewrite (string_compare_trans _ _ _ E1 E2).
Qed.

Section DockerCommandFacts.

Context {Val : Type} (str : Val -> string).
Context (val_eqb val_ltb : Val -> Val -> bool).

Lemma item_ltb_keys (a b : string * Val) :
  a.1 <> b.1 -> item_ltb val_eqb val_ltb a b = String.ltb a.1 b.1.
Proof.
  intros Hne. unfold item_ltb.
  by destruct (String.eqb_spec a.1 b.1).
Qed.

Lemma insert_sorted_Permutation (x : string * Val) (l : list (string * Val)) :
  Permutation (insert_sorted val_eqb val_ltb x l) (x :: l).
Proof.
  induction l as [|y l IH]; cbn; [done|].
  destruct (item_ltb val_eqb val_ltb x y); [done|].
  rewrite IH. apply perm_swap.
Qed.

Lemma sorted_from_Permutation (acc l : list (string * Val)) :
  Permutation (foldl (fun acc x => insert_sorted val_eqb val_ltb x acc) acc l)
    (acc ++ l).
Proof.
  revert acc. induction l as [|x l IH]; intros acc; cbn.
  - by rewrite app_nil_r.
  - rewrite IH, insert_sorted_Permutation. cbn.
    apply Permutation_middle.
Qed.

Lemma sorted_Permutation (l : list (string * Val)) :
  Permutation (sorted val_eqb val_ltb l) l.
Proof. apply (sorted_from_Permutation [] l). Qed.

Lemma insert_sorted_StronglySorted (x : string * Val) (l : list (string * Val)) :
  x.1 ∉ l.*1 -> StronglySorted key_lt l ->
  StronglySorted key_lt (insert_sorted val_eqb val_ltb x l).
Proof.
  intros Hx Hl. induction Hl as [|y l Hl IH Hy]; cbn.
  - repeat constructor.
  - assert (x.1 <> y.1 /\ x.1 ∉ l.*1) as [Hxy Hxl].
    { rewrite fmap_cons, not_elem_of_cons in Hx. done. }
    rewrite item_ltb_keys by done.
    destruct (String.ltb x.1 y.1) eqn:E.
    + constructor; [by constructor|].
      constructor; [done|].
      eapply Forall_impl; [exact Hy|].
      intros z Hz. eapply string_ltb_trans; [exact E|exact Hz].
    + constructor; [by apply IH|].
      rewrite insert_sorted_Permutation. constructor; [|done].
      by apply string_ltb_total.
Qed.

Lemma sorted_from_StronglySorted (acc l : list (string * Val)) :
  NoDup (acc ++ l).*1 -> StronglySorted key_lt acc ->
  StronglySorted key_lt
    (foldl (fun acc x => insert_sorted val_eqb val_ltb x acc) acc l).
Proof.
  revert acc. induction l as [|x l IH]; intros acc Hnd Hacc; cbn; [done|].
  assert (Permutation ((acc ++ x :: l).*1) (x.1 :: (acc ++ l).*1)) as Hp
    by (by rewrite <- Permutation_middle).
  rewrite Hp in Hnd. apply NoDup_cons in Hnd as [Hx Hnd].
  apply IH.
  - rewrite fmap_app, insert_sorted_Permutation, <- fmap_app.
    cbn. by apply NoDup_cons.
  - apply insert_sorted_StronglySorted; [|done].
    rewrite fmap_app, elem_of_app in Hx. tauto.
Qed.

Lemma sorted_StronglySorted (l : list (string * Val)) :
  NoDup l.*1 -> StronglySorted key_lt (sorted val_eqb val_ltb l).
Proof. intros. apply (sorted_from_StronglySorted [] l); [done|constructor]. Qed.

End DockerCommandFacts.

(** C9: [_create_docker_command] joins by single spaces the [str] of the
    positional arguments in their order, followed by ["--k v"] for the
    keyword pairs in ascending order of the keys; two dicts with the same
    items give the same command whatever their insertion order. *)
Theorem create_docker_command_sorted {Val : Type} (str : Val -> string)
    (val_eqb val_ltb : Val -> Val -> bool)
    (args : list Val) (kwargs : list (string * Val)) :
  NoDup kwargs.*1 ->
  (exists items,
     Permutation items kwargs /\ StronglySorted key_lt items /\
     _create_docker_command str val_eqb val_ltb args kwargs =
       String.concat " "
         (map str args ++
          map (fun kv => ("--" ++ kv.1 ++ " " ++ str kv.2)%string) items)) /\
  (forall kwargs', Permutation kwargs kwargs' ->
     _create_docker_command str val_eqb val_ltb args kwargs' =
     _create_docker_command str val_eqb val_ltb args kwargs).
Proof.
  intros Hnd. split.
  - exists (sorted val_eqb val_ltb kwargs).
    split; [apply sorted_Permutation|].
    split; [by apply sorted_StronglySorted|done].
  - intros kwargs' Hp. unfold _create_docker_command. do 3 f_equal.
    apply (StronglySorted_unique_strong key_lt).
    + intros x1 x2 _ _ H1 H2. destruct (string_ltb_asym _ _ H1 H2).
    + apply sorted_StronglySorted. by rewrite <- Hp.
    + by apply sorted_StronglySorted.
    + by rewrite !sorted_Permutation.
Qed.

(** The example of the docstring, and the same call with the keyword
    arguments given in the other order. *)
Lemma create_docker_command_example :
  NoDup [("wibble", AInt 7); ("wobble", AInt 8)].*1 /\
  _create_docker_command str_arg arg_eqb arg_ltb
    [AStr "./myprogram"; AInt 5; AInt 6]
    [("wibble"%string, AInt 7); ("wobble"%string, AInt 8)]
    = "./myprogram 5 6 --wibble 7 --wobble 8"%string /\
  _create_docker_command str_arg arg_eqb arg_ltb
    [AStr "./myprogram"; AInt 5; AInt 6]
    [("wobble"%string, AInt 8); ("wibble"%string, AInt 7)]
    = "./myprogram 5 6 --wibble 7 --wobble 8"%string.
Proof.
  assert (NoDup [("wibble"%string, AInt 7); ("wobble"%string, AInt 8)].*1) as Hnd.
  { cbn. apply NoDup_cons. split; [|apply NoDup_singleton].
    rewrite list_elem_of_singleton. discriminate. }
  split; [exact Hnd|]. split; [by vm_compute|].
  rewrite (proj2 (create_docker_command_sorted str_arg arg_eqb arg_ltb
                    [AStr "./myprogram"; AInt 5; AInt 6] _ Hnd)
             [("wobble"%string, AInt 8); ("wibble"%string, AInt 7)]).
  - by vm_compute.
  - apply perm_swap.
Defined.

(** ** The retry budget of a [ContainerFuture] *)

Lemma new_runs_app (a b : Trace) : new_runs (a ++ b) = new_runs a ++ new_runs b.
Proof. apply omap_app. Qed.

Lemma cancel_requests_app (a b : Trace) :
  cancel_requests (a ++ b) = cancel_requests a ++ cancel_requests b.
Proof. apply omap_app. Qed.

Lemma for_emit {O A} (f : A -> Event) (l : list A) (tr : Trace) (o : O) :
  for_ l (fun x => emit (f x)) (tr, o) = (Ret tt, (tr ++ (f <$> l), o)).
Proof.
  revert tr. induction l as [|x l IH]; intros tr; cbn.
  - by rewrite app_nil_r.
  - unfold mbind, M_bind. cbn. rewrite IH. by rewrite <- app_assoc.
Qed.


Lemma cleanup_run (tr : Trace) (t : Tracker) :
  cleanup (tr, t) = (Ret tt, (tr ++ cleanup_events t, released t)).
Proof.
  unfold cleanup, PollableResult_cleanup, cleanup_events, released. run.
  destruct t as [args n result exn last polled [] [pn|] ws cbs out fetched poc];
    cbn; by rewrite ?app_nil_r, <- ?app_assoc.
Qed.

Lemma new_runs_cleanup (t : Tracker) : new_runs (cleanup_events t) = [].
Proof. unfold cleanup_events. by destruct (_polling_thread t), (_pubnub t). Qed.

#[local] Arguments cleanup : simpl never.
#[local] Arguments _invoke_callbacks : simpl never.

Section RetryBudget.

Variable env : Env.
Hypothesis Hup : service_up env.

(** A failure with budget left starts a new run and rebinds the poller. *)
Lemma set_api_exception_absorbs (exc : Exc) (res : option Response)
    (tr : Trace) (t : Tracker) (job run : Z) :
  0 < _max_n_retries t -> poller_args t = [job; run] ->
  exists tr' t' r,
    _set_api_exception env exc res (tr, t) = (Ret tt, (tr', t')) /\
    new_runs tr' = new_runs tr ++ [job] /\
    poller_args t' = [job; r_id r] /\ _last_result t' = Some r /\
    _max_n_retries t' = _max_n_retries t - 1 /\
    _exception t' = _exception t /\ _result t' = _result t /\
    _done_callbacks t' = _done_callbacks t.
Proof.
  destruct Hup as [Hruns Hch].
  destruct t as [args n result exn last polled thread pn ws cbs out fetched poc].
  cbn. intros Hn ->. unfold _set_api_exception, cleanup, PollableResult_cleanup,
    job_id, run_id, _pubnub_config, _subscribe. run.
  destruct (Z.ltb_spec 0 n); [|lia].
  destruct thread, pn; run.
  all: repeat match goal with
    | |- context [post_runs env ?tr ?j] =>
        let r := fresh "r" in let Hr := fresh "Hr" in
        destruct (Hruns tr j) as [r Hr]; rewrite Hr; run
    | |- context [channels_list env ?tr] =>
        let c := fresh "c" in let Hc := fresh "Hc" in
        destruct (Hch tr) as [c Hc]; rewrite Hc; run
    end.
  all: do 3 eexists; split; [reflexivity|]; cbn.
  all: rewrite ?new_runs_app; cbn; rewrite ?app_nil_r; eauto 10.
Qed.





End RetryBudget.



(** ** Downloading the output of a run *)

#[local] Arguments done : simpl never.
#[local] Arguments cancelled : simpl never.
#[local] Arguments succeeded : simpl never.
#[local] Arguments failed : simpl never.
#[local] Arguments pending_job : simpl never.
#[local] Arguments must_poll : simpl never.

Lemma sleeps_app (a b : Trace) : sleeps (a ++ b) = sleeps a ++ sleeps b.
Proof. apply omap_app. Qed.

Lemma download_attempts_app (a b : Trace) :
  download_attempts (a ++ b) = (download_attempts a + download_attempts b)%nat.
Proof. unfold download_attempts. by rewrite omap_app, length_app. Qed.

Lemma continuation_calls_app (a b : Trace) :
  continuation_calls (a ++ b) = continuation_calls a ++ continuation_calls b.
Proof. apply omap_app. Qed.

Lemma created_jobs_app (a b : Trace) :
  created_jobs (a ++ b) = created_jobs a ++ created_jobs b.
Proof. apply omap_app. Qed.

Lemma hook_calls_app (a b : Trace) :
  hook_calls (a ++ b) = hook_calls a ++ hook_calls b.
Proof. apply omap_app. Qed.

Lemma submit_attempts_app (a b : Trace) :
  submit_attempts (a ++ b) = (submit_attempts a + submit_attempts b)%nat.
Proof. unfold submit_attempts. by rewrite omap_app, length_app. Qed.

(** What completion callbacks log is no request to start, cancel or poll a
    run, no job and no submission. *)
Lemma hook_events_app (a b : Trace) :
  hook_events a -> hook_events b -> hook_events (a ++ b).
Proof. unfold hook_events. rewrite forallb_app. by intros -> ->. Qed.

Lemma hook_events_quiet (evs : Trace) :
  hook_events evs ->
  cancel_requests evs = [] /\ new_runs evs = [] /\ created_jobs evs = [] /\
  submit_attempts evs = 0%nat /\ status_requests evs = [].
Proof.
  unfold hook_events, submit_attempts.
  induction evs as [|ev evs IH]; [done|]. cbn.
  intros [Hev Hevs]%andb_prop. by destruct ev; try done; cbn; apply IH.
Qed.

Lemma hooked_hooked (v v' : PyVal) (b b' : bool) (t : Tracker) :
  hooked v' b' (hooked v b t) = hooked v' b' t.
Proof. done. Qed.

Lemma hooked_self (t : Tracker) :
  hooked (remote_func_output t) (result_fetched t) t = t.
Proof. by destruct t. Qed.

Lemma done_hooked (v : PyVal) (b : bool) (t : Tracker) :
  done (hooked v b t) = done t.
Proof. done. Qed.

Section Download.

Variable env : Env.

(** With fuel beyond the retries that are left, the loop comes to an end:
    after [k] attempts, no more than one beyond those retries, with a sleep
    of [delay] before each attempt but the first.  When every attempt fails,
    it raises what the last attempt raised. *)
Lemma robust_result_download_loop_run {O} (fuel : nat)
    (file_id n_retries : Z) (delay : Q) (n_failed : Z) (tr : Trace) (o : O) :
  (Z.to_nat (n_retries - n_failed) < fuel)%nat ->
  exists r tr' k,
    _robust_result_download_loop env fuel file_id n_retries delay n_failed (tr, o)
      = (r, (tr', o)) /\
    r <> Diverge /\
    download_attempts tr' = (download_attempts tr + k)%nat /\
    (1 <= k <= Z.to_nat (n_retries - n_failed) + 1)%nat /\
    sleeps tr' = sleeps tr ++ replicate (k - 1) delay /\
    continuation_calls tr' = continuation_calls tr /\
    (download_fails env file_id ->
     exists e pre,
       r = Raise e /\ tr' = pre ++ [EvCivisToFile file_id] /\
       civis_to_file env pre file_id = Raises e) /\
    (download_fails_transiently env file_id ->
     k = (Z.to_nat (n_retries - n_failed) + 1)%nat).
Proof.
  revert n_failed tr. induction fuel as [|fuel IH]; intros n_failed tr Hfuel;
    [lia|].
  cbn [_robust_result_download_loop]. unfold try_except_else, api. cbn.
  destruct (civis_to_file env tr file_id) as [buffer|e] eqn:Hdl; cbn.
  - exists (answer (joblib_load env buffer)), ((tr ++ [EvCivisToFile file_id]) ++ [EvJoblibLoad]), 1%nat.
    rewrite !download_attempts_app, !sleeps_app, !continuation_calls_app. cbn.
    rewrite !app_nil_r.
    repeat split; try done; try lia.
    + by destruct (joblib_load env buffer).
    + intros Hf. destruct (Hf tr) as [e He]. congruence.
    + intros Hf. destruct (Hf tr) as (e & He & _). congruence.
  - destruct (retry_exc e) eqn:Hretry; cycle 1.
    { exists (Raise e), (tr ++ [EvCivisToFile file_id]), 1%nat.
      rewrite !download_attempts_app, !sleeps_app, !continuation_calls_app. cbn.
      rewrite !app_nil_r.
      repeat split; try done; try lia; [eauto|].
      intros Hf. destruct (Hf tr) as (e' & He & ?). congruence. }
    destruct (Z.ltb_spec n_failed n_retries) as [Hlt|Hge].
    + unfold sleep, emit, modify, mbind, M_bind. cbn.
      destruct (IH (n_failed + 1) ((tr ++ [EvCivisToFile file_id]) ++ [EvSleep delay]))
        as (r & tr' & k & Hrun & Hr & Hk & Hbound & Hsleeps & Hcont & Hf & Hft);
        [lia|].
      exists r, tr', (S k). split; [exact Hrun|]. rewrite Hk, Hsleeps, Hcont.
      rewrite !download_attempts_app, !sleeps_app, !continuation_calls_app. cbn.
      rewrite !app_nil_r, <- app_assoc. cbn.
      repeat split; try done; try lia.
      * destruct k as [|k]; [lia|]. cbn. by rewrite Nat.sub_0_r.
      * intros H. rewrite (Hft H). lia.
    + exists (Raise e), (tr ++ [EvCivisToFile file_id]), 1%nat.
      unfold raise.
      rewrite !download_attempts_app, !sleeps_app, !continuation_calls_app. cbn.
      rewrite !app_nil_r.
      repeat split; try done; try lia; eauto.
Qed.

(** The loop logs downloads, loads and sleeps only. *)
Lemma robust_result_download_loop_events {O} (fuel : nat)
    (file_id n_retries : Z) (delay : Q) (n_failed : Z) (tr : Trace) (o : O) :
  exists evs,
    (_robust_result_download_loop env fuel file_id n_retries delay n_failed
       (tr, o)).2 = (tr ++ evs, o) /\
    hook_events evs /\ hook_calls evs = [].
Proof.
  revert n_failed tr. induction fuel as [|fuel IH]; intros n_failed tr.
  { exists []. by rewrite app_nil_r. }
  cbn [_robust_result_download_loop]. unfold try_except_else, api. cbn.
  destruct (civis_to_file env tr file_id) as [buffer|e]; cbn.
  { exists [EvCivisToFile file_id; EvJoblibLoad]. by rewrite <- app_assoc. }
  destruct (retry_exc e); [|by exists [EvCivisToFile file_id]].
  destruct (n_failed <? n_retries); [|by exists [EvCivisToFile file_id]].
  unfold sleep, emit, modify, mbind, M_bind. cbn.
  destruct (IH (n_failed + 1) ((tr ++ [EvCivisToFile file_id]) ++ [EvSleep delay]))
    as (evs & Hevs & Hh & Hc).
  exists ([EvCivisToFile file_id; EvSleep delay] ++ evs). rewrite Hevs.
  split; [by rewrite <- !app_assoc|]. split; [exact Hh|exact Hc].
Qed.

Lemma robust_result_download_run {O} (file_id : Z) (tr : Trace) (o : O) :
  exists r evs k,
    _robust_result_download env file_id 5 1 (tr, o) = (r, (tr ++ evs, o)) /\
    r <> Diverge /\ hook_events evs /\ hook_calls evs = [] /\
    download_attempts evs = k /\
    (1 <= k <= 6)%nat /\
    sleeps evs = replicate (k - 1) 1%Q /\
    continuation_calls evs = [] /\
    (download_fails env file_id ->
     exists e pre,
       r = Raise e /\ tr ++ evs = pre ++ [EvCivisToFile file_id] /\
       civis_to_file env pre file_id = Raises e) /\
    (download_fails_transiently env file_id -> k = 6%nat).
Proof.
  destruct (robust_result_download_loop_run (S (Z.to_nat 5)) file_id 5 1 0 tr o)
    as (r & tr' & k & Hrun & Hr & Hk & Hbound & Hsl & Hcont & Hf & Hft); [lia|].
  destruct (robust_result_download_loop_events (S (Z.to_nat 5)) file_id 5 1 0 tr o)
    as (evs & Hevs & Hh & Hc).
  unfold _robust_result_download. rewrite Hrun in Hevs |- *.
  injection Hevs as ->.
  rewrite download_attempts_app in Hk. rewrite sleeps_app in Hsl.
  rewrite continuation_calls_app in Hcont.
  exists r, evs, k. split; [done|]. split; [done|]. split; [done|].
  split; [done|]. split; [lia|]. split; [lia|].
  split; [by apply app_inv_head in Hsl|].
  split.
  { apply (app_inv_head (continuation_calls tr)). by rewrite app_nil_r. }
  split; [done|]. intros H. rewrite (Hft H). lia.
Qed.

Lemma wait_done (tr : Trace) (t : Tracker) :
  done t = true -> wait env (tr, t) = (Ret tt, (tr, t)).
Proof. intros Hd. unfold wait. run. by rewrite Hd. Qed.

Lemma exception_done (tr : Trace) (t : Tracker) :
  done t = true ->
  exception env (tr, t) =
    (if cancelled t then Raise CancelledError else Ret (_exception t), (tr, t)).
Proof.
  intros Hd. unfold exception. run. rewrite (wait_done _ _ Hd). cbn.
  by destruct (cancelled t).
Qed.

(** The end of [_fetch_result], once the outputs were fetched without an
    exception. *)
Lemma fetch_result_else (tr : Trace) (t : Tracker) :
  done t = true ->
  (self_set (set_result_fetched true);;
   c ← self cancelled;
   if negb c then
     e ← exception env;
     match e with
     | None => out ← self remote_func_output; emit (EvContinuation out)
     | Some _ => mret tt
     end
   else mret tt) (tr, t) =
  (Ret tt,
   (tr ++ (if hook_continues t then [EvContinuation (remote_func_output t)] else []),
    set_result_fetched true t)).
Proof.
  intros Hd. run.
  assert (cancelled (set_result_fetched true t) = cancelled t) as -> by done.
  unfold hook_continues. destruct (cancelled t) eqn:Hc; cbn.
  { by rewrite app_nil_r. }
  rewrite exception_done by done.
  assert (cancelled (set_result_fetched true t) = cancelled t) as -> by done.
  rewrite Hc. cbn.
  destruct (_exception t); cbn; by rewrite ?app_nil_r.
Qed.

#[local] Arguments _robust_result_download : simpl never.

(** What [_fetch_result] does on a future that is done. *)
Lemma fetch_result_run (cb : nat) (tr : Trace) (t : Tracker) (job run : Z)
    (rest : list Z) :
  done t = true -> poller_args t = job :: run :: rest ->
  _fetch_result env cb (tr, t) =
    let tr0 := tr ++ [EvListOutputs job run] in
    match list_containers_runs_outputs env tr job run with
    | Raises e => (Ret tt, (tr0, set_remote_func_output (PExc e) t))
    | Returns [] =>
        (Ret tt,
         (tr0 ++ (if hook_continues t
                  then [EvContinuation (remote_func_output t)] else []),
          set_result_fetched true t))
    | Returns (o :: _) =>
        match _robust_result_download env (object_id o) 5 1 (tr0, t) with
        | (Ret v, (tr1, _)) =>
            (Ret tt,
             (tr1 ++ (if hook_continues t then [EvContinuation v] else []),
              set_result_fetched true (set_remote_func_output v t)))
        | (Raise e, (tr1, _)) => (Ret tt, (tr1, set_remote_func_output (PExc e) t))
        | (Diverge, s) => (Diverge, s)
        end
    end.
Proof.
  intros Hd Hargs.
  assert (forall tr, job_id (tr, t) = (Ret job, (tr, t))) as Hjob.
  { intros tr'. unfold job_id. run. by rewrite Hargs. }
  assert (forall tr, run_id (tr, t) = (Ret run, (tr, t))) as Hrun_id.
  { intros tr'. unfold run_id. run. by rewrite Hargs. }
  unfold _fetch_result, try_except_else.
  unfold mbind at 1 2, M_bind at 1 2. rewrite Hjob, Hrun_id.
  unfold mbind at 1 2, M_bind at 1 2. rewrite Hjob, Hrun_id.
  unfold mbind at 1, M_bind at 1. cbn.
  destruct (list_containers_runs_outputs env tr job run) as [[|o outs]|e]; cbn.
  - by rewrite (fetch_result_else _ _ Hd).
  - unfold mbind at 1, M_bind at 1.
    destruct (robust_result_download_run (object_id o)
                (tr ++ [EvListOutputs job run]) t)
      as (r & evs & k & Hrun & Hr & _).
    rewrite Hrun. destruct r as [v|e|]; [|done..]. cbn.
    assert (done (set_remote_func_output v t) = true) as Hd' by done.
    rewrite (fetch_result_else _ _ Hd'). done.
  - done.
Qed.

(** On a future that is done the hook comes back: it logs requests for the
    output, sleeps and the continuation, and sets its two attributes.  It
    raises when the future lacks a job or a run. *)
Lemma fetch_result_done (cb : nat) (tr : Trace) (t : Tracker) :
  done t = true ->
  exists r evs v b,
    _fetch_result env cb (tr, t) = (r, (tr ++ evs, hooked v b t)) /\
    (r = Ret tt \/ r = Raise IndexError) /\
    hook_events evs /\ hook_calls evs = [].
Proof.
  intros Hd. destruct (poller_args t) as [|job [|run rest]] eqn:Hargs.
  - exists (Raise IndexError), [], (remote_func_output t), (result_fetched t).
    rewrite app_nil_r, hooked_self. split; [|split; [by right|done]].
    unfold _fetch_result, job_id. run. by rewrite Hargs.
  - exists (Raise IndexError), [], (remote_func_output t), (result_fetched t).
    rewrite app_nil_r, hooked_self. split; [|split; [by right|done]].
    unfold _fetch_result, job_id, run_id. run. by rewrite Hargs.
  - rewrite (fetch_result_run cb tr t job run rest Hd Hargs). cbn zeta.
    destruct (list_containers_runs_outputs env tr job run) as [[|o outs]|e].
    + exists (Ret tt),
        ([EvListOutputs job run] ++
         (if hook_continues t then [EvContinuation (remote_func_output t)] else [])),
        (remote_func_output t), true.
      rewrite <- app_assoc. split; [by destruct t|].
      split; [by left|]. by destruct (hook_continues t).
    + destruct (robust_result_download_run (object_id o)
                  (tr ++ [EvListOutputs job run]) t)
        as (r & evs & k & Hrun & Hr & Hh & Hc & _).
      rewrite Hrun. destruct r as [v|e|]; [| |done].
      * exists (Ret tt),
          ([EvListOutputs job run] ++ evs ++
           (if hook_continues t then [EvContinuation v] else [])),
          v, true.
        rewrite <- !app_assoc. split; [done|]. split; [by left|].
        split.
        { apply hook_events_app; [done|]. apply hook_events_app; [done|].
          by destruct (hook_continues t). }
        rewrite !hook_calls_app, Hc. by destruct (hook_continues t).
      * exists (Ret tt), ([EvListOutputs job run] ++ evs), (PExc e),
          (result_fetched t).
        rewrite <- !app_assoc. split; [by destruct t|]. split; [by left|].
        split; [by apply hook_events_app|]. by rewrite !hook_calls_app, Hc.
    + exists (Ret tt), [EvListOutputs job run], (PExc e), (result_fetched t).
      split; [by destruct t|]. split; [by left|done].
Qed.

(** The call of one callback on a future that is done. *)
Lemma call_callback_done (cb : Callback) (tr : Trace) (t : Tracker) :
  done t = true ->
  exists evs v b,
    call_callback env cb (tr, t) = (Ret tt, (tr ++ evs, hooked v b t)) /\
    hook_events evs /\ hook_calls evs = [cb].
Proof.
  intros Hd. unfold call_callback, try_except, emit, modify.
  unfold mbind at 1, M_bind at 1. cbn [fst snd].
  destruct cb as [joblib_callback|tag].
  - destruct (fetch_result_done joblib_callback
                (tr ++ [EvInvokeCallback (FetchResult joblib_callback)]) t Hd)
      as (r & evs & v & b & Hrun & Hr & Hh & Hc).
    rewrite Hrun.
    exists ([EvInvokeCallback (FetchResult joblib_callback)] ++ evs), v, b.
    rewrite <- app_assoc.
    split; [by destruct Hr as [-> | ->]|].
    split; [by apply hook_events_app|]. by rewrite hook_calls_app, Hc.
  - exists [EvInvokeCallback (UserCallback tag)], (remote_func_output t),
      (result_fetched t).
    by rewrite hooked_self.
Qed.

(** The callbacks of a future that is done, or that has no completion hook
    among its callbacks, all come back. *)
Lemma for_call_callback_returns (cbs : list Callback) (tr : Trace) (t : Tracker) :
  done t = true \/ forallb user_callback cbs = true ->
  exists evs v b,
    for_ cbs (call_callback env) (tr, t) = (Ret tt, (tr ++ evs, hooked v b t)) /\
    hook_events evs /\ hook_calls evs = cbs.
Proof.
  revert tr t. induction cbs as [|cb cbs IH]; intros tr t Hor.
  { exists [], (remote_func_output t), (result_fetched t).
    by rewrite app_nil_r, hooked_self. }
  cbn [for_]. unfold mbind at 1, M_bind at 1.
  assert (exists evs v b,
            call_callback env cb (tr, t) = (Ret tt, (tr ++ evs, hooked v b t)) /\
            hook_events evs /\ hook_calls evs = [cb]) as (evs1 & v1 & b1 & -> & Hh1 & Hc1).
  { destruct Hor as [Hd|Hu]; [by apply call_callback_done|].
    destruct cb as [?|tag]; [done|].
    exists [EvInvokeCallback (UserCallback tag)], (remote_func_output t),
      (result_fetched t).
    by rewrite hooked_self. }
  destruct (IH (tr ++ evs1) (hooked v1 b1 t)) as (evs & v & b & -> & Hh & Hc).
  { destruct Hor as [Hd|Hu]; [by left|]. right. cbn in Hu.
    by apply andb_prop in Hu as [_ ?]. }
  exists (evs1 ++ evs), v, b. rewrite <- app_assoc, hooked_hooked.
  split; [done|]. split; [by apply hook_events_app|].
  by rewrite hook_calls_app, Hc1, Hc.
Qed.

Lemma invoke_callbacks_returns (tr : Trace) (t : Tracker) :
  done t = true \/ forallb user_callback (_done_callbacks t) = true ->
  exists evs v b,
    _invoke_callbacks env (tr, t) = (Ret tt, (tr ++ evs, hooked v b t)) /\
    hook_events evs /\ hook_calls evs = _done_callbacks t.
Proof.
  intros Hor. unfold _invoke_callbacks, self, gets.
  unfold mbind at 1, M_bind at 1. cbn [fst snd].
  by apply for_call_callback_returns.
Qed.

(** What [get] does once the future is done. *)
Lemma get_run (tr : Trace) (res : _CivisBackendResult) :
  done (_future res) = true ->
  get env (tr, res) =
    let t := _future res in
    let res' :=
      if is_none (result res)
      then set_backend_result (remote_func_output t) res else res in
    ((if cancelled t then Raise CancelledError
      else if bool_decide (_exception t <> None) || negb (result_fetched t) then
        if negb (is_none (result res')) then
          match result res' with
          | PExc e => Raise e
          | _ => Raise TypeError
          end
        else
          match _exception t with
          | Some exc => Raise (TransportableException exc)
          | None => Raise TransportableExceptionOfNone
          end
      else Ret (result res')),
     (tr, res')).
Proof.
  intros Hd. destruct res as [t cb r]. cbn in *.
  unfold get, on_field, zoom. unfold mbind, M_bind. cbn.
  destruct (is_none r) eqn:Hnone; cbn.
  - rewrite (wait_done _ _ Hd). cbn.
    rewrite (exception_done _ _ Hd).
    destruct (cancelled t) eqn:Hc; [done|]. cbn.
    destruct (bool_decide (_exception t <> None) || negb (result_fetched t));
      cbn; [|done].
    destruct (is_none (remote_func_output t)) eqn:Hout; cbn.
    + rewrite (exception_done _ _ Hd), Hc. by destruct (_exception t).
    + by destruct (remote_func_output t).
  - rewrite (exception_done _ _ Hd).
    destruct (cancelled t) eqn:Hc; [done|]. cbn.
    destruct (bool_decide (_exception t <> None) || negb (result_fetched t));
      cbn; [|done].
    rewrite Hnone. cbn. by destruct r.
Qed.

End Download.

(** C5: once the future is done and a first [get] returned a value, every
    later [get] returns the same value and leaves the result object and the
    log as they were: nothing is downloaded or deserialized again. *)
Theorem get_again_returns_cached (env : Env) (tr tr1 : Trace)
    (res res1 : _CivisBackendResult) (v : PyVal) :
  done (_future res) = true ->
  get env (tr, res) = (Ret v, (tr1, res1)) ->
  tr1 = tr /\ _future res1 = _future res /\ result res1 = v /\
  forall n : nat,
    get env (Nat.iter n (fun s => (get env s).2) (tr1, res1))
      = (Ret v, (tr1, res1)).
Proof.
  intros Hd Hget. rewrite (get_run env tr res Hd) in Hget. cbn zeta in Hget.
  assert (get env (tr1, res1) = (Ret v, (tr1, res1)) /\ tr1 = tr /\
          _future res1 = _future res /\ result res1 = v) as (Hagain & ? & ? & ?).
  { destruct res as [t cb r]. cbn in *.
    destruct (cancelled t) eqn:Hc; [done|].
    destruct (bool_decide (_exception t <> None) || negb (result_fetched t))
      eqn:Hcond.
    { destruct (is_none r); cbn in Hget.
      - destruct (negb (is_none (remote_func_output t))); [|by destruct (_exception t)].
        by destruct (remote_func_output t).
      - destruct (negb (is_none r)); [by destruct r|by destruct (_exception t)]. }
    destruct (is_none r) eqn:Hnone; cbn in Hget; injection Hget as <- <- <-.
    - rewrite get_run by done. cbn. rewrite Hc, Hcond.
      by destruct (is_none (remote_func_output t)).
    - rewrite get_run by done. cbn. by rewrite Hc, Hcond, Hnone. }
  repeat split; try done.
  intros n.
  assert (Nat.iter n (fun s => (get env s).2) (tr1, res1) = (tr1, res1)) as ->;
    [|done].
  induction n as [|n IH]; [done|].
  by rewrite Nat.iter_succ, IH, Hagain.
Qed.

(** A first [get] that returns, on the example. *)
Lemma get_again_example :
  let res := {| _future := set_result_fetched true
                             (set_remote_func_output (PObj 42) succeeded_tracker);
                _callback := 0; result := PNone |} in
  done (_future res) = true /\
  get example_env ([], res) = (Ret (PObj 42), ([], set_backend_result (PObj 42) res)) /\
  get example_env ([], set_backend_result (PObj 42) res)
    = (Ret (PObj 42), ([], set_backend_result (PObj 42) res)).
Proof.
  cbn zeta.
  set (res := {| _future := _; _callback := 0; result := PNone |}).
  assert (done (_future res) = true) as Hdone by reflexivity.
  assert (get example_env ([], res)
          = (Ret (PObj 42), ([], set_backend_result (PObj 42) res))) as Hfirst
    by reflexivity.
  split; [exact Hdone|]. split; [exact Hfirst|].
  exact (proj2 (proj2 (proj2
    (get_again_returns_cached example_env [] [] res _ (PObj 42) Hdone Hfirst)))
    0%nat).
Defined.

(** C6 fails as stated.  A run succeeded, the download of its output keeps
    failing, and the continuation is not called.  And a run that [cancel]
    recorded as failed, from the answer of the service, gets the continuation
    called by the completion hook that [cancel] runs. *)
Lemma continuation_not_exactly_on_success :
  (succeeded succeeded_tracker = true /\
   (_fetch_result download_down_env 0 ([], succeeded_tracker)).1 = Ret tt /\
   continuation_calls (_fetch_result download_down_env 0 ([], succeeded_tracker)).2.1
     = []) /\
  (done wrapped_tracker = false /\
   (cancel cancel_failed_env ([], wrapped_tracker)).1 = Ret false /\
   failed (cancel cancel_failed_env ([], wrapped_tracker)).2.2 = true /\
   continuation_calls (cancel cancel_failed_env ([], wrapped_tracker)).2.1
     = [PObj 42]).
Proof. by vm_compute. Qed.

(** C6, amended: the completion hook of a future that is done calls the
    continuation exactly when the future is not cancelled, no exception is
    recorded on it, and fetching the output raised nothing, that is when the
    hook marks the result as fetched; the argument is the value stored on the
    future, the downloaded and deserialized output when the run lists an
    output and the value already there ([None] from the constructor) when it
    lists none.  So for a cancelled run, and for a run with its failure
    recorded as the exception of the future, the continuation is never
    called; for a succeeded run with no exception recorded it is called
    exactly when the result is fetched. *)
Theorem continuation_after_fetched_success (env : Env) (cb : nat) (tr : Trace)
    (t : Tracker) (job run : Z) :
  done t = true -> poller_args t = [job; run] -> result_fetched t = false ->
  exists tr' t',
    _fetch_result env cb (tr, t) = (Ret tt, (tr', t')) /\
    continuation_calls tr' =
      continuation_calls tr ++
      (if hook_continues t && result_fetched t'
       then [remote_func_output t'] else []) /\
    match list_containers_runs_outputs env tr job run with
    | Raises e => result_fetched t' = false /\ remote_func_output t' = PExc e
    | Returns [] =>
        result_fetched t' = true /\ remote_func_output t' = remote_func_output t
    | Returns (o :: _) =>
        match (_robust_result_download env (object_id o) 5 1
                 (tr ++ [EvListOutputs job run], t)).1 with
        | Ret v => result_fetched t' = true /\ remote_func_output t' = v
        | Raise e => result_fetched t' = false /\ remote_func_output t' = PExc e
        | Diverge => False
        end
    end /\
    (cancelled t = true \/ _exception t <> None ->
     continuation_calls tr' = continuation_calls tr) /\
    (succeeded t = true -> _exception t = None ->
     continuation_calls tr' =
       continuation_calls tr ++
       (if result_fetched t' then [remote_func_output t'] else [])).
Proof.
  intros Hd Hargs Hfetched.
  rewrite (fetch_result_run env cb tr t job run [] Hd Hargs). cbn zeta.
  assert (cancelled t = true \/ _exception t <> None -> hook_continues t = false)
    as Hno.
  { unfold hook_continues. intros [->|Hexn]; [done|].
    destruct (_exception t); [|done]. by rewrite andb_false_r. }
  assert (succeeded t = true -> _exception t = None -> hook_continues t = true)
    as Hyes.
  { unfold hook_continues, succeeded, cancelled.
    intros Hs%bool_decide_eq_true ->. by rewrite Hs. }
  assert (forall tr1 tr2 (v : PyVal) (b : bool),
            continuation_calls tr2 = continuation_calls tr ->
            tr1 = tr2 ++ (if hook_continues t && b then [EvContinuation v] else []) ->
            continuation_calls tr1 =
              continuation_calls tr ++ (if hook_continues t && b then [v] else []) /\
            (cancelled t = true \/ _exception t <> None ->
             continuation_calls tr1 = continuation_calls tr) /\
            (succeeded t = true -> _exception t = None ->
             continuation_calls tr1 =
               continuation_calls tr ++ (if b then [v] else []))) as Hcalls.
  { intros tr1 tr2 v b Htr2 ->. rewrite continuation_calls_app, Htr2.
    split; [by destruct (hook_continues t && b)|]. split.
    - intros H. rewrite (Hno H). cbn. by rewrite app_nil_r.
    - intros Hs Hexn. rewrite (Hyes Hs Hexn). by destruct b. }
  assert (continuation_calls (tr ++ [EvListOutputs job run]) = continuation_calls tr)
    as Hlist by (rewrite continuation_calls_app; cbn; by rewrite app_nil_r).
  destruct (list_containers_runs_outputs env tr job run) as [[|o outs]|e].
  - do 2 eexists. split; [done|]. cbn [result_fetched remote_func_output
      set_result_fetched set_remote_func_output].
    destruct (Hcalls (tr ++ [EvListOutputs job run] ++
                (if hook_continues t then [EvContinuation (remote_func_output t)]
                 else [])) (tr ++ [EvListOutputs job run]) (remote_func_output t) true)
      as (H1 & H2 & H3); [done| |].
    { rewrite andb_true_r. by rewrite <- app_assoc. }
    rewrite <- app_assoc. done.
  - destruct (robust_result_download_run env (object_id o)
                (tr ++ [EvListOutputs job run]) t)
      as (r & evs & k & Hrun & Hr & _ & _ & _ & _ & _ & Hcont & _).
    rewrite Hrun.
    assert (continuation_calls ((tr ++ [EvListOutputs job run]) ++ evs)
            = continuation_calls tr) as Hevs.
    { by rewrite continuation_calls_app, Hcont, app_nil_r. }
    destruct r as [v|e|]; [| |done]; do 2 eexists; (split; [done|]);
      cbn [fst result_fetched remote_func_output set_result_fetched
           set_remote_func_output].
    + destruct (Hcalls (((tr ++ [EvListOutputs job run]) ++ evs) ++
                  (if hook_continues t then [EvContinuation v] else []))
                  ((tr ++ [EvListOutputs job run]) ++ evs) v true)
        as (H1 & H2 & H3); [done| |done].
      by rewrite andb_true_r.
    + rewrite Hfetched.
      destruct (Hcalls ((tr ++ [EvListOutputs job run]) ++ evs)
                  ((tr ++ [EvListOutputs job run]) ++ evs) (PExc e) false)
        as (H1 & H2 & H3); [done| |done].
      by rewrite andb_false_r, app_nil_r.
  - do 2 eexists. split; [done|].
    cbn [result_fetched remote_func_output set_result_fetched
         set_remote_func_output].
    rewrite Hfetched.
    destruct (Hcalls (tr ++ [EvListOutputs job run])
                (tr ++ [EvListOutputs job run]) (PExc e) false)
      as (H1 & H2 & H3); [done| |done].
    by rewrite andb_false_r, app_nil_r.
Qed.

(** The hook of a succeeded run whose output downloads at once. *)
Lemma continuation_after_fetched_success_example :
  done succeeded_tracker = true /\
  exists tr' t',
    _fetch_result example_env 0 ([], succeeded_tracker) = (Ret tt, (tr', t')) /\
    continuation_calls tr' = [PObj 42].
Proof.
  split; [done|].
  destruct (continuation_after_fetched_success example_env 0 [] succeeded_tracker 5 6)
    as (tr' & t' & Hrun & Hcont & Hout & _); [done..|].
  exists tr', t'. split; [done|].
  cbn in Hout. destruct Hout as [Hf Hv].
  rewrite Hcont, Hf, Hv. done.
Defined.

(** C7: [_robust_result_download] comes to an end after at most
    [n_retries + 1] attempts, sleeping [delay] before each retry, and makes
    all of them when every attempt fails with an exception it retries.  When
    every attempt fails, the completion hook does not raise: after the
    request for the outputs of the run and the attempts of the download, six
    of them with a second between them when the failures are of the kind that
    is retried, it stores the exception of the last attempt in
    [remote_func_output], leaves the result unfetched and does not call the
    continuation; a later [get] raises the stored exception, unless the run
    was cancelled. *)
Theorem download_failure_is_recorded (env : Env) :
  (forall (O : Type) (file_id n_retries : Z) (delay : Q) (tr : Trace) (o : O),
     0 <= n_retries ->
     exists r tr' k,
       _robust_result_download env file_id n_retries delay (tr, o)
         = (r, (tr', o)) /\
       r <> Diverge /\
       download_attempts tr' = (download_attempts tr + k)%nat /\
       1 <= Z.of_nat k <= n_retries + 1 /\
       sleeps tr' = sleeps tr ++ replicate (k - 1) delay /\
       (download_fails env file_id ->
        exists e pre,
          r = Raise e /\ tr' = pre ++ [EvCivisToFile file_id] /\
          civis_to_file env pre file_id = Raises e) /\
       (download_fails_transiently env file_id ->
        Z.of_nat k = n_retries + 1 /\ exists e, r = Raise e)) /\
  (forall (cb : nat) (tr : Trace) (t : Tracker) (job run : Z)
          (out : RunOutput) (outs : list RunOutput),
     done t = true -> poller_args t = [job; run] -> result_fetched t = false ->
     list_containers_runs_outputs env tr job run = Returns (out :: outs) ->
     download_fails env (object_id out) ->
     exists tr' pre e,
       _robust_result_download env (object_id out) 5 1
         (tr ++ [EvListOutputs job run], t) = (Raise e, (tr', t)) /\
       tr' = pre ++ [EvCivisToFile (object_id out)] /\
       civis_to_file env pre (object_id out) = Raises e /\
       _fetch_result env cb (tr, t)
         = (Ret tt, (tr', set_remote_func_output (PExc e) t)) /\
       (download_attempts tr + 1 <= download_attempts tr'
          <= download_attempts tr + 6)%nat /\
       (download_fails_transiently env (object_id out) ->
        download_attempts tr' = (download_attempts tr + 6)%nat /\
        sleeps tr' = sleeps tr ++ replicate 5 1%Q) /\
       continuation_calls tr' = continuation_calls tr /\
       forall cb' : nat,
         (get env (tr', {| _future := set_remote_func_output (PExc e) t;
                           _callback := cb'; result := PNone |})).1
           = Raise (if cancelled t then CancelledError else e)).
Proof.
  split.
  - intros O file_id n_retries delay tr o Hn.
    destruct (robust_result_download_loop_run env (S (Z.to_nat n_retries))
                file_id n_retries delay 0 tr o)
      as (r & tr' & k & Hrun & Hr & Hk & Hbound & Hsleeps & _ & Hf & Hft); [lia|].
    exists r, tr', k. split; [done|]. split; [done|]. split; [done|].
    split; [lia|]. split; [done|]. split; [done|].
    intros Htr. split; [specialize (Hft Htr); lia|].
    destruct Hf as (e & pre & -> & _); [|by eauto].
    intros tr0. destruct (Htr tr0) as (e & He & _). eauto.
  - intros cb tr t job run out outs Hd Hargs Hfetched Hlist Hfails.
    rewrite (fetch_result_run env cb tr t job run [] Hd Hargs), Hlist. cbn zeta.
    destruct (robust_result_download_run env (object_id out)
                (tr ++ [EvListOutputs job run]) t)
      as (r & evs & k & Hrun & Hr & _ & _ & Hk & Hbound & Hsl & Hcont & Hf & Hft).
    destruct (Hf Hfails) as (e & pre & -> & Hpre & Hlast). rewrite Hrun.
    exists ((tr ++ [EvListOutputs job run]) ++ evs), pre, e.
    split; [done|]. split; [done|]. split; [done|]. split; [done|].
    rewrite !download_attempts_app, !sleeps_app, !continuation_calls_app,
      Hk, Hsl, Hcont.
    cbn. rewrite !app_nil_r.
    split; [lia|]. split.
    { intros Htr. rewrite (Hft Htr). split; [lia|done]. }
    split; [done|].
    intros cb'. rewrite get_run by done. cbn.
    assert (cancelled (set_remote_func_output (PExc e) t) = cancelled t) as -> by done.
    destruct (cancelled t); [done|].
    rewrite Hfetched, orb_true_r. done.
Qed.

(** A succeeded run whose output cannot be downloaded: six attempts, and
    [get] raises the connection error. *)
Lemma download_failure_is_recorded_example :
  download_fails download_down_env 11 /\
  exists tr',
    _fetch_result download_down_env 0 ([], succeeded_tracker)
      = (Ret tt, (tr', set_remote_func_output (PExc ConnectionError) succeeded_tracker)) /\
    download_attempts tr' = 6%nat /\
    (get download_down_env
       (tr', {| _future := set_remote_func_output (PExc ConnectionError) succeeded_tracker;
                _callback := 0; result := PNone |})).1 = Raise ConnectionError.
Proof.
  assert (download_fails download_down_env 11) as Hf by (intros tr; by eexists).
  assert (download_fails_transiently download_down_env 11) as Hft
    by (intros tr; by eexists).
  split; [done|].
  destruct (proj2 (download_failure_is_recorded download_down_env) 0%nat []
              succeeded_tracker 5 6 {| object_id := 11 |} [])
    as (tr' & pre & e & _ & _ & Hlast & Hrun & _ & Hsix & _ & Hget); [done..|].
  injection Hlast as <-.
  exists tr'. split; [done|]. split; [by apply Hsix|]. apply (Hget 0%nat).
Defined.

(** ** [cancel] *)

#[local] Arguments PollableResult_done : simpl never.
#[local] Arguments _set_api_exception : simpl never.

Lemma status_requests_app (a b : Trace) :
  status_requests (a ++ b) = status_requests a ++ status_requests b.
Proof. apply omap_app. Qed.

Lemma cancel_requests_cleanup (t : Tracker) :
  cancel_requests (cleanup_events t) = [].
Proof. unfold cleanup_events. by destruct (_polling_thread t), (_pubnub t). Qed.

Lemma hook_calls_cleanup (t : Tracker) : hook_calls (cleanup_events t) = [].
Proof. unfold cleanup_events. by destruct (_polling_thread t), (_pubnub t). Qed.

Lemma cancel_requests_waiters (ws : list nat) :
  cancel_requests (EvAddCancelled <$> ws) = [].
Proof. by induction ws. Qed.

Lemma hook_calls_waiters (ws : list nat) : hook_calls (EvAddCancelled <$> ws) = [].
Proof. by induction ws. Qed.

Lemma new_runs_waiters (ws : list nat) : new_runs (EvAddCancelled <$> ws) = [].
Proof. by induction ws. Qed.

Lemma status_requests_waiters (ws : list nat) :
  status_requests (EvAddCancelled <$> ws) = [].
Proof. by induction ws. Qed.

Lemma status_requests_cleanup (t : Tracker) :
  status_requests (cleanup_events t) = [].
Proof. unfold cleanup_events. by destruct (_polling_thread t), (_pubnub t). Qed.

(** A tracker that is done holds its outcome, and [done()] does not poll it. *)
Lemma done_must_poll (t : Tracker) : done t = true -> must_poll t = false.
Proof.
  unfold done, succeeded, failed, cancelled, _civis_state, must_poll.
  by destruct (_result t).
Qed.

Lemma must_poll_not_done (t : Tracker) : must_poll t = true -> done t = false.
Proof.
  intros H. destruct (done t) eqn:Hd; [|done].
  by rewrite (done_must_poll t Hd) in H.
Qed.

Lemma released_fields (t : Tracker) :
  poller_args (released t) = poller_args t /\
  _done_callbacks (released t) = _done_callbacks t /\
  _waiters (released t) = _waiters t /\ _result (released t) = _result t /\
  _exception (released t) = _exception t /\
  _last_result (released t) = _last_result t /\
  remote_func_output (released t) = remote_func_output t /\
  result_fetched (released t) = result_fetched t /\
  _max_n_retries (released t) = _max_n_retries t /\
  _polling_thread (released t) = false /\ subscribed (released t) = false.
Proof.
  by destruct t as [args n result exn last polled [] [pn|] ws cbs out fetched poc].
Qed.

Section Cancel.

Variable env : Env.

(** [done()] on a tracker that it does not poll. *)
Lemma PollableResult_done_pure (tr : Trace) (t : Tracker) :
  must_poll t = false -> PollableResult_done env (tr, t) = (Ret (done t), (tr, t)).
Proof.
  intros H. unfold PollableResult_done, self, gets.
  unfold mbind, M_bind. cbn [fst snd]. by rewrite H.
Qed.

(** [done()] on a tracker that it polls, when the run is in progress: the
    status is asked for and kept as the last result. *)
Lemma PollableResult_done_in_progress (tr : Trace) (t : Tracker) (job run : Z)
    (st : Response) :
  must_poll t = true -> poller_args t = [job; run] ->
  get_containers_runs env tr job run = Returns st -> finished st = false ->
  PollableResult_done env (tr, t) =
    (Ret false, (tr ++ [EvGetRun job run], set_last_result (Some st) t)).
Proof.
  intros Hp Hargs Hst Hfin.
  pose proof (must_poll_not_done t Hp) as Hd.
  assert (done (set_last_result (Some st) t) = false) as Hd' by exact Hd.
  unfold finished in Hfin.
  unfold PollableResult_done, _poll_and_set_api_result, try_except,
    scripts_get_containers_runs, PollableResult_set_api_result, self, self_set,
    gets, modify, api.
  unfold mbind, M_bind, mret, M_ret. cbn. rewrite Hp. cbn. rewrite Hargs. cbn.
  rewrite Hst. cbn. rewrite Hd. cbn.
  destruct (r_state st); try done; cbn; by rewrite Hd'.
Qed.


(** [cancel] on a tracker that is done changes nothing and asks nothing. *)
Lemma cancel_done (tr : Trace) (t : Tracker) :
  done t = true -> cancel env (tr, t) = (Ret (cancelled t), (tr, t)).
Proof.
  intros Hd. unfold cancel, self, gets. unfold mbind at 1, M_bind at 1.
  cbn [fst snd].
  destruct (cancelled t); [done|].
  unfold mbind at 1, M_bind at 1.
  rewrite (PollableResult_done_pure _ _ (done_must_poll t Hd)). by rewrite Hd.
Qed.

(** [cancel] on a tracker that is not done and that [done()] does not poll,
    when the service answers: the request, the answer recorded, the waiters,
    the resources released, and then the callbacks. *)
Lemma cancel_not_done (tr : Trace) (t : Tracker) (job : Z) (rest : list Z)
    (ack : Response) :
  done t = false -> must_poll t = false -> poller_args t = job :: rest ->
  post_cancel env tr job = Returns ack ->
  cancel env (tr, t) =
    (_invoke_callbacks env;; self cancelled)
      (tr ++ [EvPostCancel job] ++ (EvAddCancelled <$> _waiters t) ++
         [EvNotifyAll] ++ cleanup_events t,
       released (set_result (Some ack) t)).
Proof.
  intros Hd Hp Hargs Hack.
  assert (cancelled t = false) as Hc.
  { unfold done in Hd. by destruct (succeeded t), (failed t), (cancelled t). }
  unfold cancel, job_id, self, self_set, gets, modify, api, lift_res.
  unfold mbind, M_bind, mret, M_ret. cbn -[cleanup_events emit]. rewrite Hc.
  rewrite (PollableResult_done_pure _ _ Hp), Hd. cbn -[cleanup_events emit].
  rewrite Hargs. cbn -[cleanup_events emit]. rewrite Hack.
  cbn -[cleanup_events emit]. rewrite for_emit. unfold emit, modify.
  cbn -[cleanup_events]. rewrite cleanup_run. cbn -[cleanup_events].
  assert (cleanup_events (set_result (Some ack) t) = cleanup_events t) as -> by done.
  by rewrite <- !app_assoc.
Qed.

(** That [cancel] comes back, when the answer leaves the tracker done or no
    callback is the hook of a result. *)
Lemma cancel_returns (tr : Trace) (t : Tracker) (job : Z) (rest : list Z)
    (ack : Response) :
  done t = false -> must_poll t = false -> poller_args t = job :: rest ->
  post_cancel env tr job = Returns ack ->
  finished ack = true \/ forallb user_callback (_done_callbacks t) = true ->
  exists evs v b,
    cancel env (tr, t) =
      (Ret (bool_decide (r_state ack = Cancelled)),
       (tr ++ [EvPostCancel job] ++ (EvAddCancelled <$> _waiters t) ++
          [EvNotifyAll] ++ cleanup_events t ++ evs,
        hooked v b (released (set_result (Some ack) t)))) /\
    hook_events evs /\ hook_calls evs = _done_callbacks t.
Proof.
  intros Hd Hp Hargs Hack Hor.
  rewrite (cancel_not_done tr t job rest ack Hd Hp Hargs Hack).
  set (t1 := released (set_result (Some ack) t)).
  destruct (released_fields (set_result (Some ack) t))
    as (_ & Hcbs & _ & Hres & _).
  fold t1 in Hcbs, Hres. cbn in Hcbs, Hres.
  assert (_civis_state t1 = r_state ack) as Hst
    by (unfold _civis_state; by rewrite Hres).
  destruct (invoke_callbacks_returns env
              (tr ++ [EvPostCancel job] ++ (EvAddCancelled <$> _waiters t) ++
                 [EvNotifyAll] ++ cleanup_events t) t1)
    as (evs & v & b & Hrun & Hh & Hc).
  { destruct Hor as [Hfin|Hu]; [left|right; by rewrite Hcbs].
    unfold done, succeeded, failed, cancelled. rewrite Hst.
    unfold finished in Hfin. by destruct (r_state ack). }
  exists evs, v, b. split; [|split; [done|by rewrite Hc]].
  unfold mbind, M_bind. rewrite Hrun. unfold self, gets. cbn [fst snd].
  assert (cancelled (hooked v b t1) = bool_decide (r_state ack = Cancelled)) as ->.
  { unfold cancelled. by rewrite <- Hst. }
  by rewrite <- !app_assoc.
Qed.

(** [cancel] on a tracker that is not cancelled asks whether it is done, and
    sends the request when it is not. *)
Lemma cancel_step (tr : Trace) (t : Tracker) :
  cancelled t = false ->
  cancel env (tr, t) =
    match PollableResult_done env (tr, t) with
    | (Ret d, s) =>
        (if negb d then
           job ← job_id;
           r ← api (EvPostCancel job) (fun tr => post_cancel env tr job);
           self_set (set_result (Some r));;
           ws ← self _waiters;
           for_ ws (fun waiter => emit (EvAddCancelled waiter));;
           emit EvNotifyAll;;
           cleanup;;
           _invoke_callbacks env;;
           self cancelled
         else mret false) s
    | (Raise e, s) => (Raise e, s)
    | (Diverge, s) => (Diverge, s)
    end.
Proof.
  intros Hc. unfold cancel. unfold mbind at 1, M_bind at 1.
  unfold self at 1, gets at 1. cbn [fst snd]. rewrite Hc.
  unfold mbind at 1, M_bind at 1.
  by destruct (PollableResult_done env (tr, t)) as [[d|e|] s].
Qed.

(** [cancel] on a tracker that [done()] polls, when the run is in progress:
    after the request for the status it goes on as on a tracker that has
    polled. *)
Lemma cancel_polls_first (tr : Trace) (t : Tracker) (job run : Z)
    (st : Response) :
  must_poll t = true -> poller_args t = [job; run] ->
  get_containers_runs env tr job run = Returns st -> finished st = false ->
  cancel env (tr, t) =
    cancel env (tr ++ [EvGetRun job run], set_last_result (Some st) t).
Proof.
  intros Hp Hargs Hst Hfin.
  pose proof (must_poll_not_done t Hp) as Hd.
  assert (cancelled t = false) as Hc.
  { unfold done in Hd. by destruct (succeeded t), (failed t), (cancelled t). }
  set (t1 := set_last_result (Some st) t).
  assert (cancelled t1 = false) as Hc1 by exact Hc.
  assert (done t1 = false) as Hd1 by exact Hd.
  assert (must_poll t1 = false) as Hp1.
  { unfold must_poll. subst t1. cbn. by destruct (_result t). }
  rewrite (cancel_step tr t Hc), (cancel_step _ t1 Hc1).
  rewrite (PollableResult_done_in_progress tr t job run st Hp Hargs Hst Hfin).
  fold t1. by rewrite (PollableResult_done_pure _ _ Hp1), Hd1.
Qed.

Lemma on_future_run {A} (i : nat) (m : M (St Tracker) A) (tr : Trace)
    (e : Executor) (t : Tracker) :
  _futures e !! i = Some t ->
  on_future i m (tr, e) =
    (let '(r, (tr', t')) := m (tr, t) in
     (r, (tr', set_futures (<[i:=t']> (_futures e)) e))).
Proof. intros H. unfold on_future. cbn. by rewrite H. Qed.

Lemma set_futures_idem (fs fs' : list Tracker) (e : Executor) :
  set_futures fs' (set_futures fs e) = set_futures fs' e.
Proof. done. Qed.

Lemma set_futures_self (e : Executor) : set_futures (_futures e) e = e.
Proof. by destruct e. Qed.

Hypothesis Hstops : service_stops_runs env.

(** [cancel] on a tracker that is not done, on a service that stops the
    runs: one cancel request, after the status request of a tracker that
    [done()] polls, and the tracker is done. *)
Lemma cancel_pending (tr : Trace) (t : Tracker) :
  has_job t -> pollable env t -> done t = false ->
  exists ret tr' t' job ack,
    poller_args t !! 0%nat = Some job /\
    cancel env (tr, t) = (Ret ret, (tr', t')) /\
    cancel_requests tr' = cancel_requests tr ++ [job] /\
    new_runs tr' = new_runs tr /\
    hook_calls tr' = hook_calls tr ++ _done_callbacks t /\
    status_requests tr' =
      status_requests tr ++
      (if must_poll t then [(job, default 0 (poller_args t !! 1%nat))] else []) /\
    _result t' = Some ack /\ finished ack = true /\ done t' = true /\
    poller_args t' = poller_args t /\ _exception t' = _exception t /\
    _done_callbacks t' = _done_callbacks t.
Proof.
  intros (job & rest & Hargs) Hpoll Hd.
  assert (forall tr0 t0,
            done t0 = false -> must_poll t0 = false -> poller_args t0 = job :: rest ->
            exists ret tr' t' ack,
              cancel env (tr0, t0) = (Ret ret, (tr', t')) /\
              cancel_requests tr' = cancel_requests tr0 ++ [job] /\
              new_runs tr' = new_runs tr0 /\
              hook_calls tr' = hook_calls tr0 ++ _done_callbacks t0 /\
              status_requests tr' = status_requests tr0 /\
              _result t' = Some ack /\ finished ack = true /\ done t' = true /\
              poller_args t' = poller_args t0 /\ _exception t' = _exception t0 /\
              _done_callbacks t' = _done_callbacks t0) as Hdirect.
  { intros tr0 t0 Hd0 Hp0 Hargs0.
    destruct (Hstops tr0 job) as (ack & Hack & Hfin).
    destruct (cancel_returns tr0 t0 job rest ack Hd0 Hp0 Hargs0 Hack (or_introl Hfin))
      as (evs & v & b & Hrun & Hh & Hc).
    destruct (hook_events_quiet evs Hh) as (Hq1 & Hq2 & _ & _ & Hq5).
    destruct (released_fields (set_result (Some ack) t0))
      as (Hf1 & Hf2 & _ & Hf4 & Hf5 & _).
    do 4 eexists. split; [exact Hrun|].
    rewrite !cancel_requests_app, !new_runs_app, !hook_calls_app,
      !status_requests_app, cancel_requests_waiters, new_runs_waiters,
      hook_calls_waiters, cancel_requests_cleanup, new_runs_cleanup,
      hook_calls_cleanup, status_requests_waiters, status_requests_cleanup,
      Hq1, Hq2, Hq5, Hc.
    cbn. rewrite !app_nil_r.
    split; [done|]. split; [done|]. split; [done|]. split; [done|].
    split; [exact Hf4|]. split; [done|]. split.
    { rewrite done_hooked. unfold done, succeeded, failed, cancelled, _civis_state.
      rewrite Hf4. cbn. unfold finished in Hfin. by destruct (r_state ack). }
    split; [exact Hf1|]. split; [exact Hf5|exact Hf2]. }
  destruct (must_poll t) eqn:Hp.
  - destruct Hpoll as [?|(Hprog & job' & run & Hargs')]; [congruence|].
    assert (job' = job) as -> by congruence.
    destruct (Hprog tr job run) as (st & Hst & Hfin).
    rewrite (cancel_polls_first tr t job run st Hp Hargs' Hst Hfin).
    destruct (Hdirect (tr ++ [EvGetRun job run]) (set_last_result (Some st) t))
      as (ret & tr' & t' & ack & Hrun & Hreq & Hruns & Hcalls & Hstat & Hrest).
    { exact Hd. }
    { unfold must_poll. cbn. by destruct (_result t). }
    { exact Hargs. }
    exists ret, tr', t', job, ack. split; [by rewrite Hargs|]. split; [exact Hrun|].
    rewrite Hreq, Hruns, Hcalls, Hstat, cancel_requests_app, new_runs_app,
      hook_calls_app, status_requests_app, Hargs'. cbn. rewrite !app_nil_r.
    destruct Hrest as (? & ? & ? & Ha & ? & ?). cbn in Ha. rewrite Hargs' in Ha.
    done.
  - destruct (Hdirect tr t Hd Hp Hargs)
      as (ret & tr' & t' & ack & Hrun & Hreq & Hruns & Hcalls & Hstat & Hrest).
    exists ret, tr', t', job, ack. split; [by rewrite Hargs|]. split; [exact Hrun|].
    rewrite Hstat, app_nil_r. done.
Qed.

(** The loop of [cancel_all], from position [i] on. *)
Lemma cancel_all_from (n i : nat) (tr : Trace) (e : Executor) :
  length (_futures e) = (i + n)%nat -> Forall has_job (_futures e) ->
  Forall (pollable env) (_futures e) ->
  exists tr' fs',
    for_ (seq i n) (fun f => on_future f (cancel env);; mret tt) (tr, e)
      = (Ret tt, (tr', set_futures fs' e)) /\
    length fs' = length (_futures e) /\
    cancel_requests tr' =
      cancel_requests tr ++ omap pending_job (drop i (_futures e)) /\
    new_runs tr' = new_runs tr /\
    (forall j t, _futures e !! j = Some t -> (j < i)%nat \/ done t = true ->
       fs' !! j = Some t) /\
    (forall j t, _futures e !! j = Some t -> (i <= j)%nat -> done t = false ->
       exists t', fs' !! j = Some t' /\ done t' = true /\
                  poller_args t' = poller_args t /\ _exception t' = _exception t).
Proof.
  revert i tr e. induction n as [|n IH]; intros i tr e Hlen Hjobs Hpoll.
  - exists tr, (_futures e). cbn. rewrite set_futures_self.
    rewrite drop_ge by lia. cbn. rewrite app_nil_r.
    repeat split; try done.
    intros j t Hj Hij. apply lookup_lt_Some in Hj. lia.
  - destruct (lookup_lt_is_Some_2 (_futures e) i) as [t Ht]; [lia|].
    assert (has_job t) as Hjob.
    { rewrite Forall_forall in Hjobs. eapply Hjobs, list_elem_of_lookup_2, Ht. }
    assert (pollable env t) as Hpt.
    { rewrite Forall_forall in Hpoll. eapply Hpoll, list_elem_of_lookup_2, Ht. }
    rewrite (drop_S _ _ _ Ht). cbn [seq for_].
    unfold mbind at 1, M_bind at 1. unfold mbind at 1, M_bind at 1.
    rewrite (on_future_run _ _ _ _ _ Ht).
    destruct (done t) eqn:Hd.
    + rewrite (cancel_done _ _ Hd). cbn [mret M_ret].
      rewrite list_insert_id, set_futures_self by done.
      destruct (IH (S i) tr e)
        as (tr' & fs' & Hrun & Hlen' & Hreq & Hruns & Hkeep & Hdone);
        [lia|done|done|].
      exists tr', fs'. split; [done|]. split; [done|]. split.
      { rewrite Hreq. assert (pending_job t = None) as Hpj
          by (unfold pending_job; by rewrite Hd).
        cbn. by rewrite Hpj. }
      split; [done|]. split.
      * intros j t' Hj [Hlt|Hdone']; apply Hkeep; eauto; left; lia.
      * intros j t' Hj Hij Hd'. apply Hdone; [done| |done].
        destruct (decide (i = j)) as [<-|]; [congruence|lia].
    + destruct (cancel_pending tr t Hjob Hpt Hd)
        as (ret & tr1 & t' & job & ack & Hjob0 & Hcancel & Hreq1 & Hruns1 & _ & _
            & _ & _ & Hd' & Hargs' & Hexn' & _).
      rewrite Hcancel. cbn [mret M_ret].
      destruct (IH (S i) tr1 (set_futures (<[i:=t']> (_futures e)) e))
        as (tr' & fs' & Hrun & Hlen' & Hreq & Hruns & Hkeep & Hdone).
      { cbn. rewrite length_insert. lia. }
      { cbn. apply Forall_insert; [done|].
        destruct Hjob as (j0 & rest & Hj0). exists j0, rest. congruence. }
      { cbn. apply Forall_insert; [done|]. left. by apply done_must_poll. }
      cbn [_futures set_futures] in *. rewrite set_futures_idem in Hrun.
      exists tr', fs'. split; [done|]. split.
      { by rewrite Hlen', length_insert. }
      split.
      { rewrite Hreq, Hreq1, drop_insert_lt by lia.
        assert (pending_job t = Some job) as Hpj
          by (unfold pending_job; by rewrite Hd).
        cbn. rewrite Hpj. by rewrite <- app_assoc. }
      split; [congruence|]. split.
      * intros j t0 Hj Hor. apply Hkeep.
        -- destruct (decide (i = j)) as [<-|Hne].
           ++ destruct Hor as [?|Hdone']; [lia|]. congruence.
           ++ by rewrite list_lookup_insert_ne.
        -- destruct Hor as [?|?]; [left; lia|by right].
      * intros j t0 Hj Hij Hd0.
        destruct (decide (i = j)) as [<-|Hne].
        -- assert (t0 = t) as -> by congruence.
           exists t'. split; [|done]. apply Hkeep; [|by left; lia].
           apply list_lookup_insert_eq. by eapply lookup_lt_Some.
        -- apply Hdone; [|lia|done]. by rewrite list_lookup_insert_ne.
Qed.

End Cancel.







(** ** Submitting with retries *)

#[local] Arguments submit_attempts : simpl never.
#[local] Arguments sleeps : simpl never.

Section Submission.

Variable env : Env.

(** [_CivisExecutor.submit] does not log a sleep or a call of its own, it
    comes back, it keeps the class and the shutdown flag of the executor, the
    future it returns is in the registry, and it raises the API error of a
    job creation that fails. *)
Lemma submit_log (fn : option string) (arguments : option (list (string * Z)))
    (s : St Executor) :
  let rs := submit env fn arguments s in
  rs.1 <> Diverge /\
  submit_attempts rs.2.1 = submit_attempts s.1 /\
  sleeps rs.2.1 = sleeps s.1 /\
  kind rs.2.2 = kind s.2 /\
  _shutdown_thread rs.2.2 = _shutdown_thread s.2 /\
  (forall f, rs.1 = Ret f -> is_Some (_futures rs.2.2 !! f)) /\
  (submission_fails env -> _shutdown_thread s.2 = false ->
   exists code, rs.1 = Raise (CivisAPIError code)).
Proof.
  destruct s as [tr [k n name inc c down fs]].
  unfold submit, _make_future, ContainerFuture_init, on_field, zoom, raise, self,
    self_set, gets, modify, api, emit, time, submission_fails.
  unfold mbind, M_bind, mret, M_ret. cbn.
  destruct down; cbn; [by repeat split|].
  destruct inc; cbn.
  all: match goal with
       | |- context [create_job env ?a ?b ?c ?d] =>
           destruct (create_job env a b c d) as [job|e] eqn:Hjob
       end; cbn.
  all: try match goal with
       | |- context [post_runs env ?a ?b] =>
           destruct (post_runs env a b) as [run|e] eqn:Hrun
       end; cbn.
  all: try (destruct (has_channels env); cbn).
  all: try match goal with
       | |- context [channels_list env ?a] =>
           destruct (channels_list env a) as [channels|e] eqn:Hch
       end; cbn.
  all: rewrite ?submit_attempts_app, ?sleeps_app.
  all: unfold submit_attempts, sleeps; cbn.
  all: rewrite ?app_nil_r, ?Nat.add_0_r.
  all: repeat split; try done.
  all: try (intros f [= <-]; apply lookup_lt_is_Some; rewrite length_app; cbn; lia).
  all: intros Hfail _;
    match goal with
    | H : create_job env ?a ?b ?c ?d = _ |- _ =>
        destruct (Hfail a b c d) as [code Hcode]; rewrite Hcode in H
    end; try done.
  all: injection Hjob as <-; eauto.
Qed.

(** One call of [submit] from [apply_async]: it is logged once, and has the
    properties above. *)
Lemma executor_submit_log (cmd : string) (fid : Z) (s : St Backend) :
  let rs := executor_submit env cmd fid s in
  rs.1 <> Diverge /\
  submit_attempts rs.2.1 = S (submit_attempts s.1) /\
  sleeps rs.2.1 = sleeps s.1 /\
  max_submit_retries rs.2.2 = max_submit_retries s.2 /\
  (can_submit s.2 -> can_submit rs.2.2) /\
  (forall f, rs.1 = Ret f -> is_Some (_futures (executor rs.2.2) !! f)) /\
  (submission_fails env -> can_submit s.2 ->
   exists code, rs.1 = Raise (CivisAPIError code)).
Proof.
  destruct s as [tr [e setup K template]].
  unfold executor_submit, can_submit. unfold mbind, M_bind. cbn.
  assert (submit_attempts (tr ++ [EvSubmit]) = S (submit_attempts tr)) as Hcount
    by (rewrite submit_attempts_app; unfold submit_attempts; cbn; lia).
  assert (sleeps (tr ++ [EvSubmit]) = sleeps tr) as Hsl
    by (rewrite sleeps_app; unfold sleeps; cbn; by rewrite app_nil_r).
  destruct template; [destruct (kind e) eqn:Hkind|]; cbn.
  - split; [done|]. split; [done|]. split; [done|]. split; [done|].
    split; [|split; [done|]].
    + intros [_ Hc]. by destruct (Hc eq_refl).
    + intros _ [_ Hc]. by destruct (Hc eq_refl).
  - unfold on_field, zoom. cbn.
    pose proof (submit_log None (Some [("JOBLIB_FUNC_FILE_ID"%string, fid)])
                  (tr ++ [EvSubmit], e)) as Hlog.
    destruct (submit env None _ (tr ++ [EvSubmit], e)) as [r [tr' e']].
    cbn in *. destruct Hlog as (? & -> & -> & Hk & Hd & ? & Hf).
    rewrite Hk, Hd. repeat split; try tauto; eauto.
    all: try (intros Hfail [? _]; eauto).
  - unfold on_field, zoom. cbn.
    pose proof (submit_log (Some cmd) None (tr ++ [EvSubmit], e)) as Hlog.
    destruct (submit env (Some cmd) None (tr ++ [EvSubmit], e)) as [r [tr' e']].
    cbn in *. destruct Hlog as (? & -> & -> & Hk & Hd & ? & Hf).
    rewrite Hk, Hd. repeat split; try tauto; eauto.
    all: try (intros Hfail [? _]; eauto).
Qed.

(** One iteration of the submission loop. *)
Lemma submit_loop_cons (cmd : string) (fid n_retries : Z) (rng : list Z)
    (s : St Backend) :
  submit_loop env cmd fid (n_retries :: rng) s =
    match executor_submit env cmd fid s with
    | (Ret f, s1) => (Ret (Some f), s1)
    | (Raise e, s1) =>
        if is_CivisAPIError e then
          if max_submit_retries s1.2 - n_retries - 1 <? 1
          then (Raise (JobSubmissionError e), s1)
          else submit_loop env cmd fid rng
                 (s1.1 ++ [EvSleep (inject_Z (2 ^ n_retries))], s1.2)
        else (Raise e, s1)
    | (Diverge, s1) => (Diverge, s1)
    end.
Proof.
  cbn [submit_loop]. unfold try_except. unfold mbind, M_bind. cbn.
  destruct (executor_submit env cmd fid s) as [[f|e|] s1]; cbn; try done.
  destruct (is_CivisAPIError e); [|done]. cbn.
  by destruct (_ <? 1).
Qed.

(** The loop from iteration [i] on, over what is left of the range. *)
Lemma submit_loop_run (cmd : string) (fid : Z) (n i : nat) (s : St Backend) :
  let K := max_submit_retries s.2 in
  (i + n = Z.to_nat K + 1)%nat -> 0 <= K -> (1 <= n)%nat ->
  exists (a : nat) (last : Res nat) (s1 : St Backend),
    attempts_made env cmd fid i a s (last, s1) /\
    (1 <= a)%nat /\ Z.of_nat a <= Z.max 1 (K - Z.of_nat i) /\
    submit_attempts s1.1 = (submit_attempts s.1 + a)%nat /\
    sleeps s1.1 = sleeps s.1 ++ backoff i (a - 1) /\
    max_submit_retries s1.2 = K /\
    submit_loop env cmd fid (Z.of_nat <$> seq i n) s =
      match last with
      | Ret f => (Ret (Some f), s1)
      | Raise e =>
          (Raise (if is_CivisAPIError e then JobSubmissionError e else e), s1)
      | Diverge => (Diverge, s1)
      end /\
    last <> Diverge /\
    (forall f, last = Ret f -> is_Some (_futures (executor s1.2) !! f)) /\
    (forall e, last = Raise e -> is_CivisAPIError e = true ->
       Z.of_nat a = Z.max 1 (K - Z.of_nat i)) /\
    (submission_fails env -> can_submit s.2 ->
     Z.of_nat a = Z.max 1 (K - Z.of_nat i) /\
     exists code, last = Raise (CivisAPIError code)).
Proof.
  cbn zeta. revert i s.
  induction n as [|n IH]; intros i s Hin HK Hn; [lia|].
  cbn [seq fmap list_fmap]. rewrite submit_loop_cons.
  pose proof (executor_submit_log cmd fid s) as Hlog. cbn zeta in Hlog.
  destruct (executor_submit env cmd fid s) as [r1 s1] eqn:Hsub.
  cbn [fst snd] in Hlog.
  destruct Hlog as (Hr1 & Hcount & Hsl & HK1 & Hcan & Hvalid & Hfails).
  destruct r1 as [f|e|]; [| |done].
  - (* the attempt succeeded: break *)
    exists 1%nat, (Ret f), s1. cbn [attempts_made].
    rewrite Hcount, Hsl, HK1. cbn. rewrite app_nil_r.
    split; [done|]. split; [lia|]. split; [lia|]. split; [lia|].
    do 4 (split; [done|]). split; [by intros f' [= <-]; eauto|].
    split; [done|].
    intros Hf Hc. by destruct (Hfails Hf Hc).
  - destruct (is_CivisAPIError e) eqn:Hapi; cycle 1.
    { (* another exception: it propagates *)
      exists 1%nat, (Raise e), s1. cbn [attempts_made].
      rewrite Hcount, Hsl, HK1, Hapi. cbn. rewrite app_nil_r.
      split; [done|]. split; [lia|]. split; [lia|]. split; [lia|].
      do 4 (split; [done|]). split; [done|].
      split; [intros e' [= <-]; congruence|].
      intros Hf Hc. destruct (Hfails Hf Hc) as [? [= ->]]. done. }
    rewrite HK1.
    destruct (Z.ltb_spec (max_submit_retries s.2 - Z.of_nat i - 1) 1) as [Hlast|Hmore].
    + (* no retry left *)
      exists 1%nat, (Raise e), s1. cbn [attempts_made].
      rewrite Hcount, Hsl, HK1, Hapi. cbn. rewrite app_nil_r.
      split; [done|]. split; [lia|]. split; [lia|]. split; [lia|].
      do 4 (split; [done|]). split; [done|].
      split; [intros; lia|].
      intros Hf Hc. destruct (Hfails Hf Hc) as [code [= ->]].
      split; [lia|eauto].
    + (* sleep, then the next iteration *)
      specialize (IH (S i) (s1.1 ++ [EvSleep (inject_Z (2 ^ Z.of_nat i))], s1.2)).
      cbn [fst snd] in IH. rewrite HK1 in IH.
      destruct IH as (a & last & s2 & Hmade & Ha1 & Hbound & Ha & Hsleeps & HK2
                      & Hloop & Hlast & Hvalid2 & Hexh & Hall);
        [lia..|].
      exists (S a), last, s2. split.
      { destruct a as [|a']; [lia|]. cbn [attempts_made]. eauto. }
      rewrite Hloop, Ha, Hsleeps, HK2.
      rewrite submit_attempts_app, sleeps_app, Hcount, Hsl.
      unfold submit_attempts at 2, sleeps at 2. cbn.
      split; [lia|]. split; [lia|]. split; [lia|]. split.
      { rewrite <- app_assoc. f_equal.
        destruct a as [|a]; [lia|]. cbn. by rewrite Nat.sub_0_r. }
      do 4 (split; [done|]). split.
      * intros e' He' Hapi'. specialize (Hexh e' He' Hapi'). lia.
      * intros Hf Hc. destruct (Hall Hf (Hcan Hc)) as [? ?].
        split; [lia|done].
Qed.

(** [apply_async], by the outcome of the upload and of the loop. *)
Lemma apply_async_run (cb : nat) (tr : Trace) (b : Backend) :
  apply_async env cb (tr, b) =
    match file_to_civis env tr with
    | Returns fid =>
        match submit_loop env (runner_command env (setup_cmd b) fid) fid
                (range (1 + max_submit_retries b)) (tr ++ [EvFileToCivis], b) with
        | (Ret (Some f), s1) => wrap_future env cb f s1
        | (Ret None, s1) => (Raise UnboundLocalError, s1)
        | (Raise e, s1) => (Raise e, s1)
        | (Diverge, s1) => (Diverge, s1)
        end
    | Raises e => (Raise e, (tr ++ [EvFileToCivis], b))
    end.
Proof.
  unfold apply_async, api. unfold mbind at 1 2 3 4, M_bind at 1 2 3 4. cbn.
  destruct (file_to_civis env tr) as [fid|e]; cbn; [|done].
  by destruct (submit_loop env _ fid _ _) as [[[f|]|e|] s1].
Qed.

End Submission.

(** C2 fails as stated: with [max_submit_retries = 0] a submission is
    attempted all the same, so more than [k] attempts are made. *)
Lemma apply_async_submits_without_retries :
  max_submit_retries (example_backend 0) = 0 /\
  submit_attempts (apply_async example_env 0 ([], example_backend 0)).2.1
    = 1%nat.
Proof. by vm_compute. Qed.

(** C2, amended: [apply_async] makes at least one submission attempt and at
    most [max 1 k] of them for [max_submit_retries = k].  Every attempt but
    the last raised a [CivisAPIError] and was followed by a sleep of [2^i]
    seconds, for the attempts [i = 0, 1, ...].  The last attempt ends the
    loop: when it returns a future, [apply_async] goes on to wrap it; when it
    raises a [CivisAPIError], the attempts have run out and [apply_async]
    raises [JobSubmissionError]; any other exception is not retried, and
    [apply_async] raises it as it is.  With [k = 3], two failed attempts and
    a third that works, it sleeps [2^0] and then [2^1] seconds and returns. *)
Theorem apply_async_submission (env : Env) (cb : nat) (tr : Trace)
    (b : Backend) (func_file_id : Z) :
  0 <= max_submit_retries b ->
  file_to_civis env tr = Returns func_file_id ->
  let k := max_submit_retries b in
  let cmd := runner_command env (setup_cmd b) func_file_id in
  (exists (attempts : nat) (last : Res nat) (s1 : St Backend),
     attempts_made env cmd func_file_id 0 attempts (tr ++ [EvFileToCivis], b)
       (last, s1) /\
     (1 <= attempts)%nat /\ Z.of_nat attempts <= Z.max 1 k /\
     submit_attempts s1.1 = (submit_attempts tr + attempts)%nat /\
     sleeps s1.1 = sleeps tr ++ backoff 0 (attempts - 1) /\
     match last with
     | Ret f =>
         is_Some (_futures (executor s1.2) !! f) /\
         apply_async env cb (tr, b) = wrap_future env cb f s1
     | Raise e =>
         apply_async env cb (tr, b) =
           (Raise (if is_CivisAPIError e then JobSubmissionError e else e), s1) /\
         (is_CivisAPIError e = true -> Z.of_nat attempts = Z.max 1 k)
     | Diverge => False
     end /\
     (submission_fails env -> can_submit b ->
      Z.of_nat attempts = Z.max 1 k /\
      exists code,
        last = Raise (CivisAPIError code) /\
        (apply_async env cb (tr, b)).1
          = Raise (JobSubmissionError (CivisAPIError code)))) /\
  (let rs := apply_async flaky_submit_env 0 ([], example_backend 3) in
   returned rs.1 = true /\
   submit_attempts rs.2.1 = 3%nat /\
   sleeps rs.2.1 = [inject_Z (2 ^ 0); inject_Z (2 ^ 1)]).
Proof.
  intros Hk Hfile. cbn zeta. split; cycle 1.
  { by vm_compute. }
  rewrite apply_async_run, Hfile.
  set (s0 := (tr ++ [EvFileToCivis], b)).
  pose proof (submit_loop_run env (runner_command env (setup_cmd b) func_file_id)
                func_file_id (Z.to_nat (max_submit_retries b) + 1) 0 s0) as Hloop.
  cbn zeta in Hloop. unfold range.
  replace (Z.to_nat (1 + max_submit_retries b))
    with (Z.to_nat (max_submit_retries b) + 1)%nat by lia.
  destruct Hloop as (a & last & s1 & Hmade & Ha1 & Hbound & Ha & Hsleeps & HK
                     & Hloop & Hlast & Hvalid & Hexh & Hall);
    [done|done|lia|].
  assert (submit_attempts s0.1 = submit_attempts tr) as Hs0.
  { subst s0. cbn. rewrite submit_attempts_app. unfold submit_attempts. cbn. lia. }
  assert (sleeps s0.1 = sleeps tr) as Hs0'.
  { subst s0. cbn. rewrite sleeps_app. unfold sleeps. cbn. by rewrite app_nil_r. }
  rewrite Hs0 in Ha. rewrite Hs0' in Hsleeps.
  change (Z.of_nat 0) with 0 in *. rewrite Z.sub_0_r in *.
  subst s0. cbn [fst snd] in *.
  exists a, last, s1. rewrite Hloop.
  do 5 (split; [done|]). split.
  - destruct last as [f|e|]; [|by eauto|done].
    split; [by apply Hvalid|done].
  - intros Hf Hc. destruct (Hall Hf Hc) as [? [code ->]].
    split; [done|]. by exists code.
Qed.

(** Three attempts that all fail on the service: [JobSubmissionError]. *)
Lemma apply_async_submission_example :
  0 <= max_submit_retries (example_backend 3) /\
  submission_fails failing_submit_env /\ can_submit (example_backend 3) /\
  exists code,
    (apply_async failing_submit_env 0 ([], example_backend 3)).1
      = Raise (JobSubmissionError (CivisAPIError code)).
Proof.
  assert (submission_fails failing_submit_env) as Hf
    by (intros tr name arguments cmd; by eexists).
  assert (can_submit (example_backend 3)) as Hc by (by split).
  split; [done|]. split; [exact Hf|]. split; [exact Hc|].
  destruct (proj1 (apply_async_submission failing_submit_env 0 []
                     (example_backend 3) 1 ltac:(done) eq_refl))
    as (a & last & s1 & _ & _ & _ & _ & _ & _ & Hall).
  destruct (Hall Hf Hc) as (_ & code & _ & Hraise). by exists code.
Defined.

(** * Further properties *)

(** ** The arguments of a created job *)

Lemma dict_get_setitem {V} (k k' : string) (v : V) (d : list (string * V)) :
  dict_get k (dict_setitem k' v d) =
    if String.eqb k k' then Some v else dict_get k d.
Proof.
  induction d as [|[k0 v0] d IH]; cbn; [done|].
  destruct (String.eqb_spec k' k0) as [->|Hne]; cbn.
  - by destruct (String.eqb_spec k k0).
  - rewrite IH. destruct (String.eqb_spec k k0) as [->|]; [|done].
    by destruct (String.eqb_spec k0 k').
Qed.

Lemma dict_get_None {V} (k : string) (d : list (string * V)) :
  k ∉ d.*1 -> dict_get k d = None.
Proof.
  induction d as [|[k0 v0] d IH]; cbn; [done|].
  rewrite not_elem_of_cons. intros [Hne Hk].
  destruct (String.eqb_spec k k0); [done|]. by apply IH.
Qed.

Lemma dict_setitem_keys {V} (k : string) (v : V) (d : list (string * V)) :
  (dict_setitem k v d).*1 = if decide (k ∈ d.*1) then d.*1 else d.*1 ++ [k].
Proof.
  induction d as [|[k0 v0] d IH]; cbn.
  - destruct (decide (k ∈ [])) as [H|]; [|done]. by apply elem_of_nil in H.
  - destruct (String.eqb_spec k k0) as [->|Hne]; cbn.
    + destruct (decide (k0 ∈ k0 :: d.*1)) as [|H]; [done|].
      destruct H. apply list_elem_of_here.
    + rewrite IH.
      destruct (decide (k ∈ d.*1)) as [Hin|Hin];
        destruct (decide (k ∈ k0 :: d.*1)) as [Hin'|Hin']; try done.
      * destruct Hin'. by apply list_elem_of_further.
      * apply elem_of_cons in Hin' as [?|?]; done.
Qed.

Lemma dict_update_cons {V} (d o : list (string * V)) (kv : string * V) :
  dict_update d (kv :: o) = dict_update (dict_setitem kv.1 kv.2 d) o.
Proof. done. Qed.

Lemma dict_get_update {V} (k : string) (d o : list (string * V)) :
  NoDup o.*1 ->
  dict_get k (dict_update d o) =
    match dict_get k o with
    | Some v => Some v
    | None => dict_get k d
    end.
Proof.
  revert d. induction o as [|[k0 v0] o IH]; intros d Hnd; [done|].
  cbn in Hnd. apply NoDup_cons in Hnd as [Hk0 Hnd].
  rewrite dict_update_cons, IH by done. cbn.
  rewrite dict_get_setitem.
  destruct (String.eqb_spec k k0) as [->|]; [|done].
  by rewrite dict_get_None.
Qed.

Lemma dict_update_keys_NoDup {V} (d o : list (string * V)) :
  NoDup d.*1 -> NoDup (dict_update d o).*1.
Proof.
  revert d. induction o as [|[k0 v0] o IH]; intros d Hnd; [done|].
  rewrite dict_update_cons. apply IH. rewrite dict_setitem_keys. cbn.
  destruct (decide (k0 ∈ d.*1)); [done|].
  apply NoDup_app. split; [done|]. split; [|apply NoDup_singleton].
  intros x Hx ->%list_elem_of_singleton. done.
Qed.

Lemma dict_setitem_not_nil {V} (k : string) (v : V) (d : list (string * V)) :
  dict_setitem k v d <> [].
Proof. destruct d as [|[k0 v0] d]; cbn; [done|]. by destruct (String.eqb k k0). Qed.

Lemma dict_update_nil {V} (d o : list (string * V)) :
  dict_update d o = [] <-> d = [] /\ o = [].
Proof.
  split; [|by intros [-> ->]].
  revert d. induction o as [|[k0 v0] o IH]; intros d; [done|].
  rewrite dict_update_cons. intros H. apply IH in H as [H _].
  by apply dict_setitem_not_nil in H.
Qed.

Lemma combined_args_default {V} (a b : option (list (string * V))) :
  default [] (combined_args a b) = dict_update (default [] a) (default [] b).
Proof. unfold combined_args. by destruct (dict_update _ _). Qed.

(** X1: the job that [_create_job] asks the service for, in both executor
    classes, carries the script name and, as its arguments, the arguments of
    the executor updated with those of the call: a key of the call has the
    value of the call, any other key the value the executor holds, and the
    keys stay distinct. *)
Theorem create_job_merges_arguments (arguments : option (list (string * Z)))
    (script_name cmd : string) (tr : Trace) :
  NoDup (default [] arguments).*1 ->
  (forall post_containers (ex : ShellExecutor.t),
     exists req,
       _ContainerShellExecutor_create_job post_containers ex tr script_name
         arguments cmd = post_containers tr req /\
       PostContainers.name req = script_name /\
       PostContainers.docker_command req = cmd /\
       (forall k,
          dict_get k (default [] (PostContainers.arguments req)) =
            match dict_get k (default [] arguments) with
            | Some v => Some v
            | None => dict_get k (default [] (ShellExecutor.arguments ex))
            end) /\
       (NoDup (default [] (ShellExecutor.arguments ex)).*1 ->
        NoDup (default [] (PostContainers.arguments req)).*1)) /\
  (forall post_custom (ex : CustomExecutor.t),
     exists req,
       CustomScriptExecutor_create_job post_custom ex tr script_name
         arguments cmd = post_custom tr req /\
       PostCustom.name req = script_name /\
       PostCustom.from_template_id req = CustomExecutor.from_template_id ex /\
       (forall k,
          dict_get k (default [] (PostCustom.arguments req)) =
            match dict_get k (default [] arguments) with
            | Some v => Some v
            | None => dict_get k (default [] (CustomExecutor.arguments ex))
            end) /\
       (NoDup (default [] (CustomExecutor.arguments ex)).*1 ->
        NoDup (default [] (PostCustom.arguments req)).*1)).
Proof.
  intros Hnd. split; intros post ex; eexists; (split; [reflexivity|]); cbn;
    rewrite combined_args_default.
  all: repeat split; try done.
  all: try (intros k; by apply dict_get_update).
  all: apply dict_update_keys_NoDup.
Qed.

(** The job of a template executor that holds two arguments, made for an
    upload. *)
Lemma create_job_merges_arguments_example :
  NoDup (default [] (Some [("JOBLIB_FUNC_FILE_ID"%string, 9)])).*1 /\
  exists req,
    CustomScriptExecutor_create_job (fun _ _ => Returns succeeded_run)
      example_custom_executor [] "script"
      (Some [("JOBLIB_FUNC_FILE_ID"%string, 9)]) ""
      = Returns succeeded_run /\
    dict_get "JOBLIB_FUNC_FILE_ID" (default [] (PostCustom.arguments req))
      = Some 9 /\
    dict_get "SEED" (default [] (PostCustom.arguments req)) = Some 1.
Proof.
  assert (NoDup (default [] (Some [("JOBLIB_FUNC_FILE_ID"%string, 9)])).*1)
    as Hnd by (cbn; apply NoDup_singleton).
  split; [exact Hnd|].
  destruct (proj2 (create_job_merges_arguments
                     (Some [("JOBLIB_FUNC_FILE_ID"%string, 9)]) "script" "" [] Hnd)
              (fun _ _ => Returns succeeded_run) example_custom_executor)
    as (req & Hreq & _ & _ & Hget & _).
  exists req. split; [done|]. by rewrite !Hget.
Defined.

(** X2: both [_create_job] methods send [None] for the arguments exactly when
    neither the executor nor the call gives any, and never an empty
    dictionary. *)
Theorem create_job_sends_None_for_no_arguments
    (arguments : option (list (string * Z))) (script_name cmd : string)
    (tr : Trace) :
  (forall post_containers (ex : ShellExecutor.t),
     exists req,
       _ContainerShellExecutor_create_job post_containers ex tr script_name
         arguments cmd = post_containers tr req /\
       (PostContainers.arguments req = None <->
        default [] (ShellExecutor.arguments ex) = [] /\
        default [] arguments = []) /\
       PostContainers.arguments req <> Some []) /\
  (forall post_custom (ex : CustomExecutor.t),
     exists req,
       CustomScriptExecutor_create_job post_custom ex tr script_name
         arguments cmd = post_custom tr req /\
       (PostCustom.arguments req = None <->
        default [] (CustomExecutor.arguments ex) = [] /\
        default [] arguments = []) /\
       PostCustom.arguments req <> Some []).
Proof.
  assert (forall a b : option (list (string * Z)),
            (combined_args a b = None <-> default [] a = [] /\ default [] b = []) /\
            combined_args a b <> Some []) as H.
  { intros a b. unfold combined_args.
    destruct (dict_update (default [] a) (default [] b)) eqn:E.
    - apply dict_update_nil in E. by split.
    - split; [|done]. split; [done|]. intros H%dict_update_nil. congruence. }
  split; intros post ex; eexists; (split; [reflexivity|]); apply H.
Qed.

(** ** Submitting to an executor *)

Section Submit.

Variable env : Env.

(** [ContainerFuture.__init__] as [_make_future] calls it. *)
Lemma ContainerFuture_init_unpolled (job run n : Z) (tr : Trace) :
  ContainerFuture_init env job run n false (tr, tt) =
    let now := time_time env tr in
    let tr1 := tr ++ [EvTime] in
    if has_channels env then
      match channels_list env tr1 with
      | Returns channels =>
          (Ret (new_future job run n now
                  (Some {| subscribed_channels := channels |})),
           (tr1 ++ [EvChannelsList; EvSubscribe channels], tt))
      | Raises x => (Raise x, (tr1 ++ [EvChannelsList], tt))
      end
    else (Ret (new_future job run n now None), (tr1, tt)).
Proof.
  unfold ContainerFuture_init, time, api, emit, modify. run.
  destruct (has_channels env); run; [|done].
  destruct (channels_list env _); run; [|done].
  by rewrite <- app_assoc.
Qed.

Lemma make_future_run (job run : Z) (tr : Trace) (e : Executor) :
  _make_future env job run (tr, e) =
    match ContainerFuture_init env job run (max_n_retries e) false (tr, tt) with
    | (Ret t, (tr', _)) =>
        (Ret (length (_futures e)), (tr', set_futures (_futures e ++ [t]) e))
    | (Raise x, (tr', _)) => (Raise x, (tr', e))
    | (Diverge, (tr', _)) => (Diverge, (tr', e))
    end.
Proof.
  unfold _make_future, on_field, zoom, self, self_set, gets, modify.
  unfold mbind, M_bind, mret, M_ret. cbn -[ContainerFuture_init].
  by destruct (ContainerFuture_init env _ _ _ _ _) as [[t|x|] [tr' []]].
Qed.

(** [submit], step by step. *)
Lemma submit_run (fn : option string) (arguments : option (list (string * Z)))
    (tr : Trace) (e : Executor) :
  submit env fn arguments (tr, e) =
    if _shutdown_thread e then (Raise RuntimeError, (tr, e))
    else
      let cmd := default ""%string fn in
      let name := next_script_name e in
      let tr1 := tr ++ [EvCreateJob name cmd] in
      match create_job env tr name arguments cmd with
      | Raises x => (Raise x, (tr1, name_taken e))
      | Returns job =>
          match post_runs env tr1 (r_id job) with
          | Raises x => (Raise x, (tr1 ++ [EvPostRuns (r_id job)], name_taken e))
          | Returns run =>
              _make_future env (r_id job) (r_id run)
                (tr1 ++ [EvPostRuns (r_id job)], name_taken e)
          end
      end.
Proof.
  destruct e as [k n name inc c down fs].
  unfold submit, next_script_name, name_taken, raise, self, self_set, gets,
    modify, api.
  unfold mbind at 1, M_bind at 1. cbn [fst snd _shutdown_thread].
  destruct down; [done|].
  destruct fn as [cmd|]; destruct inc; cbn.
  all: unfold mbind, M_bind; cbn.
  all: destruct (create_job env _ _ _ _) as [job|x]; cbn; [|done].
  all: by destruct (post_runs env _ _) as [run|x]; cbn.
Qed.

End Submit.

Lemma for_noop {S A} (l : list A) (body : A -> M S unit) (s : S) :
  (forall x, x ∈ l -> body x s = (Ret tt, s)) -> for_ l body s = (Ret tt, s).
Proof.
  induction l as [|x l IH]; intros H; cbn; [done|].
  unfold mbind, M_bind. rewrite H by apply list_elem_of_here.
  apply IH. intros y Hy. apply H. by apply list_elem_of_further.
Qed.

(** Waiting for a registry of futures that are all done comes back at once. *)
Lemma futures_wait_done (env : Env) (tr : Trace) (e : Executor) :
  Forall (fun t => done t = true) (_futures e) ->
  futures_wait env (tr, e) = (Ret tt, (tr, e)).
Proof.
  intros Hd. unfold futures_wait, self, gets. unfold mbind, M_bind. cbn.
  apply for_noop. intros i Hi%elem_of_seq.
  destruct (lookup_lt_is_Some_2 (_futures e) i) as [t Ht]; [lia|].
  rewrite (on_future_run _ _ _ _ _ Ht).
  rewrite wait_done
    by (rewrite Forall_forall in Hd; eapply Hd, list_elem_of_lookup_2, Ht).
  by rewrite list_insert_id, set_futures_self.
Qed.

(** X3: [shutdown] sets the flag and asks the service nothing: it comes back
    at once when it is not told to wait, or when every future is done.  From
    then on every [submit] raises [RuntimeError], whatever its arguments: no
    job is created, no run is started and the executor stays as it is. *)
Theorem submit_refused_after_shutdown (env : Env) (wait : bool) (tr : Trace)
    (e : Executor) :
  (wait = true -> Forall (fun t => done t = true) (_futures e)) ->
  shutdown env wait (tr, e) = (Ret tt, (tr, set_shutdown_thread true e)) /\
  _futures (set_shutdown_thread true e) = _futures e /\
  forall fn arguments tr',
    submit env fn arguments (tr', set_shutdown_thread true e)
      = (Raise RuntimeError, (tr', set_shutdown_thread true e)).
Proof.
  intros Hw. split; [|split; [done|]].
  - unfold shutdown, self_set, modify. unfold mbind, M_bind. cbn.
    destruct wait; [|done].
    by rewrite futures_wait_done by (by apply Hw).
  - intros fn arguments tr'. by rewrite submit_run.
Qed.

(** An executor whose two futures succeeded, shut down with [wait]. *)
Lemma submit_refused_after_shutdown_example :
  (true = true ->
   Forall (fun t => done t = true) (_futures (example_executor finished_registry))) /\
  (shutdown example_env true ([], example_executor finished_registry)).1 = Ret tt /\
  (submit example_env (Some "run.sh"%string) None
     (shutdown example_env true ([], example_executor finished_registry)).2).1
    = Raise RuntimeError.
Proof.
  assert (Forall (fun t => done t = true)
            (_futures (example_executor finished_registry))) as Hd
    by (by repeat constructor).
  split; [done|].
  destruct (submit_refused_after_shutdown example_env true []
              (example_executor finished_registry)) as (Hdown & _ & Hsubmit);
    [done|].
  rewrite Hdown. split; [done|]. cbn [snd]. by rewrite Hsubmit.
Defined.

(** A [submit] that the service accepts, in full. *)
Lemma submit_accepted (env : Env) (fn : option string)
    (arguments : option (list (string * Z))) (tr : Trace) (e : Executor)
    (job : Response) :
  service_up env -> _shutdown_thread e = false ->
  let cmd := default ""%string fn in
  let name := next_script_name e in
  create_job env tr name arguments cmd = Returns job ->
  exists run channels,
    post_runs env (tr ++ [EvCreateJob name cmd]) (r_id job) = Returns run /\
    submit env fn arguments (tr, e) =
      (Ret (length (_futures e)),
       (tr ++ [EvCreateJob name cmd; EvPostRuns (r_id job)] ++
          creation_events env channels,
        set_futures
          (_futures e ++
           [new_future (r_id job) (r_id run) (max_n_retries e)
              (time_time env (tr ++ [EvCreateJob name cmd; EvPostRuns (r_id job)]))
              (creation_pubnub env channels)])
          (name_taken e))).
Proof.
  intros [Hruns Hch] Hdown cmd name Hjob.
  destruct (Hruns (tr ++ [EvCreateJob name cmd]) (r_id job)) as [run Hrun].
  rewrite submit_run, Hdown. cbn zeta. fold cmd name. rewrite Hjob, Hrun.
  rewrite make_future_run, ContainerFuture_init_unpolled. cbn zeta.
  assert (max_n_retries (name_taken e) = max_n_retries e) as Hn
    by (unfold name_taken; by destruct (inc_script_names e)).
  assert (_futures (name_taken e) = _futures e) as Hfs
    by (unfold name_taken; by destruct (inc_script_names e)).
  unfold creation_events, creation_pubnub.
  destruct (has_channels env).
  - match goal with
    | |- context [channels_list env ?tr1] => destruct (Hch tr1) as [ch Hc']
    end.
    rewrite Hc'. exists run, ch. split; [done|]. rewrite Hfs, Hn.
    by rewrite <- !app_assoc.
  - exists run, []. split; [done|]. rewrite Hfs, Hn.
    by rewrite <- !app_assoc.
Qed.

Lemma creation_events_log (env : Env) (channels : list string) :
  created_jobs (creation_events env channels) = [] /\
  new_runs (creation_events env channels) = [] /\
  cancel_requests (creation_events env channels) = [] /\
  submit_attempts (creation_events env channels) = 0%nat /\
  sleeps (creation_events env channels) = [] /\
  hook_calls (creation_events env channels) = [] /\
  status_requests (creation_events env channels) = [].
Proof. unfold creation_events. by destruct (has_channels env). Qed.

(** X4: a [submit] that the service accepts creates one job under the next
    script name, starts one run of it, and adds one future to the registry,
    after those that are there: the future tracks that job and that run,
    carries the retry budget of the executor, is not done, has no callback
    yet, and its polling thread is not started.  [submit] returns that
    future. *)
Theorem submit_registers_the_run (env : Env) (fn : option string)
    (arguments : option (list (string * Z))) (tr : Trace) (e : Executor)
    (job : Response) :
  service_up env -> _shutdown_thread e = false ->
  let cmd := default ""%string fn in
  let name := next_script_name e in
  create_job env tr name arguments cmd = Returns job ->
  exists run tr' e' t,
    post_runs env (tr ++ [EvCreateJob name cmd]) (r_id job) = Returns run /\
    submit env fn arguments (tr, e) = (Ret (length (_futures e)), (tr', e')) /\
    _futures e' = _futures e ++ [t] /\
    poller_args t = [r_id job; r_id run] /\
    _max_n_retries t = max_n_retries e /\
    done t = false /\ _exception t = None /\ _done_callbacks t = [] /\
    _polling_thread t = false /\ is_Some (_last_polled t) /\
    created_jobs tr' = created_jobs tr ++ [(name, cmd)] /\
    new_runs tr' = new_runs tr ++ [r_id job] /\
    cancel_requests tr' = cancel_requests tr /\
    _script_name_counter e' =
      _script_name_counter e + (if inc_script_names e then 1 else 0).
Proof.
  intros Hup Hdown cmd name Hjob.
  destruct (submit_accepted env fn arguments tr e job Hup Hdown Hjob)
    as (run & channels & Hrun & Hsubmit).
  do 4 eexists. split; [exact Hrun|]. split; [exact Hsubmit|].
  destruct (creation_events_log env channels) as (Hj & Hr & Hc & _).
  rewrite !created_jobs_app, !new_runs_app, !cancel_requests_app, Hj, Hr, Hc.
  cbn. rewrite !app_nil_r.
  repeat split; eauto.
  unfold name_taken. destruct (inc_script_names e); cbn; lia.
Qed.

(** The first submission to an executor that numbers its scripts. *)
Lemma submit_registers_the_run_example :
  service_up example_env /\
  _shutdown_thread numbering_executor = false /\
  exists tr' e' t,
    submit example_env (Some "run.sh"%string) None ([], numbering_executor)
      = (Ret 0%nat, (tr', e')) /\
    _futures e' = [t] /\ poller_args t = [7; 100] /\
    created_jobs tr' = [("script 0"%string, "run.sh"%string)].
Proof.
  assert (service_up example_env) as Hup.
  { split; [intros tr job|intros tr]; by eexists. }
  split; [exact Hup|]. split; [done|].
  destruct (submit_registers_the_run example_env (Some "run.sh"%string) None []
              numbering_executor {| r_id := 7; r_state := Queued |} Hup eq_refl eq_refl)
    as (run & tr' & e' & t & Hrun & Hsubmit & Hfs & Hargs & _ & _ & _ & _ & _ & _
        & Hjobs & _).
  injection Hrun as <-.
  exists tr', e', t. split; [exact Hsubmit|]. split; [exact Hfs|].
  split; [exact Hargs|exact Hjobs].
Defined.

(** What [submit] leaves of the executor, and the job it logs, whatever the
    service answers. *)
Lemma submit_names (env : Env) (fn : option string)
    (arguments : option (list (string * Z))) (tr : Trace) (e : Executor) :
  _shutdown_thread e = false ->
  let rs := submit env fn arguments (tr, e) in
  rs.1 <> Diverge /\
  created_jobs rs.2.1 =
    created_jobs tr ++ [(next_script_name e, default ""%string fn)] /\
  (exists fs, rs.2.2 = set_futures fs (name_taken e)) /\
  ((exists x, rs.1 = Raise x) -> rs.2.2 = name_taken e).
Proof.
  intros Hdown. cbn zeta. rewrite submit_run, Hdown. cbn zeta.
  assert (forall e', e' = set_futures (_futures e') e') as Hself
    by (intros e'; by rewrite set_futures_self).
  destruct (create_job env _ _ _ _) as [job|x]; cbn.
  2: { rewrite created_jobs_app. repeat split; eauto. }
  destruct (post_runs env _ _) as [run|x]; cbn.
  2: { rewrite !created_jobs_app. cbn. rewrite app_nil_r. repeat split; eauto. }
  rewrite make_future_run, ContainerFuture_init_unpolled. cbn zeta.
  destruct (has_channels env); [destruct (channels_list env _)|]; cbn.
  all: rewrite !created_jobs_app; cbn; rewrite ?app_nil_r.
  all: repeat split; eauto; try done.
  all: by intros [x [=]].
Qed.

(** X5: a [submit] that raises adds no future to the registry.  When the
    creation of the job fails, its exception is raised and no run is started;
    when the job is created and its run cannot be started, the exception of
    that request is raised, with the job created and left without a future.
    In both cases a numbered script name is used up. *)
Theorem submit_failure_registers_nothing (env : Env) (fn : option string)
    (arguments : option (list (string * Z))) (tr : Trace) (e : Executor) :
  let rs := submit env fn arguments (tr, e) in
  let cmd := default ""%string fn in
  let name := next_script_name e in
  (forall x, rs.1 = Raise x -> _futures rs.2.2 = _futures e) /\
  (_shutdown_thread e = false ->
   forall x, create_job env tr name arguments cmd = Raises x ->
     rs = (Raise x, (tr ++ [EvCreateJob name cmd], name_taken e)) /\
     new_runs rs.2.1 = new_runs tr) /\
  (_shutdown_thread e = false ->
   forall job x, create_job env tr name arguments cmd = Returns job ->
     post_runs env (tr ++ [EvCreateJob name cmd]) (r_id job) = Raises x ->
     rs.1 = Raise x /\ rs.2.2 = name_taken e /\
     created_jobs rs.2.1 = created_jobs tr ++ [(name, cmd)]).
Proof.
  cbn zeta. split; [|split].
  - intros x Hx. destruct (_shutdown_thread e) eqn:Hdown.
    + rewrite submit_run, Hdown in Hx |- *. done.
    + destruct (submit_names env fn arguments tr e Hdown) as (_ & _ & _ & H).
      rewrite H by eauto. unfold name_taken. by destruct (inc_script_names e).
  - intros Hdown x Hjob. rewrite submit_run, Hdown. cbn zeta. rewrite Hjob.
    split; [done|]. cbn. rewrite new_runs_app. cbn. by rewrite app_nil_r.
  - intros Hdown job x Hjob Hrun. rewrite submit_run, Hdown. cbn zeta.
    rewrite Hjob, Hrun. cbn. rewrite !created_jobs_app. cbn.
    by rewrite app_nil_r.
Qed.

Lemma submit_each_cons (env : Env) (cmd : string) (cmds : list string)
    (s : St Executor) :
  submit_each env (cmd :: cmds) s =
    match submit env (Some cmd) None s with
    | (Diverge, s1) => (Diverge, s1)
    | (_, s1) => submit_each env cmds s1
    end.
Proof.
  unfold submit_each. cbn [for_]. unfold try_except. unfold mbind, M_bind.
  by destruct (submit env (Some cmd) None s) as [[f|x|] s1].
Qed.

(** The name of the [i]-th submission from now, and the executor after
    [n] submissions. *)
Lemma submit_each_run (env : Env) (cmds : list string) (tr : Trace)
    (e : Executor) :
  _shutdown_thread e = false ->
  let rs := submit_each env cmds (tr, e) in
  let name_at (i : nat) :=
    if inc_script_names e
    then (script_name e ++ " " ++ pretty (_script_name_counter e + Z.of_nat i))%string
    else script_name e in
  rs.1 = Ret tt /\
  (exists fs,
     rs.2.2 =
       set_futures fs
         (if inc_script_names e
          then set_script_name_counter
                 (_script_name_counter e + Z.of_nat (length cmds)) e
          else e)) /\
  created_jobs rs.2.1 =
    created_jobs tr ++ zip (name_at <$> seq 0 (length cmds)) cmds.
Proof.
  cbn zeta. revert tr e. induction cmds as [|cmd cmds IH]; intros tr e Hdown.
  - cbn. rewrite app_nil_r. split; [done|]. split; [|done].
    exists (_futures e). destruct e as [k n name [] c down fs0]; cbn; [|done].
    by rewrite Z.add_0_r.
  - rewrite submit_each_cons.
    pose proof (submit_names env (Some cmd) None tr e Hdown) as Hs.
    cbn zeta in Hs.
    destruct (submit env (Some cmd) None (tr, e)) as [r [tr1 e1]].
    cbn [fst snd] in Hs. destruct Hs as (Hr & Hjobs & [fs He1] & _).
    assert (_shutdown_thread e1 = false) as Hdown1.
    { rewrite He1. unfold name_taken. by destruct (inc_script_names e). }
    destruct (IH tr1 e1 Hdown1) as (Hret & [fs' He2] & Hjobs2).
    assert (inc_script_names e1 = inc_script_names e /\
            script_name e1 = script_name e /\
            _script_name_counter e1 =
              _script_name_counter e + (if inc_script_names e then 1 else 0))
      as (Hinc & Hname & Hc).
    { rewrite He1. unfold name_taken.
      destruct (inc_script_names e) eqn:E; cbn; rewrite ?E; repeat split; first [done|lia]. }
    assert ((submit_each env cmds (tr1, e1)).1 = Ret tt /\
            (exists fs2,
               (submit_each env cmds (tr1, e1)).2.2 =
                 set_futures fs2
                   (if inc_script_names e
                    then set_script_name_counter
                           (_script_name_counter e + Z.of_nat (length (cmd :: cmds))) e
                    else e)) /\
            created_jobs (submit_each env cmds (tr1, e1)).2.1 =
              created_jobs tr ++
              zip ((fun i =>
                      if inc_script_names e
                      then (script_name e ++ " " ++
                            pretty (_script_name_counter e + Z.of_nat i))%string
                      else script_name e) <$> seq 0 (length (cmd :: cmds)))
                (cmd :: cmds)) as Hgoal.
    { split; [done|]. split.
      - exists fs'. rewrite He2, Hinc, Hc, He1. unfold name_taken.
        destruct e as [k n name [] c down fs0];
          unfold set_futures, set_script_name_counter; cbn; [|done].
        f_equal. lia.
      - rewrite Hjobs2, Hjobs, <- app_assoc, Hinc, Hname.
        cbn [length seq fmap list_fmap zip zip_with app].
        f_equal. f_equal.
        { unfold next_script_name.
          destruct (inc_script_names e); [|done]. by rewrite Z.add_0_r. }
        f_equal. rewrite <- fmap_S_seq, <- list_fmap_compose.
        apply list_fmap_ext. intros i n _. cbn. rewrite Hc.
        destruct (inc_script_names e); [|done].
        do 3 f_equal. lia. }
    destruct r as [f|x|]; [| |done]; exact Hgoal.
Qed.

Lemma numbered_name_inj (name : string) (c : Z) :
  Inj (=) (=) (fun i : nat => (name ++ " " ++ pretty (c + Z.of_nat i))%string).
Proof.
  intros i j H. apply String.app_inj in H. apply (String.app_inj " ") in H.
  apply pretty_Z_inj in H. lia.
Qed.

(** X6: an executor that numbers its scripts gives every job it asks the
    service for, whether the submission goes through or raises, the script
    name followed by the next number, so that no two submissions use the
    same name; an executor that does not number them uses the one script
    name for all. *)
Theorem script_names_are_numbered (env : Env) (cmds : list string) (tr : Trace)
    (e : Executor) :
  _shutdown_thread e = false ->
  let rs := submit_each env cmds (tr, e) in
  let numbered :=
    (fun i : nat =>
       (script_name e ++ " " ++ pretty (_script_name_counter e + Z.of_nat i))%string)
      <$> seq 0 (length cmds) in
  rs.1 = Ret tt /\
  (inc_script_names e = true ->
   created_jobs rs.2.1 = created_jobs tr ++ zip numbered cmds /\
   NoDup numbered /\
   _script_name_counter rs.2.2 =
     _script_name_counter e + Z.of_nat (length cmds)) /\
  (inc_script_names e = false ->
   created_jobs rs.2.1 = created_jobs tr ++ ((fun cmd => (script_name e, cmd)) <$> cmds) /\
   _script_name_counter rs.2.2 = _script_name_counter e).
Proof.
  intros Hdown. cbn zeta.
  destruct (submit_each_run env cmds tr e Hdown) as (Hret & [fs He] & Hjobs).
  split; [done|]. split; intros Hinc; rewrite Hinc in *.
  - split; [done|]. split.
    + apply (@NoDup_fmap_2 _ _ _ (numbered_name_inj _ _)), NoDup_seq.
    + by rewrite He.
  - split; [|by rewrite He]. rewrite Hjobs. f_equal.
    clear. generalize 0%nat. induction cmds as [|cmd cmds IH]; intros i; [done|].
    cbn. f_equal. apply IH.
Qed.

(** Three submissions to an executor that numbers its scripts, on a service
    that refuses every job. *)
Lemma script_names_are_numbered_example :
  _shutdown_thread numbering_executor = false /\
  created_jobs
    (submit_each failing_submit_env ["a"; "b"; "c"]%string
       ([], numbering_executor)).2.1
    = [("script 0", "a"); ("script 1", "b"); ("script 2", "c")]%string.
Proof.
  split; [done|].
  destruct (script_names_are_numbered failing_submit_env ["a"; "b"; "c"]%string
              [] numbering_executor eq_refl) as (_ & Hnum & _).
  destruct (Hnum eq_refl) as (Hjobs & _). exact Hjobs.
Defined.

(** ** Aborting, and submitting through the backend *)

Section Backend.

Variable env : Env.

Lemma on_field_executor_run {A} (m : M (St Executor) A) (tr : Trace) (b : Backend) :
  on_field executor set_executor m (tr, b) =
    (let '(r, (tr', e')) := m (tr, executor b) in (r, (tr', set_executor e' b))).
Proof. unfold on_field, zoom. cbn. by destruct (m _) as [r [tr' e']]. Qed.

(** One call of [self.executor.submit] from [apply_async]. *)
Lemma executor_submit_run (cmd : string) (fid : Z) (tr : Trace) (b : Backend) :
  executor_submit env cmd fid (tr, b) =
    if using_template b then
      match kind (executor b) with
      | CustomScript _ =>
          on_field executor set_executor
            (submit env None (Some [("JOBLIB_FUNC_FILE_ID"%string, fid)]))
            (tr ++ [EvSubmit], b)
      | ContainerShell => (Raise TypeError, (tr ++ [EvSubmit], b))
      end
    else
      on_field executor set_executor (submit env (Some cmd) None)
        (tr ++ [EvSubmit], b).
Proof.
  unfold executor_submit, emit, modify, self, gets, raise.
  unfold mbind, M_bind. cbn -[submit on_field].
  destruct (using_template b); [|done]. by destruct (kind (executor b)).
Qed.

Lemma range_succ (k : Z) :
  0 <= k -> range (1 + k) = 0 :: (Z.of_nat <$> seq 1 (Z.to_nat k)).
Proof.
  intros Hk. unfold range.
  replace (Z.to_nat (1 + k)) with (S (Z.to_nat k)) by lia. done.
Qed.

End Backend.

(** X7: on a service that answers every cancel request with a terminal
    state, when the status of each future can be told, [abort_everything]
    asks the service to cancel exactly the futures of the executor that are
    not done, in the order of the registry, leaves those that are done as
    they were and the others done, and starts no run.  With [ensure_ready]
    false it also shuts the executor down, and otherwise it leaves the
    shutdown flag as it is. *)
Theorem abort_everything_cancels_pending (env : Env) (ensure_ready : bool)
    (tr : Trace) (b : Backend) :
  service_stops_runs env -> Forall has_job (_futures (executor b)) ->
  Forall (pollable env) (_futures (executor b)) ->
  exists tr' b',
    abort_everything env ensure_ready (tr, b) = (Ret tt, (tr', b')) /\
    cancel_requests tr' =
      cancel_requests tr ++ omap pending_job (_futures (executor b)) /\
    new_runs tr' = new_runs tr /\
    length (_futures (executor b')) = length (_futures (executor b)) /\
    (forall i t, _futures (executor b) !! i = Some t -> done t = true ->
       _futures (executor b') !! i = Some t) /\
    Forall (fun t => done t = true) (_futures (executor b')) /\
    _shutdown_thread (executor b') =
      negb ensure_ready || _shutdown_thread (executor b) /\
    max_submit_retries b' = max_submit_retries b /\
    using_template b' = using_template b /\
    kind (executor b') = kind (executor b).
Proof.
  intros Hstops Hjobs Hpoll.
  destruct (cancel_all_from env Hstops (length (_futures (executor b))) 0 tr
              (executor b)) as (tr' & fs' & Hrun & Hlen & Hreq & Hruns & Hkeep & Hdone);
    [done..|].
  assert (cancel_all env (tr, executor b)
          = (Ret tt, (tr', set_futures fs' (executor b)))) as Hall.
  { unfold cancel_all. unfold mbind, M_bind. cbn. exact Hrun. }
  assert (Forall (fun t => done t = true) fs') as Hall_done.
  { apply Forall_lookup_2. intros i t' Hi.
    destruct (lookup_lt_is_Some_2 (_futures (executor b)) i) as [t Ht].
    { rewrite <- Hlen. by eapply lookup_lt_Some. }
    destruct (done t) eqn:Hd.
    - rewrite (Hkeep i t Ht (or_intror Hd)) in Hi. congruence.
    - destruct (Hdone i t Ht ltac:(lia) Hd) as (t0 & Ht0 & Hd0 & _). congruence. }
  unfold abort_everything. unfold mbind, M_bind.
  rewrite on_field_executor_run, Hall.
  destruct ensure_ready; cbn [negb].
  - do 2 eexists. split; [reflexivity|]. cbn. repeat split; eauto.
  - rewrite on_field_executor_run. do 2 eexists. split; [reflexivity|]. cbn.
    repeat split; eauto.
Qed.

(** The backend of the example with its seven futures, aborted for good. *)
Lemma abort_everything_cancels_pending_example :
  service_stops_runs example_env /\
  exists tr' b',
    abort_everything example_env false
      ([], set_executor (example_executor example_registry) (example_backend 0))
      = (Ret tt, (tr', b')) /\
    cancel_requests tr' = [5; 5; 5; 5; 5] /\
    _shutdown_thread (executor b') = true.
Proof.
  assert (service_stops_runs example_env) as Hc by (intros tr job; by eexists).
  split; [done|].
  destruct (abort_everything_cancels_pending example_env false []
              (set_executor (example_executor example_registry) (example_backend 0))
              Hc)
    as (tr' & b' & Hrun & Hreq & _ & _ & _ & _ & Hdown & _).
  { repeat constructor; by exists 5, [6]. }
  { repeat constructor; by left. }
  exists tr', b'. split; [exact Hrun|]. split; [exact Hreq|exact Hdown].
Defined.

(** X8: once the executor is shut down, [apply_async] still uploads the
    function and then raises the [RuntimeError] of the first submission: it
    does not retry, does not sleep, creates no job and leaves the backend as
    it is, whatever [max_submit_retries] allows. *)
Theorem apply_async_after_shutdown (env : Env) (cb : nat) (tr : Trace)
    (b : Backend) (func_file_id : Z) :
  0 <= max_submit_retries b ->
  _shutdown_thread (executor b) = true ->
  (using_template b = true -> exists i, kind (executor b) = CustomScript i) ->
  file_to_civis env tr = Returns func_file_id ->
  apply_async env cb (tr, b)
    = (Raise RuntimeError, (tr ++ [EvFileToCivis; EvSubmit], b)) /\
  submit_attempts (tr ++ [EvFileToCivis; EvSubmit]) = S (submit_attempts tr) /\
  sleeps (tr ++ [EvFileToCivis; EvSubmit]) = sleeps tr /\
  created_jobs (tr ++ [EvFileToCivis; EvSubmit]) = created_jobs tr.
Proof.
  intros Hk Hdown Hkind Hfile. split.
  - rewrite apply_async_run, Hfile, range_succ by done.
    rewrite submit_loop_cons, executor_submit_run.
    assert (forall fn arguments,
              on_field executor set_executor (submit env fn arguments)
                ((tr ++ [EvFileToCivis]) ++ [EvSubmit], b)
              = (Raise RuntimeError, (tr ++ [EvFileToCivis; EvSubmit], b)))
      as Hsubmit.
    { intros fn arguments. rewrite on_field_executor_run, submit_run, Hdown.
      rewrite <- app_assoc. by destruct b. }
    destruct (using_template b).
    + destruct (Hkind eq_refl) as [i ->]. by rewrite Hsubmit.
    + by rewrite Hsubmit.
  - rewrite submit_attempts_app, sleeps_app, created_jobs_app.
    unfold submit_attempts, sleeps. cbn. rewrite !app_nil_r.
    split; [lia|done].
Qed.

(** A backend that allows three attempts, after its executor was shut down. *)
Lemma apply_async_after_shutdown_example :
  0 <= max_submit_retries shut_down_backend /\
  _shutdown_thread (executor shut_down_backend) = true /\
  apply_async flaky_submit_env 0 ([], shut_down_backend)
    = (Raise RuntimeError, ([EvFileToCivis; EvSubmit], shut_down_backend)).
Proof.
  split; [done|]. split; [done|].
  refine (proj1 (apply_async_after_shutdown flaky_submit_env 0 []
                   shut_down_backend 1 _ eq_refl _ eq_refl)); [done|].
  intros [=].
Defined.

(** ** Wrapping a future *)

#[local] Arguments call_callback : simpl never.

Lemma wrapped_fields (cb : nat) (t : Tracker) :
  let t' := wrapped cb t in
  poller_args t' = poller_args t /\ _max_n_retries t' = _max_n_retries t /\
  _done_callbacks t' = _done_callbacks t ++ [FetchResult cb] /\
  remote_func_output t' = PNone /\ result_fetched t' = false /\
  done t' = done t /\ _exception t' = _exception t /\ _result t' = _result t /\
  must_poll t' = must_poll t.
Proof. done. Qed.

Section Wrap.

Variable env : Env.


(** [_CivisBackendResult.__init__] on a future that is not done. *)
Lemma CivisBackendResult_init_pending (cb : nat) (tr : Trace) (t : Tracker) :
  done t = false ->
  _CivisBackendResult_init env cb (tr, t) =
    (Ret {| _future := wrapped cb t; _callback := cb; result := PNone |},
     (tr, wrapped cb t)).
Proof.
  intros Hd.
  unfold _CivisBackendResult_init, add_done_callback, wrapped, self, self_set,
    gets, modify.
  unfold mbind, M_bind, mret, M_ret. cbn.
  assert (done (set_result_fetched false (set_remote_func_output PNone t)) = done t)
    as -> by done.
  by rewrite Hd.
Qed.


(** The end of [apply_async] on the future at position [f], when the future
    is not done once its polling is started. *)
Lemma wrap_future_pending (cb f : nat) (tr tr0 : Trace) (b : Backend)
    (t t0 : Tracker) :
  _futures (executor b) !! f = Some t ->
  (if max_n_retries (executor b) =? 0 then (tr0, t0) = (tr, t)
   else PollableResult_done env (tr, t) = (Ret false, (tr0, t0))) ->
  done t0 = false ->
  wrap_future env cb f (tr, b) =
    (Ret {| _future := wrapped cb t0; _callback := cb; result := PNone |},
     (tr0,
      set_executor
        (set_futures (<[f:=wrapped cb t0]> (_futures (executor b))) (executor b))
        b)).
Proof.
  intros Ht Hpoll Hd0. unfold wrap_future. unfold mbind at 1, M_bind at 1.
  unfold self at 1, gets at 1. cbn [fst snd].
  destruct (max_n_retries (executor b) =? 0) eqn:Hn; cbn [negb].
  - injection Hpoll as -> ->.
    unfold mbind at 1, M_bind at 1. cbn [mret M_ret].
    rewrite on_field_executor_run, (on_future_run _ _ _ _ _ Ht).
    by rewrite (CivisBackendResult_init_pending cb tr t Hd0).
  - unfold mbind at 1, M_bind at 1. unfold mbind at 1, M_bind at 1.
    rewrite on_field_executor_run, (on_future_run _ _ _ _ _ Ht), Hpoll.
    cbn [mret M_ret].
    rewrite on_field_executor_run.
    cbn [executor set_executor _futures set_futures].
    rewrite (on_future_run _ _ _ _ t0).
    2:{ cbn. apply list_lookup_insert_eq. by eapply lookup_lt_Some. }
    rewrite (CivisBackendResult_init_pending cb tr0 t0 Hd0).
    cbn [_futures set_futures]. rewrite list_insert_insert_eq.
    by destruct b.
Qed.

End Wrap.

(** [apply_async] when the service accepts the first submission, and the run
    is in progress when the polling of its future is started. *)
Lemma apply_async_accepted (env : Env) (cb : nat) (tr : Trace) (b : Backend)
    (fid : Z) (job : Response) :
  service_up env -> 0 <= max_submit_retries b -> can_submit b ->
  max_n_retries (executor b) = 0 \/ runs_in_progress env ->
  file_to_civis env tr = Returns fid ->
  let e := executor b in
  let name := next_script_name e in
  let cmd :=
    if using_template b then ""%string
    else runner_command env (setup_cmd b) fid in
  let arguments :=
    if using_template b then Some [("JOBLIB_FUNC_FILE_ID"%string, fid)]
    else None in
  let tr0 := tr ++ [EvFileToCivis; EvSubmit] in
  create_job env tr0 name arguments cmd = Returns job ->
  exists run channels t0,
    post_runs env (tr0 ++ [EvCreateJob name cmd]) (r_id job) = Returns run /\
    let t_new :=
      new_future (r_id job) (r_id run) (max_n_retries e)
        (time_time env (tr0 ++ [EvCreateJob name cmd; EvPostRuns (r_id job)]))
        (creation_pubnub env channels) in
    (if max_n_retries e =? 0 then t0 = t_new
     else exists st, t0 = set_last_result (Some st) t_new /\ finished st = false) /\
    apply_async env cb (tr, b) =
      (Ret {| _future := wrapped cb t0; _callback := cb; result := PNone |},
       (tr0 ++ [EvCreateJob name cmd; EvPostRuns (r_id job)] ++
          creation_events env channels ++
          (if max_n_retries e =? 0 then []
           else [EvGetRun (r_id job) (r_id run)]),
        set_executor (set_futures (_futures e ++ [wrapped cb t0]) (name_taken e)) b)).
Proof.
  intros Hup Hk [Hdown Hkind] Hbudget Hfile e name cmd arguments tr0 Hjob.
  assert (exists fn,
            executor_submit env (runner_command env (setup_cmd b) fid) fid
              (tr ++ [EvFileToCivis], b)
            = on_field executor set_executor (submit env fn arguments) (tr0, b) /\
            default ""%string fn = cmd) as (fn & Hsub & Hfn).
  { rewrite executor_submit_run.
    assert ((tr ++ [EvFileToCivis]) ++ [EvSubmit] = tr0) as ->
      by (by rewrite <- app_assoc).
    subst cmd arguments. destruct (using_template b).
    - destruct (Hkind eq_refl) as [i ->]. by exists None.
    - by eexists (Some _). }
  destruct (submit_accepted env fn arguments tr0 e job Hup Hdown)
    as (run & channels & Hrun & Hsubmit).
  { by rewrite Hfn. }
  rewrite Hfn in Hrun, Hsubmit.
  set (t_new := new_future (r_id job) (r_id run) (max_n_retries e)
                  (time_time env (tr0 ++ [EvCreateJob name cmd; EvPostRuns (r_id job)]))
                  (creation_pubnub env channels)) in *.
  set (tr1 := tr0 ++ [EvCreateJob name cmd; EvPostRuns (r_id job)] ++
                creation_events env channels) in *.
  assert (max_n_retries (name_taken e) = max_n_retries e) as Hn
    by (unfold name_taken; by destruct (inc_script_names e)).
  assert (exists t0 tr2,
            (if max_n_retries e =? 0 then (tr2, t0) = (tr1, t_new)
             else PollableResult_done env (tr1, t_new) = (Ret false, (tr2, t0))) /\
            done t0 = false /\
            (if max_n_retries e =? 0 then t0 = t_new
             else exists st, t0 = set_last_result (Some st) t_new /\
                             finished st = false) /\
            tr2 = tr1 ++ (if max_n_retries e =? 0 then []
                          else [EvGetRun (r_id job) (r_id run)]))
    as (t0 & tr2 & Hpoll & Hd0 & Ht0 & Htr2).
  { destruct (max_n_retries e =? 0) eqn:Hz.
    - exists t_new, tr1. by rewrite app_nil_r.
    - destruct Hbudget as [Hzero|Hprog].
      { fold e in Hzero. rewrite Hzero in Hz. done. }
      destruct (Hprog tr1 (r_id job) (r_id run)) as (st & Hst & Hfin).
      exists (set_last_result (Some st) t_new), (tr1 ++ [EvGetRun (r_id job) (r_id run)]).
      split; [|by eauto].
      by apply PollableResult_done_in_progress. }
  exists run, channels, t0. split; [exact Hrun|]. cbn zeta. fold t_new.
  split; [exact Ht0|].
  rewrite apply_async_run, Hfile, range_succ by done.
  rewrite submit_loop_cons, Hsub, on_field_executor_run.
  fold e. rewrite Hsubmit. fold tr1.
  rewrite (wrap_future_pending env cb (length (_futures e)) tr1 tr2 _ t_new t0).
  - cbn [executor set_executor _futures set_futures].
    rewrite insert_app_r_alt, Nat.sub_diag by (cbn; unfold name_taken;
      destruct (inc_script_names e); cbn; lia).
    rewrite Htr2. subst tr1. rewrite <- !app_assoc.
    cbn. unfold name_taken. by destruct b, (inc_script_names e).
  - cbn. unfold name_taken. destruct (inc_script_names e); by apply list_lookup_middle.
  - cbn [executor set_executor]. unfold set_futures at 1. cbn [max_n_retries].
    rewrite Hn. exact Hpoll.
  - exact Hd0.
Qed.

(** X9: when the service accepts the first submission, [apply_async] makes
    that one attempt and does not sleep: it creates one job, under the next
    script name of the executor and with the runner command (for a template:
    with no command and the file id as argument), starts one run of it, and
    adds one future to the registry.  With a retry budget for the jobs it
    then asks once for the status of the run, to start the polling; when the
    run is in progress, or with no retry budget, the future tracks that job
    and run, carries the retry budget of the executor, is not done, and has
    the completion hook as its only callback, not called yet.  The result it
    returns wraps that future and holds no value. *)
Theorem apply_async_submits_once_when_accepted (env : Env) (cb : nat)
    (tr : Trace) (b : Backend) (fid : Z) (job : Response) :
  service_up env -> 0 <= max_submit_retries b -> can_submit b ->
  max_n_retries (executor b) = 0 \/ runs_in_progress env ->
  file_to_civis env tr = Returns fid ->
  let e := executor b in
  let name := next_script_name e in
  let cmd :=
    if using_template b then ""%string
    else runner_command env (setup_cmd b) fid in
  let arguments :=
    if using_template b then Some [("JOBLIB_FUNC_FILE_ID"%string, fid)]
    else None in
  create_job env (tr ++ [EvFileToCivis; EvSubmit]) name arguments cmd
    = Returns job ->
  exists run res tr' b' t,
    post_runs env (tr ++ [EvFileToCivis; EvSubmit; EvCreateJob name cmd])
      (r_id job) = Returns run /\
    apply_async env cb (tr, b) = (Ret res, (tr', b')) /\
    _futures (executor b') = _futures e ++ [t] /\
    _future res = t /\ _callback res = cb /\ result res = PNone /\
    poller_args t = [r_id job; r_id run] /\
    _max_n_retries t = max_n_retries e /\
    _done_callbacks t = [FetchResult cb] /\
    remote_func_output t = PNone /\ result_fetched t = false /\
    done t = false /\
    created_jobs tr' = created_jobs tr ++ [(name, cmd)] /\
    new_runs tr' = new_runs tr ++ [r_id job] /\
    submit_attempts tr' = S (submit_attempts tr) /\
    sleeps tr' = sleeps tr /\ hook_calls tr' = hook_calls tr /\
    status_requests tr' =
      status_requests tr ++
      (if max_n_retries e =? 0 then [] else [(r_id job, r_id run)]).
Proof.
  intros Hup Hk Hcan Hbudget Hfile e name cmd arguments Hjob.
  destruct (apply_async_accepted env cb tr b fid job Hup Hk Hcan Hbudget Hfile Hjob)
    as (run & channels & t0 & Hrun & Ht0 & Hrun_async).
  cbn zeta in Hrun_async, Ht0. fold e name cmd in Hrun, Hrun_async, Ht0.
  rewrite <- app_assoc in Hrun.
  do 5 eexists. split; [exact Hrun|]. split; [exact Hrun_async|].
  destruct (creation_events_log env channels)
    as (Hj & Hr & _ & Hs & Hsl & Hh & Hst).
  rewrite !created_jobs_app, !new_runs_app, !submit_attempts_app, !sleeps_app,
    !hook_calls_app, !status_requests_app, Hj, Hr, Hs, Hsl, Hh, Hst.
  assert (poller_args t0 = [r_id job; r_id run] /\
          _max_n_retries t0 = max_n_retries e /\ _done_callbacks t0 = [] /\
          done t0 = false) as (Ha & Hn & Hcbs & Hd).
  { destruct (max_n_retries e =? 0); [by subst t0|].
    by destruct Ht0 as (st & -> & _). }
  destruct (wrapped_fields cb t0) as (-> & -> & -> & -> & -> & -> & _).
  rewrite Hcbs. unfold submit_attempts, sleeps.
  destruct (max_n_retries e =? 0); cbn; rewrite ?app_nil_r.
  all: repeat split; try done; lia.
Qed.

(** A fresh backend on the example service. *)
Lemma apply_async_submits_once_when_accepted_example :
  service_up example_env /\ can_submit (example_backend 0) /\
  (max_n_retries (executor (example_backend 0)) = 0 \/
   runs_in_progress example_env) /\
  exists res tr' b' t,
    apply_async example_env 3 ([], example_backend 0) = (Ret res, (tr', b')) /\
    _futures (executor b') = [t] /\ poller_args t = [7; 100] /\
    _done_callbacks t = [FetchResult 3] /\
    submit_attempts tr' = 1%nat.
Proof.
  assert (service_up example_env) as Hup.
  { split; [intros tr job|intros tr]; by eexists. }
  assert (can_submit (example_backend 0)) as Hcan by (by split).
  split; [exact Hup|]. split; [exact Hcan|]. split; [by left|].
  destruct (apply_async_submits_once_when_accepted example_env 3 []
              (example_backend 0) 1 {| r_id := 7; r_state := Queued |}
              Hup ltac:(done) Hcan (or_introl eq_refl) eq_refl eq_refl)
    as (run & res & tr' & b' & t & Hrun & Hasync & Hfs & _ & _ & _ & Hargs & _
        & Hcbs & _ & _ & _ & _ & _ & Hatt & _).
  injection Hrun as <-.
  exists res, tr', b', t. split; [exact Hasync|]. split; [exact Hfs|].
  split; [exact Hargs|]. split; [exact Hcbs|exact Hatt].
Defined.

(** ** The backend factories *)

(** X10: [make_backend_factory] checks nothing: the [ValueError] of a
    negative [max_submit_retries] is raised when the factory is called, and
    only then.  Otherwise the factory returns a backend that can submit, with
    no futures, whose setup command is the one given, or by default the
    installation of the repository when one is given and the command that
    does nothing when none is; on a service that accepts its first job that
    job is the dated container script running the function after the setup
    command, and, when the run is in progress as its polling is started or
    there is no retry budget, its future carries [max_job_retries] as its
    retry budget. *)
Theorem backend_factory_checks_retries_when_called
    (docker_image_name docker_image_tag : string)
    (repo_http_uri repo_ref : option string)
    (required_resources : option Dict) (params : option (list Dict))
    (arguments : option Dict) (polling_interval : option Q)
    (given_setup_cmd : option string) (k max_job_retries : Z)
    (hidden : bool) (date_str : string) :
  let factory :=
    make_backend_factory docker_image_name docker_image_tag repo_http_uri
      repo_ref required_resources params arguments polling_interval
      given_setup_cmd k max_job_retries hidden in
  let setup :=
    match given_setup_cmd, repo_http_uri with
    | Some cmd, _ => cmd
    | None, Some _ => "cd /app; python setup.py install; cd /"%string
    | None, None => ":"%string
    end in
  let name := ("ContainerShellExecutorScript " ++ date_str)%string in
  (k < 0 -> backend_factory factory date_str = Raise ValueError) /\
  (0 <= k ->
   exists b,
     backend_factory factory date_str = Ret b /\
     can_submit b /\ _futures (executor b) = [] /\
     max_submit_retries b = k /\ setup_cmd b = setup /\
     forall (env : Env) (cb : nat) (tr : Trace) (fid : Z) (job : Response),
       service_up env -> max_job_retries = 0 \/ runs_in_progress env ->
       file_to_civis env tr = Returns fid ->
       create_job env (tr ++ [EvFileToCivis; EvSubmit]) name None
         (runner_command env setup fid) = Returns job ->
       exists res tr' b' t,
         apply_async env cb (tr, b) = (Ret res, (tr', b')) /\
         _futures (executor b') = [t] /\
         _max_n_retries t = max_job_retries /\
         created_jobs tr' =
           created_jobs tr ++ [(name, runner_command env setup fid)]).
Proof.
  cbn zeta. unfold make_backend_factory, backend_factory, _CivisBackend_init.
  split; intros Hk.
  - by destruct (Z.ltb_spec k 0); [|lia].
  - destruct (Z.ltb_spec k 0); [lia|]. eexists. split; [reflexivity|].
    split; [by split|]. split; [done|]. split; [done|]. split.
    { by destruct given_setup_cmd, repo_http_uri. }
    intros env cb tr fid job Hup Hbudget Hfile Hjob.
    set (b := {| executor := _ |}).
    assert (can_submit b) as Hcan by (by split).
    assert (setup_cmd b =
            match given_setup_cmd, repo_http_uri with
            | Some cmd, _ => cmd
            | None, Some _ => "cd /app; python setup.py install; cd /"%string
            | None, None => ":"%string
            end) as Hsetup by (by destruct given_setup_cmd, repo_http_uri).
    destruct (apply_async_accepted env cb tr b fid job Hup Hk Hcan Hbudget Hfile)
      as (run & channels & t0 & Hrun & Ht0 & Hasync).
    { assert (using_template b = false) as -> by done.
      rewrite Hsetup. exact Hjob. }
    cbn zeta in Hasync, Ht0.
    assert (using_template b = false) as Hut by done.
    rewrite Hut, Hsetup in Hasync.
    do 4 eexists. split; [exact Hasync|].
    destruct (creation_events_log env channels) as (Hj & _).
    rewrite !created_jobs_app, Hj.
    assert (_max_n_retries t0 = max_job_retries) as Hn.
    { cbn [executor max_n_retries b] in Ht0.
      destruct (max_job_retries =? 0); [by subst t0|].
      by destruct Ht0 as (st & -> & _). }
    split; [done|]. split; [exact Hn|].
    cbn [executor max_n_retries b].
    destruct (max_job_retries =? 0); cbn; by rewrite !app_nil_r.
Qed.

(** The factory of the documentation, called on the example service. *)
Lemma backend_factory_checks_retries_when_called_example :
  backend_factory
    (make_backend_factory "civisanalytics/datascience-python" "latest"
       None None (Some [("cpu"%string, JInt 512); ("memory"%string, JInt 256)])
       None None None None (-1) 0 true) "2017-08-01" = Raise ValueError /\
  exists b,
    backend_factory
      (make_backend_factory "civisanalytics/datascience-python" "latest"
         None None (Some [("cpu"%string, JInt 512); ("memory"%string, JInt 256)])
         None None None None 0 0 true) "2017-08-01" = Ret b /\
    setup_cmd b = ":"%string.
Proof.
  pose proof (backend_factory_checks_retries_when_called
                "civisanalytics/datascience-python" "latest" None None
                (Some [("cpu"%string, JInt 512); ("memory"%string, JInt 256)])
                None None None None) as H.
  split.
  - apply (proj1 (H (-1) 0 true "2017-08-01"%string)). done.
  - destruct (proj2 (H 0 0 true "2017-08-01"%string)) as (b & Hb & _ & _ & _ & Hs & _);
      [done|].
    exists b. split; [exact Hb|exact Hs].
Defined.

(** X11: the backend of [make_backend_template_factory] uses the template
    whenever a template id is given, but its executor is the one for custom
    scripts only when that id is not zero.  For a nonzero id the backend can
    submit, and names its scripts as custom scripts of the day; for the id 0
    the executor is a container executor that is asked to submit with the
    file id alone, so every [apply_async] raises [TypeError] after the upload
    and creates no job. *)
Theorem template_factory_backend (from_template_id : option Z)
    (arguments : option Dict) (polling_interval : option Q)
    (k max_job_retries : Z) (hidden : bool) (date_str : string) :
  0 <= k ->
  exists b,
    backend_factory
      (make_backend_template_factory from_template_id arguments
         polling_interval k max_job_retries hidden) date_str = Ret b /\
    setup_cmd b = ":"%string /\ max_submit_retries b = k /\
    max_n_retries (executor b) = max_job_retries /\
    (using_template b = true <-> from_template_id <> None) /\
    (can_submit b <-> from_template_id <> Some 0) /\
    (forall i, from_template_id = Some i -> i <> 0 ->
       kind (executor b) = CustomScript i /\
       script_name (executor b) = ("CustomScriptExecutorScript " ++ date_str)%string) /\
    (from_template_id = Some 0 ->
     forall (env : Env) (cb : nat) (tr : Trace) (fid : Z),
       file_to_civis env tr = Returns fid ->
       apply_async env cb (tr, b)
         = (Raise TypeError, (tr ++ [EvFileToCivis; EvSubmit], b)) /\
       created_jobs (tr ++ [EvFileToCivis; EvSubmit]) = created_jobs tr).
Proof.
  intros Hk. unfold make_backend_template_factory, backend_factory,
    _CivisBackend_init.
  destruct (Z.ltb_spec k 0); [lia|]. eexists. split; [reflexivity|].
  split; [done|]. split; [done|]. split; [done|]. split; [|split; [|split]].
  - cbn. rewrite bool_decide_eq_true. done.
  - unfold can_submit. cbn. split.
    + intros [_ Hkind] ->. by destruct (Hkind ltac:(by apply bool_decide_eq_true)).
    + intros Hne. split; [done|]. intros Ht%bool_decide_eq_true.
      destruct from_template_id as [i|]; [|done].
      destruct (Z.eqb_spec i 0) as [->|]; [done|]. eauto.
  - intros i -> Hi. cbn. by destruct (Z.eqb_spec i 0).
  - intros -> env cb tr fid Hfile. split.
    + rewrite apply_async_run, Hfile, range_succ by done.
      rewrite submit_loop_cons, executor_submit_run. cbn.
      by rewrite <- app_assoc.
    + rewrite created_jobs_app. cbn. by rewrite app_nil_r.
Qed.

(** The backend for template 12, and the backend for template 0 on the
    example service. *)
Lemma template_factory_backend_example :
  0 <= 2 /\
  (exists b,
     backend_factory (make_backend_template_factory (Some 12) None None 2 1 true)
       "2017-08-01" = Ret b /\
     kind (executor b) = CustomScript 12) /\
  (exists b,
     backend_factory (make_backend_template_factory (Some 0) None None 2 1 true)
       "2017-08-01" = Ret b /\
     (apply_async example_env 0 ([], b)).1 = Raise TypeError).
Proof.
  split; [done|]. split.
  - destruct (template_factory_backend (Some 12) None None 2 1 true
                "2017-08-01"%string ltac:(done))
      as (b & Hb & _ & _ & _ & _ & _ & Hkind & _).
    exists b. split; [exact Hb|]. by apply (Hkind 12).
  - destruct (template_factory_backend (Some 0) None None 2 1 true
                "2017-08-01"%string ltac:(done))
      as (b & Hb & _ & _ & _ & _ & _ & _ & Hzero).
    exists b. split; [exact Hb|].
    destruct (Hzero eq_refl example_env 0%nat [] 1 eq_refl) as [-> _]. done.
Defined.

(** ** Downloading: the first attempt, and recovery *)

Section DownloadMore.

Variable env : Env.

(** One iteration of the loop of [_robust_result_download]. *)
Lemma robust_result_download_loop_step {O} (fuel : nat)
    (file_id n_retries : Z) (delay : Q) (n_failed : Z) (tr : Trace) (o : O) :
  _robust_result_download_loop env (S fuel) file_id n_retries delay n_failed (tr, o) =
    match civis_to_file env tr file_id with
    | Returns buffer =>
        (answer (joblib_load env buffer),
         (tr ++ [EvCivisToFile file_id; EvJoblibLoad], o))
    | Raises e =>
        if retry_exc e && (n_failed <? n_retries) then
          _robust_result_download_loop env fuel file_id n_retries delay
            (n_failed + 1) (tr ++ [EvCivisToFile file_id; EvSleep delay], o)
        else (Raise e, (tr ++ [EvCivisToFile file_id], o))
    end.
Proof.
  cbn [_robust_result_download_loop]. unfold try_except_else, api. cbn.
  destruct (civis_to_file env tr file_id) as [buffer|e]; cbn.
  - by rewrite <- app_assoc.
  - destruct (retry_exc e); [|done]. cbn.
    destruct (n_failed <? n_retries); [|done].
    unfold sleep, emit, modify, mbind, M_bind. cbn. by rewrite <- app_assoc.
Qed.

(** The loop, with [j - i] failures still to come and retries enough. *)
Lemma robust_result_download_loop_recovers {O} (file_id n_retries : Z)
    (delay : Q) (tr : Trace) (o : O) (j : nat) (buffer : Z) (d : nat) :
  download_recovers env file_id tr j buffer ->
  forall (fuel : nat) (n_failed : Z) (evs : Trace),
    (download_attempts evs + d = j)%nat ->
    Z.of_nat d <= n_retries - n_failed -> (d < fuel)%nat ->
    exists evs',
      _robust_result_download_loop env fuel file_id n_retries delay n_failed
        (tr ++ evs, o)
        = (answer (joblib_load env buffer), (tr ++ evs ++ evs', o)) /\
      download_attempts evs' = S d /\ sleeps evs' = replicate d delay.
Proof.
  intros Hrec. induction d as [|d IH]; intros fuel n_failed evs Hi Hn Hfuel.
  - destruct fuel as [|fuel]; [lia|]. rewrite robust_result_download_loop_step.
    rewrite (proj2 (Hrec evs)) by lia.
    exists [EvCivisToFile file_id; EvJoblibLoad]. by rewrite <- app_assoc.
  - destruct fuel as [|fuel]; [lia|]. rewrite robust_result_download_loop_step.
    destruct (proj1 (Hrec evs)) as (e & -> & ->); [lia|].
    destruct (Z.ltb_spec n_failed n_retries); [|lia]. cbn [andb].
    rewrite <- app_assoc.
    destruct (IH fuel (n_failed + 1) (evs ++ [EvCivisToFile file_id; EvSleep delay]))
      as (evs' & Hrun & Hatt & Hsl); [|lia|lia|].
    { rewrite download_attempts_app. unfold download_attempts at 2. cbn. lia. }
    exists ([EvCivisToFile file_id; EvSleep delay] ++ evs').
    rewrite Hrun, <- !app_assoc. split; [done|].
    rewrite download_attempts_app, sleeps_app, Hatt, Hsl.
    unfold download_attempts, sleeps. cbn. done.
Qed.

End DownloadMore.

(** X12: the first attempt of [_robust_result_download].  A file that
    downloads is deserialized at once, and what deserializing gives or raises
    is the outcome: a failure to deserialize is not retried.  A download that
    fails with anything but one of the three network errors, or with any
    exception when [n_retries] is zero or less, raises that exception after
    this one attempt, with no sleep. *)
Theorem robust_download_first_attempt (env : Env) (O : Type)
    (file_id n_retries : Z) (delay : Q) (tr : Trace) (o : O) :
  let rs := _robust_result_download env file_id n_retries delay (tr, o) in
  (forall buffer, civis_to_file env tr file_id = Returns buffer ->
     rs = (answer (joblib_load env buffer),
           (tr ++ [EvCivisToFile file_id; EvJoblibLoad], o))) /\
  (forall e, civis_to_file env tr file_id = Raises e ->
     retry_exc e = false \/ n_retries <= 0 ->
     rs = (Raise e, (tr ++ [EvCivisToFile file_id], o)) /\
     download_attempts rs.2.1 = S (download_attempts tr) /\
     sleeps rs.2.1 = sleeps tr).
Proof.
  cbn zeta. unfold _robust_result_download.
  rewrite robust_result_download_loop_step. split.
  - by intros buffer ->.
  - intros e -> Hor.
    assert (retry_exc e && (0 <? n_retries) = false) as ->.
    { destruct Hor as [->|?]; [done|].
      destruct (Z.ltb_spec 0 n_retries); [lia|]. by rewrite andb_false_r. }
    cbn [fst snd]. rewrite download_attempts_app, sleeps_app.
    unfold download_attempts, sleeps. cbn. rewrite app_nil_r.
    split; [done|]. split; [lia|done].
Qed.

(** X13: [_robust_result_download] gets over network failures: when the
    next [j] downloads fail with exceptions it retries, [j] being no more
    than [n_retries], and the one after them works, it returns what
    deserializing that download gives, after [j + 1] attempts and a sleep of
    [delay] after each of the [j] failures. *)
Theorem robust_download_recovers (env : Env) (O : Type) (file_id n_retries : Z)
    (delay : Q) (tr : Trace) (o : O) (j : nat) (buffer : Z) :
  download_recovers env file_id tr j buffer -> Z.of_nat j <= n_retries ->
  exists tr',
    _robust_result_download env file_id n_retries delay (tr, o)
      = (answer (joblib_load env buffer), (tr', o)) /\
    download_attempts tr' = (download_attempts tr + j + 1)%nat /\
    sleeps tr' = sleeps tr ++ replicate j delay.
Proof.
  intros Hrec Hj. unfold _robust_result_download.
  destruct (robust_result_download_loop_recovers env file_id n_retries delay tr o
              j buffer j Hrec (S (Z.to_nat n_retries)) 0 [])
    as (evs' & Hrun & Hatt & Hsl); [done|lia|lia|].
  rewrite app_nil_r in Hrun. cbn [app] in Hrun.
  exists (tr ++ evs'). split; [exact Hrun|].
  rewrite download_attempts_app, sleeps_app, Hatt, Hsl. split; [lia|done].
Qed.

(** Two timeouts and then the file, with five retries allowed. *)
Lemma robust_download_recovers_example :
  download_recovers flaky_download_env 11 [] 2 42 /\
  exists tr',
    _robust_result_download flaky_download_env 11 5 1 ([], tt)
      = (Ret (PObj 42), (tr', tt)) /\
    download_attempts tr' = 3%nat /\ sleeps tr' = [1%Q; 1%Q].
Proof.
  assert (download_recovers flaky_download_env 11 [] 2 42) as Hrec.
  { intros evs. cbn -[download_attempts]. split.
    - intros Hlt. exists ConnectTimeout. by rewrite bool_decide_true.
    - intros Heq. rewrite bool_decide_false; [done|lia]. }
  split; [exact Hrec|].
  exact (robust_download_recovers flaky_download_env unit 11 5 1 [] tt 2 42 Hrec
           ltac:(done)).
Defined.

(** ** What [get] raises *)

(** X14: on a future that is done, [get] asks nothing of the service and
    returns a value only when the run was not cancelled, no exception is
    recorded on the future and the completion hook has marked the output as
    fetched.  For a cancelled run it raises [CancelledError].  For a run with
    a recorded exception it raises what the hook stored on the future, when
    that is an exception, and else a [TransportableException] made from the
    recorded exception; with no exception recorded and nothing fetched or
    stored, the [TransportableException] is made from [None]. *)
Theorem get_returns_only_fetched_results (env : Env) (tr : Trace)
    (res : _CivisBackendResult) :
  done (_future res) = true ->
  let t := _future res in
  let rs := get env (tr, res) in
  rs.2.1 = tr /\
  (forall v, rs.1 = Ret v ->
     cancelled t = false /\ _exception t = None /\ result_fetched t = true) /\
  (cancelled t = true -> rs.1 = Raise CancelledError) /\
  (cancelled t = false -> result res = PNone ->
   forall exc, _exception t = Some exc ->
     rs.1 = match remote_func_output t with
            | PNone => Raise (TransportableException exc)
            | PExc e => Raise e
            | PObj _ => Raise TypeError
            end) /\
  (cancelled t = false -> result res = PNone -> _exception t = None ->
   result_fetched t = false -> remote_func_output t = PNone ->
   rs.1 = Raise TransportableExceptionOfNone).
Proof.
  intros Hd. cbn zeta. rewrite (get_run env tr res Hd). cbn zeta. cbn [fst snd].
  split; [done|]. split; [|split; [|split]].
  - intros v. destruct (cancelled (_future res)); [done|].
    destruct (_exception (_future res)) as [exc|]; cbn.
    + destruct (negb (is_none _)); [by destruct (result _)|done].
    + destruct (result_fetched (_future res)); [done|]. cbn.
      destruct (negb (is_none _)); [by destruct (result _)|done].
  - by intros ->.
  - intros -> -> exc ->. cbn. by destruct (remote_func_output (_future res)).
  - by intros -> -> -> -> ->.
Qed.

(** The result of a failed run whose output could not be listed. *)
Lemma get_returns_only_fetched_results_example :
  done failed_tracker = true /\
  (get example_env ([], {| _future := failed_tracker; _callback := 0;
                           result := PNone |})).1
    = Raise (TransportableException (CivisJobFailure "boom")).
Proof.
  split; [done|].
  destruct (get_returns_only_fetched_results example_env []
              {| _future := failed_tracker; _callback := 0; result := PNone |}
              eq_refl) as (_ & _ & _ & Hfailed & _).
  exact (Hfailed eq_refl eq_refl (CivisJobFailure "boom") eq_refl).
Defined.

(** ** Cancelling again, and the completion hook *)

(** X15: cancelling a second time a tracker that [done()] does not poll.
    After a [cancel] that the service answered with a finished run, a
    further [cancel] asks nothing, changes nothing and returns the same
    answer.  After a [cancel] that the service answered with the run still
    queued or running, on a tracker with no completion hook of a result
    among its callbacks, a further [cancel] sends the request again and calls
    the callbacks again. *)
Theorem cancel_again (env : Env) (tr : Trace) (t : Tracker) (job : Z)
    (rest : list Z) (ack : Response) :
  done t = false -> must_poll t = false -> poller_args t = job :: rest ->
  post_cancel env tr job = Returns ack ->
  finished ack = true \/ forallb user_callback (_done_callbacks t) = true ->
  exists tr1 t1,
    cancel env (tr, t) = (Ret (bool_decide (r_state ack = Cancelled)), (tr1, t1)) /\
    cancel_requests tr1 = cancel_requests tr ++ [job] /\
    hook_calls tr1 = hook_calls tr ++ _done_callbacks t /\
    (finished ack = true ->
     cancel env (tr1, t1)
       = (Ret (bool_decide (r_state ack = Cancelled)), (tr1, t1))) /\
    (finished ack = false ->
     forall ack', post_cancel env tr1 job = Returns ack' ->
       exists tr2 t2,
         cancel env (tr1, t1)
           = (Ret (bool_decide (r_state ack' = Cancelled)), (tr2, t2)) /\
         cancel_requests tr2 = cancel_requests tr ++ [job; job] /\
         hook_calls tr2 = hook_calls tr ++ _done_callbacks t ++ _done_callbacks t).
Proof.
  intros Hd Hp Hargs Hack Hor.
  assert (forall tr0 t0 ack0,
            done t0 = false -> must_poll t0 = false -> poller_args t0 = job :: rest ->
            post_cancel env tr0 job = Returns ack0 ->
            finished ack0 = true \/ forallb user_callback (_done_callbacks t0) = true ->
            exists tr1 t1,
              cancel env (tr0, t0)
                = (Ret (bool_decide (r_state ack0 = Cancelled)), (tr1, t1)) /\
              cancel_requests tr1 = cancel_requests tr0 ++ [job] /\
              hook_calls tr1 = hook_calls tr0 ++ _done_callbacks t0 /\
              done t1 = finished ack0 /\ must_poll t1 = false /\
              cancelled t1 = bool_decide (r_state ack0 = Cancelled) /\
              poller_args t1 = poller_args t0 /\
              _done_callbacks t1 = _done_callbacks t0) as Hone.
  { intros tr0 t0 ack0 Hd0 Hp0 Hargs0 Hack0 Hor0.
    destruct (cancel_returns env tr0 t0 job rest ack0 Hd0 Hp0 Hargs0 Hack0 Hor0)
      as (evs & v & b & Hrun & Hh & Hc).
    destruct (hook_events_quiet evs Hh) as (Hq & _).
    destruct (released_fields (set_result (Some ack0) t0))
      as (Hf1 & Hf2 & _ & Hf4 & _).
    do 2 eexists. split; [exact Hrun|].
    rewrite !cancel_requests_app, !hook_calls_app, cancel_requests_waiters,
      cancel_requests_cleanup, hook_calls_waiters, hook_calls_cleanup, Hq, Hc.
    cbn. rewrite ?app_nil_r. split; [done|]. split; [done|].
    assert (_result (hooked v b (released (set_result (Some ack0) t0))) = Some ack0)
      as Hres by exact Hf4.
    split; [|split; [|split; [|split; [exact Hf1|exact Hf2]]]].
    - unfold done, succeeded, failed, cancelled, _civis_state, finished.
      rewrite Hres. by destruct (r_state ack0).
    - unfold must_poll. by rewrite Hres.
    - unfold cancelled, _civis_state. by rewrite Hres. }
  destruct (Hone tr t ack Hd Hp Hargs Hack Hor)
    as (tr1 & t1 & Hfirst & Hreq1 & Hcalls1 & Hd1 & Hp1 & Hc1 & Hargs1 & Hcbs1).
  exists tr1, t1. split; [exact Hfirst|]. split; [exact Hreq1|].
  split; [exact Hcalls1|]. split.
  - intros Hfin. rewrite Hfin in Hd1.
    by rewrite (cancel_done env _ _ Hd1), Hc1.
  - intros Hfin ack' Hack'. rewrite Hfin in Hd1.
    destruct Hor as [?|Hu]; [congruence|].
    rewrite Hargs in Hargs1. rewrite <- Hcbs1 in Hu.
    destruct (Hone tr1 t1 ack' Hd1 Hp1 Hargs1 Hack' (or_intror Hu))
      as (tr2 & t2 & Hsecond & Hreq2 & Hcalls2 & _).
    exists tr2, t2. split; [exact Hsecond|].
    rewrite Hreq2, Hreq1, Hcalls2, Hcalls1, Hcbs1, <- !app_assoc. done.
Qed.

(** A running tracker, cancelled twice on a service that cancels at once. *)
Lemma cancel_again_example :
  done (example_tracker None) = false /\
  must_poll (example_tracker None) = false /\
  exists tr1 t1,
    cancel example_env ([], example_tracker None) = (Ret true, (tr1, t1)) /\
    cancel example_env (tr1, t1) = (Ret true, (tr1, t1)) /\
    cancel_requests tr1 = [5].
Proof.
  split; [done|]. split; [done|].
  destruct (cancel_again example_env [] (example_tracker None) 5 [6]
              {| r_id := 5; r_state := Cancelled |} eq_refl eq_refl eq_refl eq_refl
              (or_introl eq_refl))
    as (tr1 & t1 & Hfirst & Hreq & _ & Hsame & _).
  exists tr1, t1. split; [exact Hfirst|]. split; [by apply Hsame|exact Hreq].
Defined.


(** ** Polling *)

(** X17: [_poll_and_set_api_result] turns an exception of the poller, or of
    recording what the poller returned, into a failure of the run: the
    exception goes to [_set_api_exception], so that with retries left, on a
    service that is up, a new run of the job is started, the budget goes down
    by one and no exception is recorded.  What is not an [Exception], a
    [KeyboardInterrupt], is not caught: it is raised with the future as the
    poller left it. *)
Theorem poll_failure_is_retried (env : Env)
    (poller : list Z -> M (St Tracker) Response)
    (_set_api_result : Response -> M (St Tracker) unit)
    (tr : Trace) (t : Tracker) (e : Exc) (s1 : St Tracker) :
  (poller (poller_args t) (tr, t) = (Raise e, s1) \/
   exists r s0, poller (poller_args t) (tr, t) = (Ret r, s0) /\
                _set_api_result r s0 = (Raise e, s1)) ->
  let poll := _poll_and_set_api_result env poller _set_api_result in
  (is_Exception e = false -> poll (tr, t) = (Raise e, s1)) /\
  (is_Exception e = true -> poll (tr, t) = _set_api_exception env e None s1) /\
  (is_Exception e = true -> service_up env -> 0 < _max_n_retries s1.2 ->
   forall job run, poller_args s1.2 = [job; run] ->
     exists tr' t',
       poll (tr, t) = (Ret tt, (tr', t')) /\
       new_runs tr' = new_runs s1.1 ++ [job] /\
       _max_n_retries t' = _max_n_retries s1.2 - 1 /\
       _exception t' = _exception s1.2 /\ _result t' = _result s1.2).
Proof.
  intros Hraise. cbn zeta.
  assert (_poll_and_set_api_result env poller _set_api_result (tr, t) =
            if is_Exception e then _set_api_exception env e None s1
            else (Raise e, s1)) as Hpoll.
  { unfold _poll_and_set_api_result, try_except, self, gets.
    unfold mbind, M_bind. cbn [fst snd].
    destruct Hraise as [->|(r & s0 & -> & ->)]; by destruct (is_Exception e). }
  rewrite Hpoll. split; [by intros ->|]. split; [by intros ->|].
  intros -> Hup Hn job run Hargs. destruct s1 as [tr1 t1].
  destruct (set_api_exception_absorbs env Hup e None tr1 t1 job run Hn Hargs)
    as (tr' & t' & r & Hstep & Hruns & _ & _ & Hbudget & Hexn & Hres & _).
  exists tr', t'. by rewrite Hstep.
Qed.

(** A poller that cannot reach the service, on a tracker with two retries. *)
Lemma poll_failure_is_retried_example :
  (unreachable_poller (poller_args retrying_tracker) ([], retrying_tracker)
     = (Raise ConnectionError, ([], retrying_tracker)) \/
   exists r s0,
     unreachable_poller (poller_args retrying_tracker) ([], retrying_tracker)
       = (Ret r, s0) /\
     record_nothing r s0
       = (Raise ConnectionError, ([], retrying_tracker))) /\
  exists tr' t',
    _poll_and_set_api_result example_env unreachable_poller
      record_nothing ([], retrying_tracker) = (Ret tt, (tr', t')) /\
    new_runs tr' = [5] /\ _max_n_retries t' = 1.
Proof.
  assert (service_up example_env) as Hup.
  { split; [intros tr job|intros tr]; by eexists. }
  split; [by left|].
  destruct (poll_failure_is_retried example_env unreachable_poller
              record_nothing [] retrying_tracker ConnectionError
              ([], retrying_tracker) (or_introl eq_refl))
    as (_ & _ & Hretry).
  destruct (Hretry eq_refl Hup ltac:(done) 5 6 eq_refl)
    as (tr' & t' & Hrun & Hruns & Hn & _).
  exists tr', t'. split; [exact Hrun|]. split; [exact Hruns|exact Hn].
Defined.

(** ** Merging parameter definitions *)

Lemma dict_lookup_get (k : string) (d : Dict) : dict_lookup k d = dict_get k d.
Proof. induction d as [|[k' v] d IH]; cbn; [done|]. by rewrite IH. Qed.

Lemma named_name_of (p : Dict) : named p <-> is_Some (name_of p).
Proof.
  unfold named, name_of. split.
  - intros [n ->]. eauto.
  - intros [n H]. destruct (param_name p) as [[]|]; try done. eauto.
Qed.

Lemma name_of_Some (p : Dict) (n : string) :
  name_of p = Some n <-> param_name p = Some (JStr n).
Proof.
  unfold name_of. split.
  - destruct (param_name p) as [[]|]; try done. by intros [= ->].
  - by intros ->.
Qed.

Lemma name_of_update (p input_param : Dict) :
  named input_param -> NoDup input_param.*1 ->
  name_of (dict_update p input_param) = name_of input_param.
Proof.
  intros [n Hn] Hnd. rewrite (proj2 (name_of_Some input_param n) Hn).
  apply name_of_Some. unfold param_name in *.
  rewrite dict_lookup_get in *. by rewrite dict_get_update, Hn.
Qed.

(** The inner loop, for parameters that have names. *)
Lemma update_param_run (input_param : Dict) (params : list Dict) :
  Forall named params -> named input_param ->
  update_param input_param params =
    Ret (match list_find (fun p => name_of p = name_of input_param) params with
         | Some (i, p) => Some (<[i:=dict_update p input_param]> params)
         | None => None
         end).
Proof.
  intros Hps [n Hn]. pose proof (proj2 (name_of_Some _ _) Hn) as Hn'.
  rewrite Hn'.
  induction Hps as [|p ps [m Hm] Hps IH]; [done|].
  pose proof (proj2 (name_of_Some _ _) Hm) as Hm'.
  cbn [update_param]. unfold getitem. unfold param_name in Hn, Hm.
  rewrite Hn, Hm. cbn [mbind Res_bind py_eq]. cbn [list_find].
  rewrite Hm'. destruct (String.eqb_spec m n) as [->|Hne].
  - by rewrite decide_True.
  - rewrite decide_False by congruence. rewrite IH. cbn.
    by destruct (list_find _ ps) as [[i q]|].
Qed.

(** One turn of the outer loop. *)
Lemma merge_params_cons (state_params params : list Dict) (input_param : Dict) :
  Forall named state_params -> named input_param ->
  merge_params state_params (input_param :: params) =
    merge_params
      (match list_find (fun p => name_of p = name_of input_param) state_params with
       | Some (i, p) => <[i:=dict_update p input_param]> state_params
       | None => state_params ++ [input_param]
       end) params.
Proof.
  intros Hsp Hip. cbn [merge_params]. rewrite update_param_run by done.
  cbn. by destruct (list_find _ state_params) as [[i p]|].
Qed.

(** What a turn does to the names. *)
Lemma merge_step_names (state_params : list Dict) (input_param : Dict) :
  Forall named state_params -> named input_param -> NoDup input_param.*1 ->
  let next :=
    match list_find (fun p => name_of p = name_of input_param) state_params with
    | Some (i, p) => <[i:=dict_update p input_param]> state_params
    | None => state_params ++ [input_param]
    end in
  Forall named next /\
  name_of <$> next =
    (name_of <$> state_params) ++
    (if decide (name_of input_param ∈ name_of <$> state_params) then []
     else [name_of input_param]).
Proof.
  intros Hsp Hip Hnd. cbn zeta.
  destruct (list_find _ state_params) as [[i p]|] eqn:Hfind.
  - apply list_find_Some in Hfind as (Hi & Hname & _).
    assert (name_of (dict_update p input_param) = name_of p) as Hsame
      by (by rewrite name_of_update).
    split.
    + apply Forall_insert; [done|]. apply named_name_of.
      rewrite Hsame, Hname. by apply named_name_of.
    + rewrite list_fmap_insert, Hsame, list_insert_id
        by (by rewrite list_lookup_fmap, Hi).
      rewrite decide_True, app_nil_r; [done|].
      rewrite <- Hname. apply list_elem_of_fmap. exists p.
      split; [done|]. by eapply list_elem_of_lookup_2.
  - split; [apply Forall_app; by repeat constructor|].
    rewrite fmap_app. f_equal. rewrite decide_False; [done|].
    intros (p & Hp & Hin)%list_elem_of_fmap.
    apply list_elem_of_lookup in Hin as [i Hi].
    eapply list_find_None in Hfind. rewrite Forall_forall in Hfind.
    apply (Hfind p); [by eapply list_elem_of_lookup_2|done].
Qed.

(** X18: merging parameter definitions that all have string names, as
    [infer_backend_factory] does, does not raise.  The parameters of the job
    keep their places and their names; the names that are new come after
    them, each once; so the merge adds no duplicate of a name. *)
Theorem merge_params_keeps_names (state_params params : list Dict) :
  Forall named state_params -> Forall named params ->
  Forall (fun p => NoDup p.*1) params ->
  exists merged new_names,
    merge_params state_params params = Ret merged /\
    Forall named merged /\
    name_of <$> merged = (name_of <$> state_params) ++ new_names /\
    NoDup new_names /\
    (forall n, n ∈ new_names <->
       n ∈ (name_of <$> params) /\ n ∉ (name_of <$> state_params)) /\
    (NoDup (name_of <$> state_params) -> NoDup (name_of <$> merged)).
Proof.
  intros Hsp Hps Hnd. revert state_params Hsp.
  induction Hps as [|ip ps Hip Hps IH]; intros sp Hsp.
  - exists sp, []. rewrite app_nil_r. split; [done|]. split; [done|].
    split; [done|]. split; [constructor|]. split; [|done].
    intros n. split; [by intros ?%elem_of_nil|]. by intros [?%elem_of_nil _].
  - apply Forall_cons in Hnd as [Hnd_ip Hnd].
    rewrite merge_params_cons by done.
    destruct (merge_step_names sp ip Hsp Hip Hnd_ip) as [Hnext Hnames].
    cbn zeta in Hnext, Hnames.
    destruct (IH Hnd _ Hnext) as (merged & new & Hrun & Hnamed & Hm & Hnew & Hiff & _).
    rewrite Hnames in Hm, Hiff. rewrite <- app_assoc in Hm.
    exists merged. eexists. split; [exact Hrun|]. split; [done|].
    split; [exact Hm|].
    assert (NoDup ((if decide (name_of ip ∈ name_of <$> sp) then []
                    else [name_of ip]) ++ new) /\
            forall n, n ∈ (if decide (name_of ip ∈ name_of <$> sp) then []
                           else [name_of ip]) ++ new <->
                      n ∈ name_of <$> ip :: ps /\ n ∉ name_of <$> sp)
      as [Hnd' Hiff'].
    { destruct (decide (name_of ip ∈ name_of <$> sp)) as [Hin|Hin].
      - rewrite app_nil_r in Hiff. cbn [app]. split; [done|].
        intros n. rewrite Hiff, fmap_cons, elem_of_cons. split.
        + intros [? ?]. eauto.
        + intros [[->|?] ?]; done.
      - split.
        + cbn [app]. apply NoDup_cons. split; [|done].
          intros [_ H]%Hiff. apply H, elem_of_app. right.
          apply list_elem_of_here.
        + intros n. cbn [app]. rewrite elem_of_cons, Hiff, fmap_cons, elem_of_cons.
          rewrite elem_of_app, list_elem_of_singleton. split.
          * intros [->|[? ?]]; [split; [by left|exact Hin]|].
            split; [by right|]. tauto.
          * intros [[->|?] ?]; [by left|].
            destruct (decide (n = name_of ip)) as [->|]; [by left|].
            right. split; [done|]. tauto. }
    split; [exact Hnd'|]. split; [exact Hiff'|].
    intros Hsp_nd. rewrite Hm. apply NoDup_app. split; [done|].
    split; [|done]. intros n Hin Hin'. by apply Hiff' in Hin' as [_ ?].
Qed.

(** The parameters of the example have string names and distinct keys. *)
Lemma example_params_named :
  Forall named job_params /\ Forall named given_params /\
  Forall (fun p => NoDup p.*1) given_params /\
  NoDup (name_of <$> job_params) /\ NoDup (name_of <$> given_params).
Proof.
  split; [repeat constructor; by eexists|].
  split; [repeat constructor; by eexists|].
  split; [|split].
  - repeat constructor; cbn; rewrite ?elem_of_cons, ?elem_of_nil;
      intros H; repeat destruct H as [H|H]; done.
  - repeat constructor; cbn; rewrite ?elem_of_cons, ?elem_of_nil;
      intros H; repeat destruct H as [H|H]; done.
  - repeat constructor; cbn; rewrite ?elem_of_cons, ?elem_of_nil;
      intros H; repeat destruct H as [H|H]; done.
Qed.

(** The parameters of the example, merged: three names, [SEED] in its
    place. *)
Lemma merge_params_keeps_names_example :
  Forall named job_params /\ Forall named given_params /\
  Forall (fun p => NoDup p.*1) given_params /\
  exists merged,
    merge_params job_params given_params = Ret merged /\
    name_of <$> merged = [Some "SEED"; Some "DEPTH"; Some "RATE"]%string.
Proof.
  destruct example_params_named as (H1 & H2 & H3 & _).
  split; [exact H1|]. split; [exact H2|]. split; [exact H3|].
  destruct (merge_params_keeps_names job_params given_params H1 H2 H3)
    as (merged & new & Hrun & _ & Hnames & _).
  exists merged. split; [exact Hrun|].
  by injection Hrun as <-.
Defined.

Lemma given_for_cons (p input_param : Dict) (params : list Dict) :
  given_for p (input_param :: params) =
    if decide (name_of input_param = name_of p) then Some input_param
    else given_for p params.
Proof.
  unfold given_for. cbn [list_find].
  destruct (decide (name_of input_param = name_of p)); [done|].
  by destruct (list_find _ params) as [[i q]|].
Qed.

Lemma given_for_None (p : Dict) (params : list Dict) :
  name_of p ∉ (name_of <$> params) -> given_for p params = None.
Proof.
  induction params as [|ip ps IH]; [done|].
  rewrite fmap_cons, not_elem_of_cons, given_for_cons. intros [Hne Hin].
  rewrite decide_False by done. by apply IH.
Qed.

(** X19: when the names of the job's parameters are distinct and each name
    is given at most once, merging leaves every parameter of the job in its
    place, updated with the definition given under its name when there is
    one and unchanged when there is none, and every definition given under a
    name the job does not have is among the merged parameters as it was
    given. *)
Theorem merge_params_overrides_by_name (state_params params : list Dict) :
  Forall named state_params -> Forall named params ->
  Forall (fun p => NoDup p.*1) params ->
  NoDup (name_of <$> state_params) -> NoDup (name_of <$> params) ->
  exists merged,
    merge_params state_params params = Ret merged /\
    (forall i p, state_params !! i = Some p ->
       merged !! i =
         Some (match given_for p params with
               | Some input_param => dict_update p input_param
               | None => p
               end)) /\
    (forall input_param,
       input_param ∈ params -> name_of input_param ∉ (name_of <$> state_params) ->
       input_param ∈ merged).
Proof.
  intros Hsp Hps Hnd Hsp_nd Hps_nd. revert state_params Hsp Hsp_nd.
  induction Hps as [|ip ps Hip Hps IH]; intros sp Hsp Hsp_nd.
  - exists sp. split; [done|]. split; [done|]. by intros ? ?%elem_of_nil.
  - apply Forall_cons in Hnd as [Hnd_ip Hnd].
    rewrite fmap_cons in Hps_nd. apply NoDup_cons in Hps_nd as [Hip_new Hps_nd].
    rewrite merge_params_cons by done.
    destruct (merge_step_names sp ip Hsp Hip Hnd_ip) as [Hnext Hnames].
    cbn zeta in Hnext, Hnames.
    destruct (list_find (fun p => name_of p = name_of ip) sp)
      as [[i0 p0]|] eqn:Hfind.
    + apply list_find_Some in Hfind as (Hi0 & Hname0 & _).
      assert (name_of ip ∈ name_of <$> sp) as Hin.
      { rewrite <- Hname0. apply list_elem_of_fmap. exists p0.
        split; [done|]. by eapply list_elem_of_lookup_2. }
      rewrite decide_True, app_nil_r in Hnames by done.
      destruct (IH Hnd Hps_nd _ Hnext) as (merged & Hrun & HA & HB).
      { by rewrite Hnames. }
      exists merged. split; [exact Hrun|]. split.
      * intros i p Hi. rewrite given_for_cons.
        destruct (decide (i = i0)) as [->|Hne].
        -- assert (p = p0) as -> by congruence.
           rewrite decide_True by done.
           rewrite (HA i0 (dict_update p0 ip))
             by (apply list_lookup_insert_eq; by eapply lookup_lt_Some).
           rewrite given_for_None; [done|]. by rewrite name_of_update.
        -- rewrite decide_False.
           ++ apply HA. by rewrite list_lookup_insert_ne.
           ++ intros Heq. apply Hne.
              eapply (NoDup_lookup (name_of <$> sp)); [done| |].
              ** by rewrite list_lookup_fmap, Hi.
              ** rewrite list_lookup_fmap, Hi0. cbn. congruence.
      * intros ip' [->|Hin']%elem_of_cons Hnew; [done|].
        apply HB; [done|]. by rewrite Hnames.
    + rewrite decide_False in Hnames.
      2: { intros (p & Hp & Hin)%list_elem_of_fmap.
           eapply list_find_None in Hfind. rewrite Forall_forall in Hfind.
           by apply (Hfind p). }
      assert (name_of ip ∉ name_of <$> sp) as Hnotin.
      { intros (p & Hp & Hin)%list_elem_of_fmap.
        eapply list_find_None in Hfind. rewrite Forall_forall in Hfind.
        by apply (Hfind p). }
      destruct (IH Hnd Hps_nd _ Hnext) as (merged & Hrun & HA & HB).
      { rewrite Hnames. apply NoDup_app. split; [done|].
        split; [|apply NoDup_singleton].
        by intros n Hn ->%list_elem_of_singleton. }
      exists merged. split; [exact Hrun|]. split.
      * intros i p Hi. rewrite given_for_cons, decide_False.
        -- apply HA. by apply lookup_app_l_Some.
        -- intros Heq. apply Hnotin. rewrite Heq. apply list_elem_of_fmap.
           exists p. split; [done|]. by eapply list_elem_of_lookup_2.
      * intros ip' [->|Hin']%elem_of_cons Hnew.
        -- eapply list_elem_of_lookup_2.
           rewrite (HA (length sp) ip) by (by apply list_lookup_middle).
           by rewrite given_for_None.
        -- apply HB; [done|]. rewrite Hnames, elem_of_app, list_elem_of_singleton.
           intros [?|Heq]; [done|]. apply Hip_new. rewrite <- Heq.
           apply list_elem_of_fmap. eauto.
Qed.

(** The parameters of the example, merged: [SEED] has the type that is
    given, [DEPTH] is as it was, [RATE] is there. *)
Lemma merge_params_overrides_by_name_example :
  NoDup (name_of <$> job_params) /\ NoDup (name_of <$> given_params) /\
  exists merged,
    merge_params job_params given_params = Ret merged /\
    merged =
      [[("name"%string, JStr "SEED"); ("type"%string, JStr "integer")];
       [("name"%string, JStr "DEPTH"); ("type"%string, JStr "integer")];
       [("name"%string, JStr "RATE"); ("type"%string, JStr "float")]].
Proof.
  destruct example_params_named as (H1 & H2 & H3 & H4 & H5).
  split; [exact H4|]. split; [exact H5|].
  destruct (merge_params_overrides_by_name job_params given_params H1 H2 H3 H4 H5)
    as (merged & Hrun & _).
  exists merged. split; [exact Hrun|]. by injection Hrun as <-.
Defined.

(** ** [infer_backend_factory] *)

Section InferBackendFacts.

Variable environ : string -> option string.
Variable get_containers : list ApiGet -> PyJson -> Answer Script.t.
Variable get_scripts : list ApiGet -> Z -> Answer Template.

(** [infer_backend_factory], by what the service answers. *)
Lemma infer_backend_factory_run (required_resources : option Dict)
    (params : option (list Dict)) (arguments : option Dict)
    (polling_interval : option Q) (setup_cmd : option string)
    (max_submit_retries max_job_retries : Z) (hidden : bool)
    (log : list ApiGet) (job_id : string) :
  environ "CIVIS_JOB_ID" = Some job_id -> job_id <> ""%string ->
  let finish (own state : Script.t) (log' : list ApiGet) :=
    match merge_params (Script.params state) (default [] params) with
    | Ret merged =>
        (Ret (make_backend_factory
                (Script.docker_image_name state) (Script.docker_image_tag state)
                (Script.repo_http_uri state) (Script.repo_ref state)
                (Some (dict_update (Script.required_resources state)
                         (default [] required_resources)))
                (Some merged)
                (Some (dict_update (Script.arguments own) (default [] arguments)))
                polling_interval setup_cmd max_submit_retries max_job_retries
                hidden), log')
    | Raise e => (Raise e, log')
    | Diverge => (Diverge, log')
    end in
  infer_backend_factory environ get_containers get_scripts required_resources
    params arguments polling_interval setup_cmd max_submit_retries
    max_job_retries hidden log =
    let log1 := log ++ [GetContainers (JStr job_id)] in
    match get_containers log (JStr job_id) with
    | Raises e => (Raise e, log1)
    | Returns own =>
        match Script.from_template_id own with
        | Some tid =>
            if tid =? 0 then finish own own log1
            else
              let log2 := log1 ++ [GetTemplateScript tid] in
              match get_scripts log1 tid with
              | Raises e => (Raise e, log2)
              | Returns template =>
                  let log3 := log2 ++ [GetContainers (JInt (script_id template))] in
                  match get_containers log2 (JInt (script_id template)) with
                  | Returns backing => finish own backing log3
                  | Raises (CivisAPIError 404) => (Raise RuntimeError, log3)
                  | Raises e => (Raise e, log3)
                  end
              end
        | None => finish own own log1
        end
    end.
Proof.
  intros Henv Hne. cbn zeta. unfold infer_backend_factory. rewrite Henv.
  destruct job_id as [|c job_id]; [done|].
  unfold request, try_except, raise, lift_res. unfold mbind, M_bind, mret, M_ret.
  cbn [fst snd].
  destruct (get_containers log _) as [own|e]; cbn [answer]; [|done].
  destruct (Script.from_template_id own) as [tid|].
  - destruct (tid =? 0).
    + by destruct (merge_params _ _).
    + destruct (get_scripts _ tid) as [template|e]; cbn [answer]; [|done].
      destruct (get_containers _ (JInt _)) as [backing|e]; cbn [answer].
      * cbn. by destruct (merge_params _ _).
      * destruct e; try done. cbn.
        destruct status_code as [|[]|]; try done.
        repeat (match goal with
                | |- context [match ?p with xI _ => _ | xO _ => _ | xH => _ end] =>
                    destruct p
                end; try done).
  - by destruct (merge_params _ _).
Qed.

End InferBackendFacts.

(** X20: the errors of [infer_backend_factory].  With no [CIVIS_JOB_ID] in
    the environment, or an empty one, it raises [RuntimeError] and asks the
    service nothing.  When the job comes from a template and the request for
    the backing script fails with an API error, the status 404 becomes a
    [RuntimeError] and any other status is raised as it is.  An error of the
    request for the job itself is raised as it is, a 404 included. *)
Theorem infer_backend_factory_errors (environ : string -> option string)
    (get_containers : list ApiGet -> PyJson -> Answer Script.t)
    (get_scripts : list ApiGet -> Z -> Answer Template)
    (required_resources : option Dict) (params : option (list Dict))
    (arguments : option Dict) (polling_interval : option Q)
    (setup_cmd : option string) (max_submit_retries max_job_retries : Z)
    (hidden : bool) (log : list ApiGet) :
  let infer :=
    infer_backend_factory environ get_containers get_scripts
      required_resources params arguments polling_interval setup_cmd
      max_submit_retries max_job_retries hidden in
  (environ "CIVIS_JOB_ID" = None \/ environ "CIVIS_JOB_ID" = Some ""%string ->
   infer log = (Raise RuntimeError, log)) /\
  (forall job_id, environ "CIVIS_JOB_ID" = Some job_id -> job_id <> ""%string ->
     (forall e, get_containers log (JStr job_id) = Raises e ->
        infer log = (Raise e, log ++ [GetContainers (JStr job_id)])) /\
     (forall own tid template status_code,
        get_containers log (JStr job_id) = Returns own ->
        Script.from_template_id own = Some tid -> tid <> 0 ->
        get_scripts (log ++ [GetContainers (JStr job_id)]) tid = Returns template ->
        get_containers
          (log ++ [GetContainers (JStr job_id); GetTemplateScript tid])
          (JInt (script_id template)) = Raises (CivisAPIError status_code) ->
        (infer log).1 =
          Raise (if status_code =? 404 then RuntimeError
                 else CivisAPIError status_code))).
Proof.
  cbn zeta. split.
  - unfold infer_backend_factory. by intros [-> | ->].
  - intros job_id Henv Hne. split.
    + intros e He. rewrite (infer_backend_factory_run _ _ _ _ _ _ _ _ _ _ _ _ _ Henv Hne).
      cbn zeta. by rewrite He.
    + intros own tid template code Hown Htid Hne0 Htemplate Hbacking.
      rewrite (infer_backend_factory_run _ _ _ _ _ _ _ _ _ _ _ _ _ Henv Hne).
      cbn zeta. rewrite Hown, Htid.
      destruct (Z.eqb_spec tid 0); [done|]. rewrite Htemplate.
      rewrite <- app_assoc. cbn [app]. rewrite Hbacking.
      destruct (Z.eqb_spec code 404) as [->|Hcode]; [done|].
      destruct code as [|[]|]; try done.
      repeat (match goal with
              | |- context [match ?p with xI _ => _ | xO _ => _ | xH => _ end] =>
                  destruct p
              end; try done).
Qed.

(** X21: what [infer_backend_factory] infers.  For a job that does not come
    from a template, the factory is made from the image, the repository, the
    resources, the parameters and the arguments of the job itself; for a job
    from a template, from those of the backing script of the template,
    except for the arguments, which are those of the job.  In both cases the
    resources and the arguments are updated with the ones given, and the
    parameters are merged with the ones given. *)
Theorem infer_backend_factory_reads_the_job (environ : string -> option string)
    (get_containers : list ApiGet -> PyJson -> Answer Script.t)
    (get_scripts : list ApiGet -> Z -> Answer Template)
    (required_resources : option Dict) (params : option (list Dict))
    (arguments : option Dict) (polling_interval : option Q)
    (setup_cmd : option string) (max_submit_retries max_job_retries : Z)
    (hidden : bool) (log : list ApiGet) (job_id : string) (own : Script.t) :
  environ "CIVIS_JOB_ID" = Some job_id -> job_id <> ""%string ->
  get_containers log (JStr job_id) = Returns own ->
  let infer :=
    infer_backend_factory environ get_containers get_scripts
      required_resources params arguments polling_interval setup_cmd
      max_submit_retries max_job_retries hidden in
  let factory (state : Script.t) (merged : list Dict) :=
    make_backend_factory
      (Script.docker_image_name state) (Script.docker_image_tag state)
      (Script.repo_http_uri state) (Script.repo_ref state)
      (Some (dict_update (Script.required_resources state)
               (default [] required_resources)))
      (Some merged)
      (Some (dict_update (Script.arguments own) (default [] arguments)))
      polling_interval setup_cmd max_submit_retries max_job_retries hidden in
  (Script.from_template_id own = None \/ Script.from_template_id own = Some 0 ->
   forall merged,
     merge_params (Script.params own) (default [] params) = Ret merged ->
     infer log = (Ret (factory own merged), log ++ [GetContainers (JStr job_id)])) /\
  (forall tid template backing merged,
     Script.from_template_id own = Some tid -> tid <> 0 ->
     get_scripts (log ++ [GetContainers (JStr job_id)]) tid = Returns template ->
     get_containers (log ++ [GetContainers (JStr job_id); GetTemplateScript tid])
       (JInt (script_id template)) = Returns backing ->
     merge_params (Script.params backing) (default [] params) = Ret merged ->
     infer log =
       (Ret (factory backing merged),
        log ++ [GetContainers (JStr job_id); GetTemplateScript tid;
                GetContainers (JInt (script_id template))])).
Proof.
  intros Henv Hne Hown. cbn zeta.
  rewrite (infer_backend_factory_run _ _ _ _ _ _ _ _ _ _ _ _ _ Henv Hne).
  cbn zeta. rewrite Hown. split.
  - intros [-> | ->] merged ->; done.
  - intros tid template backing merged -> Hne0 Htemplate Hbacking Hmerge.
    destruct (Z.eqb_spec tid 0); [done|]. rewrite Htemplate.
    rewrite <- app_assoc. cbn [app]. rewrite Hbacking, Hmerge.
    by rewrite <- !app_assoc.
Qed.

(** The job of the example, with parameters and an argument given. *)
Lemma infer_backend_factory_reads_the_job_example :
  example_environ "CIVIS_JOB_ID" = Some "77"%string /\
  infer_backend_factory example_environ example_get_containers
    example_get_scripts None (Some given_params)
    (Some [("SEED"%string, JInt 2)]) None None 0 0 true []
  = (Ret (ContainerFactory "img" "latest" None None
            (Some [("cpu"%string, JInt 1024)])
            (Some [[("name"%string, JStr "SEED"); ("type"%string, JStr "integer")];
                   [("name"%string, JStr "DEPTH"); ("type"%string, JStr "integer")];
                   [("name"%string, JStr "RATE"); ("type"%string, JStr "float")]])
            (Some [("SEED"%string, JInt 2)]) None ":" 0 0 true),
     [GetContainers (JStr "77")]).
Proof.
  split; [done|].
  refine (proj1 (infer_backend_factory_reads_the_job example_environ
                   example_get_containers example_get_scripts None
                   (Some given_params) (Some [("SEED"%string, JInt 2)]) None None
                   0 0 true [] "77" example_script eq_refl _ eq_refl)
            (or_introl eq_refl) _ eq_refl).
  done.
Defined.

(** ** Submitting and then cancelling *)

(** What [submit_each] starts, and the futures it registers. *)
Lemma submit_each_started (env : Env) (cmds : list string) (tr : Trace)
    (e : Executor) :
  service_up env -> runs_in_progress env -> _shutdown_thread e = false ->
  Forall has_job (_futures e) -> Forall (pollable env) (_futures e) ->
  exists started tr1 e1,
    submit_each env cmds (tr, e) = (Ret tt, (tr1, e1)) /\
    new_runs tr1 = new_runs tr ++ started /\
    cancel_requests tr1 = cancel_requests tr /\
    omap pending_job (_futures e1) = omap pending_job (_futures e) ++ started /\
    Forall has_job (_futures e1) /\ Forall (pollable env) (_futures e1) /\
    (length (_futures e1) = length (_futures e) + length started)%nat.
Proof.
  intros Hup Hprog. revert tr e.
  induction cmds as [|cmd cmds IH]; intros tr e Hdown Hjobs Hpoll.
  - exists [], tr, e. rewrite !app_nil_r. cbn. by rewrite Nat.add_0_r.
  - rewrite submit_each_cons.
    assert (_shutdown_thread (name_taken e) = false /\
            _futures (name_taken e) = _futures e) as [Hdown' Hfs'].
    { unfold name_taken. by destruct (inc_script_names e). }
    destruct (create_job env tr (next_script_name e) None cmd) as [job|x] eqn:Hjob.
    + destruct (submit_accepted env (Some cmd) None tr e job Hup Hdown Hjob)
        as (run & channels & _ & ->).
      set (t := new_future _ _ _ _ _).
      set (tr0 := tr ++ _).
      destruct (IH tr0 (set_futures (_futures e ++ [t]) (name_taken e)))
        as (started & tr1 & e1 & Hrun & Hruns & Hreq & Hpend & Hjobs1 & Hpoll1 & Hlen).
      { done. }
      { cbn. apply Forall_app. split; [done|]. repeat constructor.
        by exists (r_id job), [r_id run]. }
      { cbn. apply Forall_app. split; [done|]. apply Forall_singleton.
        right. split; [done|]. by exists (r_id job), (r_id run). }
      exists (r_id job :: started), tr1, e1. split; [exact Hrun|].
      destruct (creation_events_log env channels) as (_ & Hr & Hc & _).
      subst tr0. rewrite Hruns, Hreq, Hpend. cbn [_futures set_futures].
      rewrite !new_runs_app, !cancel_requests_app, Hr, Hc, omap_app.
      cbn [new_runs cancel_requests omap app]. rewrite !app_nil_r, <- !app_assoc.
      assert (omap pending_job [t] = [r_id job]) as Hp by done.
      change (list_omap Tracker Z pending_job [t]) with (omap pending_job [t]).
      rewrite Hp.
      split; [done|]. split; [done|]. split; [done|]. split; [done|].
      split; [done|].
      rewrite Hlen. cbn. rewrite length_app. cbn. lia.
    + rewrite submit_run, Hdown. cbn zeta.
      change (default ""%string (Some cmd)) with cmd. rewrite Hjob.
      destruct (IH (tr ++ [EvCreateJob (next_script_name e) cmd]) (name_taken e))
        as (started & tr1 & e1 & Hrun & Hruns & Hreq & Hpend & Hjobs1 & Hpoll1 & Hlen);
        [done|by rewrite Hfs'|by rewrite Hfs'|].
      exists started, tr1, e1. split; [exact Hrun|].
      rewrite Hruns, Hreq, Hpend, Hlen, Hfs'.
      rewrite new_runs_app, cancel_requests_app. cbn. by rewrite !app_nil_r.
Qed.

(** X22: on a service that is up, reports the runs as in progress and
    answers every cancel request with a terminal state, after any number of
    submissions, whether the service accepts the job or not, every run that
    was started has a future in the registry, and [cancel_all] then asks the
    service to cancel the futures that were pending before and each of these
    runs, in the order of their start, and leaves every future done. *)
Theorem cancel_all_cancels_what_was_submitted (env : Env) (cmds : list string)
    (tr : Trace) (e : Executor) :
  service_up env -> runs_in_progress env -> service_stops_runs env ->
  _shutdown_thread e = false ->
  Forall has_job (_futures e) -> Forall (pollable env) (_futures e) ->
  exists started tr1 e1 tr2 e2,
    submit_each env cmds (tr, e) = (Ret tt, (tr1, e1)) /\
    new_runs tr1 = new_runs tr ++ started /\
    (length (_futures e1) = length (_futures e) + length started)%nat /\
    cancel_requests tr1 = cancel_requests tr /\
    cancel_all env (tr1, e1) = (Ret tt, (tr2, e2)) /\
    cancel_requests tr2 =
      cancel_requests tr ++ omap pending_job (_futures e) ++ started /\
    new_runs tr2 = new_runs tr1 /\
    Forall (fun t => done t = true) (_futures e2).
Proof.
  intros Hup Hprog Hstops Hdown Hjobs Hpoll.
  destruct (submit_each_started env cmds tr e Hup Hprog Hdown Hjobs Hpoll)
    as (started & tr1 & e1 & Hrun & Hruns & Hreq & Hpend & Hjobs1 & Hpoll1 & Hlen).
  destruct (cancel_all_from env Hstops (length (_futures e1)) 0 tr1 e1)
    as (tr2 & fs2 & Hall & Hlen2 & Hreq2 & Hruns2 & Hkeep & Hdone); [done..|].
  exists started, tr1, e1, tr2, (set_futures fs2 e1).
  split; [exact Hrun|]. split; [exact Hruns|]. split; [exact Hlen|].
  split; [exact Hreq|]. split.
  { unfold cancel_all. unfold mbind, M_bind. cbn. exact Hall. }
  split.
  { rewrite Hreq2, Hreq, drop_0. by rewrite Hpend. }
  split; [exact Hruns2|]. cbn.
  apply Forall_lookup_2. intros i t' Hi.
  destruct (lookup_lt_is_Some_2 (_futures e1) i) as [t Ht].
  { rewrite <- Hlen2. by eapply lookup_lt_Some. }
  destruct (done t) eqn:Hd.
  - rewrite (Hkeep i t Ht (or_intror Hd)) in Hi. congruence.
  - destruct (Hdone i t Ht ltac:(lia) Hd) as (t0 & Ht0 & Hd0 & _). congruence.
Qed.

(** Two submissions on the example service, then [cancel_all]. *)
Lemma cancel_all_cancels_what_was_submitted_example :
  service_up example_env /\ runs_in_progress example_env /\
  service_stops_runs example_env /\
  exists tr1 e1 tr2 e2,
    submit_each example_env ["a"; "b"]%string ([], numbering_executor)
      = (Ret tt, (tr1, e1)) /\
    cancel_all example_env (tr1, e1) = (Ret tt, (tr2, e2)) /\
    cancel_requests tr2 = [7; 7] /\ status_requests tr2 = [(7, 100); (7, 101)].
Proof.
  assert (service_up example_env) as Hup.
  { split; [intros tr job|intros tr]; by eexists. }
  assert (runs_in_progress example_env) as Hp by (intros tr job run; by eexists).
  assert (service_stops_runs example_env) as Hc by (intros tr job; by eexists).
  split; [exact Hup|]. split; [exact Hp|]. split; [exact Hc|].
  destruct (cancel_all_cancels_what_was_submitted example_env ["a"; "b"]%string []
              numbering_executor Hup Hp Hc eq_refl ltac:(constructor)
              ltac:(constructor))
    as (started & tr1 & e1 & tr2 & e2 & Hrun & Hruns & _ & _ & Hall & Hreq & _).
  exists tr1, e1, tr2, e2. split; [exact Hrun|]. split; [exact Hall|].
  assert ((tr1, e1) = (submit_each example_env ["a"; "b"]%string
                         ([], numbering_executor)).2) as Hs by (by rewrite Hrun).
  assert (tr2 = (cancel_all example_env
                   (submit_each example_env ["a"; "b"]%string
                      ([], numbering_executor)).2).2.1) as ->
    by (by rewrite <- Hs, Hall).
  by vm_compute.
Defined.
